(** * GitHub "microservices" crawler: date-window partitioning, paging,
      rate limiting and download bookkeeping

    A shallow embedding of the crawler variants of the repository

      - [crawler_refactored.py]               (module [Refactored])
      - [Crawler/crawler_refactored_with_SRP.py]  (module [SRP])
      - [crawler.py] / [Classes/Crawler.py]   (module [Legacy], page count
        and topic gate only)

    together with the part of Python's [datetime] arithmetic the code
    relies on (module [PyDatetime]) and a model of the outside world the
    code talks to: the HTTP server, the wall clock, the file system and
    the CSV sink (module [World]). *)

From Stdlib Require Import ZArith Lia List Bool Ascii String.
From stdpp Require Import base numbers list strings gmap pretty.
From Equations Require Import Equations.
Import ListNotations.

Local Open Scope Z_scope.

(* ===================================================================== *)
(** ** Python's [datetime] / [timedelta] arithmetic *)
(* ===================================================================== *)

Module PyDatetime.

(** Calendar helpers of CPython's [datetime] module (proleptic
    Gregorian calendar, ordinal 1 = 0001-01-01). *)

Definition is_leap (year : Z) : bool :=
  (year mod 4 =? 0) && (negb (year mod 100 =? 0) || (year mod 400 =? 0)).

Definition days_before_year (year : Z) : Z :=
  let y := year - 1 in y * 365 + y / 4 - y / 100 + y / 400.

Definition days_in_month_table : list Z :=
  [31; 28; 31; 30; 31; 30; 31; 31; 30; 31; 30; 31].

(** Days of the year before the first day of [month] (1-based). *)
Definition days_before_month (year month : Z) : Z :=
  fold_right Z.add 0 (firstn (Z.to_nat (month - 1)) days_in_month_table)
  + (if (2 <? month) && is_leap year then 1 else 0).

Definition ymd2ord (year month day : Z) : Z :=
  days_before_year year + days_before_month year month + day.

(** A [timedelta] is a number of microseconds; a [datetime] is the
    number of microseconds elapsed since midnight of ordinal 0, so
    that the calendar day of [t] is [t / usec_per_day].  Both have
    microsecond resolution, as in Python. *)
Definition timedelta := Z.
Definition datetime := Z.

Definition usec_per_day : Z := 86400000000.

Definition days (n : Z) : timedelta := n * usec_per_day.

(** [datetime(year, month, day)]: midnight of that day. *)
Definition mk_datetime (year month day : Z) : datetime :=
  ymd2ord year month day * usec_per_day.

(** [datetime(year, month, day, hour, minute)]. *)
Definition mk_datetime_at (year month day hour minute : Z) : datetime :=
  mk_datetime year month day + (hour * 3600 + minute * 60) * 1000000.

(** [t.date().toordinal()].  The strings produced by
    [f"{t:%Y-%m-%d}"] and [t.strftime("%Y-%m-%d")] depend on [t]
    through this number only, and distinct ordinals render as
    distinct strings; the model uses the ordinal in their place. *)
Definition date_of (t : datetime) : Z := t / usec_per_day.

(** [datetime.min] and [datetime.max]. *)
Definition datetime_min : datetime := mk_datetime 1 1 1.
Definition datetime_max : datetime := mk_datetime 9999 12 31 + usec_per_day - 1.

Definition in_range (t : datetime) : bool :=
  (datetime_min <=? t) && (t <=? datetime_max).

(** [_divide_and_round a b]: the quotient [a / b] rounded to the
    nearest integer, ties to even; this is how [timedelta / int]
    rounds to whole microseconds. *)
Definition divide_and_round (a b : Z) : Z :=
  let q := a / b in
  let r := (a mod b) * 2 in
  let greater_than_half := if 0 <? b then b <? r else r <? b in
  if greater_than_half || ((r =? b) && (q mod 2 =? 1)) then q + 1 else q.

(** [td / n] for an integer [n]. *)
Definition td_div (td : timedelta) (n : Z) : timedelta := divide_and_round td n.

(** [a - b] on datetimes. *)
Definition dt_sub (a b : datetime) : timedelta := a - b.

(** [t + td]; Python raises [OverflowError] when the sum leaves
    [datetime.min .. datetime.max]: [None] here. *)
Definition dt_add (t : datetime) (td : timedelta) : option datetime :=
  if in_range (t + td) then Some (t + td) else None.

(** The loops over top-level windows progress: the day after a window
    clipped to [finish] is a later day than the day of its start. *)
Lemma next_start_later (start finish step : Z) :
  start <= finish -> 0 <= step ->
  Nat.lt
    (Z.to_nat (date_of finish + 1 - date_of (Z.min (start + step) finish + days 1)))
    (Z.to_nat (date_of finish + 1 - date_of start)).
Proof.
  intros Hle Hstep. unfold date_of, days.
  rewrite Z.div_add by (unfold usec_per_day; lia).
  assert (H1 : start / usec_per_day <= Z.min (start + step) finish / usec_per_day)
    by (apply Z.div_le_mono; unfold usec_per_day; lia).
  assert (H2 : Z.min (start + step) finish / usec_per_day <= finish / usec_per_day)
    by (apply Z.div_le_mono; unfold usec_per_day; lia).
  revert H1 H2.
  generalize (Z.min (start + step) finish / usec_per_day).
  generalize (finish / usec_per_day). generalize (start / usec_per_day).
  unfold Nat.lt. intros; lia.
Defined.

End PyDatetime.

Import PyDatetime.


(* ===================================================================== *)
(** ** The outside world: HTTP server, clock, file system, CSV sink *)
(* ===================================================================== *)

Module World.

(** One element of the ["items"] array of a search response.  The
    keys the code reads with [item[...]] are always sent by the API
    and are plain fields; the keys it reads with [item.get(...)] may
    be absent. *)
Record Item := mkItem {
  owner_login : string;
  name : string;
  full_name : string;
  clone_url : string;
  default_branch : option string;
  topics : option (list string)
}.

(** The query parameters of a search request.  The search string
    [q = "<query> created:<from>..<to>"] is kept in parts; the two
    dates are the ordinals of the formatted days. *)
Record SearchParams := mkParams {
  q_query : string;
  q_from : Z;
  q_to : Z;
  per_page : Z;
  sort_order : option (string * string);
  page : option Z
}.

Record Request := mkRequest {
  req_url : string;
  req_params : option SearchParams;
  req_stream : bool
}.

(** The decoded JSON body of a search response. *)
Record SearchBody := mkBody {
  total_count : option Z;
  items : option (list Item)
}.

(** What the code looks at in a [requests.Response].  [json = None]
    is a body that does not decode; [content] are the chunks that
    [iter_content] delivers and [stream_err] a failure of the
    connection after they were delivered. *)
Record Response := mkResponse {
  status_code : Z;
  reason : string;
  url : string;
  headers : gmap string string;
  json : option SearchBody;
  content : list string;
  stream_err : option string
}.

(** The outcome of [session.get]: a response (after the transport
    adapter's own retries), or a transport failure with its message. *)
Inductive Reply :=
| Resp (r : Response)
| NetErr (msg : string).

(** The behaviour of the environment, fixed during a run: what the
    server answers to the [k]-th request of the run, and for which
    paths opening a file for writing fails (with which message). *)
Record Env := mkEnv {
  srv : nat -> Request -> Reply;
  open_err : string -> option string
}.

(** Observable actions, in the order in which they happen.  [EvWarn] is
    a log record of level WARNING (records of level INFO and the
    [print]ed progress lines are not modelled); [EvYield] marks the point
    where a generator hands an item to its consumer. *)
Inductive Event :=
| EvRequest (r : Request)
| EvSleep (secs : Z)
| EvWarn (msg : string)
| EvYield (it : Item)
| EvRow (row : list string)
| EvOpen (path : string)
| EvWrite (path : string) (chunk : string).

(** The mutable state: the clock in whole seconds ([int(time.time())]),
    the number of requests sent so far and the trace of events. *)
Record State := mkState {
  clock : Z;
  nreq : nat;
  trace : list Event
}.

Inductive exn_class :=
| HTTPError | ConnectionError | OSError | ValueError
| OverflowError | RecursionError.

(** An exception; [exn_msg] is [str(e)]. *)
Record exn := Exn { exn_kind : exn_class; exn_msg : string }.

Inductive result (A : Type) :=
| Ok (a : A)
| Raise (e : exn).
Arguments Ok {A} a.
Arguments Raise {A} e.

(** Computations that read and change the state and may raise.  The
    state changes made before an exception is raised persist. *)
Definition M (A : Type) : Type := State -> result A * State.

Definition ret {A} (a : A) : M A := fun w => (Ok a, w).

Definition raise {A} (e : exn) : M A := fun w => (Raise e, w).

Definition bind {A B} (m : M A) (f : A -> M B) : M B :=
  fun w => match m w with
           | (Ok a, w') => f a w'
           | (Raise e, w') => (Raise e, w')
           end.

(** [try: m  except Exception as e: h e]. *)
Definition try_except {A} (m : M A) (h : exn -> M A) : M A :=
  fun w => match m w with
           | (Ok a, w') => (Ok a, w')
           | (Raise e, w') => h e w'
           end.

Declare Scope py_scope.
Delimit Scope py_scope with py.
Notation "x <- m ;; k" := (bind m (fun x => k))
  (at level 100, m at next level, right associativity) : py_scope.
Notation "m ;; k" := (bind m (fun _ => k))
  (at level 100, right associativity) : py_scope.

(** A value together with the equation that it satisfies, for
    definitions that branch on a test and need it in their proofs. *)
Definition inspect {A} (a : A) : {b | a = b} := exist _ a eq_refl.

(** [for x in xs: s = body x s], the loop variables threaded as [s]. *)
Fixpoint for_each {A S} (xs : list A) (body : A -> S -> M S) (s : S) : M S :=
  match xs with
  | [] => ret s
  | x :: xs' => bind (body x s) (for_each xs' body)
  end.

(** [range(a, b)]. *)
Definition py_range (a b : Z) : list Z :=
  map (fun i => a + Z.of_nat i) (seq 0 (Z.to_nat (b - a))).

Definition emit (ev : Event) : M unit :=
  fun w => (Ok tt, mkState (clock w) (nreq w) (trace w ++ [ev])).

Section Primitives.
Variable env : Env.

(** [session.get(url, params=..., stream=...)]. *)
Definition session_get (req : Request) : M Response :=
  fun w =>
    let w' := mkState (clock w) (S (nreq w)) (trace w ++ [EvRequest req]) in
    match srv env (nreq w) req with
    | Resp r => (Ok r, w')
    | NetErr msg => (Raise (Exn ConnectionError msg), w')
    end.

(** [open(path, "w")] and [open(path, "wb")]. *)
Definition open_for_write (path : string) : M unit :=
  match open_err env path with
  | Some msg => raise (Exn OSError msg)
  | None => emit (EvOpen path)
  end.
End Primitives.

(** [int(time.time())]. *)
Definition time_time : M Z := fun w => (Ok (clock w), w).

(** [time.sleep(secs)]. *)
Definition time_sleep (secs : Z) : M unit :=
  if secs <? 0 then raise (Exn ValueError "sleep length must be non-negative")
  else fun w => (Ok tt, mkState (clock w + secs) (nreq w) (trace w ++ [EvSleep secs])).

(** [resp.raise_for_status()]. *)
Definition http_error_msg (r : Response) : option string :=
  if (400 <=? status_code r) && (status_code r <? 500) then
    Some (pretty (status_code r) +:+ " Client Error: " +:+ reason r +:+ " for url: " +:+ url r)
  else if (500 <=? status_code r) && (status_code r <? 600) then
    Some (pretty (status_code r) +:+ " Server Error: " +:+ reason r +:+ " for url: " +:+ url r)
  else None.

Definition raise_for_status (r : Response) : M unit :=
  match http_error_msg r with
  | Some msg => raise (Exn HTTPError msg)
  | None => ret tt
  end.

(** [resp.json()]. *)
Definition resp_json (r : Response) : M SearchBody :=
  match json r with
  | Some b => ret b
  | None => raise (Exn ValueError "Expecting value: line 1 column 1 (char 0)")
  end.

(** [for chunk in r.iter_content(...): if chunk: f.write(chunk)]. *)
Definition stream_to_file (r : Response) (path : string) : M unit :=
  (for_each (content r)
     (fun chunk (_ : unit) =>
        if String.eqb chunk "" then ret tt else emit (EvWrite path chunk)) tt ;;
   match stream_err r with
   | Some msg => raise (Exn ConnectionError msg)
   | None => ret tt
   end)%py.

(** [int(s)] for a string [s]: optional surrounding white space, an
    optional sign, then decimal digits, single underscores allowed
    between digits. *)
Definition is_space (c : ascii) : bool :=
  let n := nat_of_ascii c in
  ((9 <=? n) && (n <=? 13))%nat || (n =? 32)%nat.

Definition digit_of (c : ascii) : option Z :=
  let n := nat_of_ascii c in
  if ((48 <=? n) && (n <=? 57))%nat then Some (Z.of_nat n - 48) else None.

Fixpoint lstrip (s : string) : string :=
  match s with
  | String c s' => if is_space c then lstrip s' else s
  | EmptyString => EmptyString
  end.

Definition strip (s : string) : string :=
  String.rev (lstrip (String.rev (lstrip s))).

(** Digits with the value accumulated so far; [prev] tells whether
    the previous character was a digit (an underscore must follow
    one and be followed by one). *)
Fixpoint parse_digits (s : string) (acc : Z) (prev : bool) : option Z :=
  match s with
  | EmptyString => if prev then Some acc else None
  | String c s' =>
      match digit_of c with
      | Some d => parse_digits s' (acc * 10 + d) true
      | None =>
          if (nat_of_ascii c =? 95)%nat && prev then parse_digits s' acc false
          else None
      end
  end.

Definition parse_int (s : string) : option Z :=
  match strip s with
  | String "-" s' => option_map Z.opp (parse_digits s' 0 false)
  | String "+" s' => parse_digits s' 0 false
  | s' => parse_digits s' 0 false
  end.

Definition py_int (s : string) : M Z :=
  match parse_int s with
  | Some n => ret n
  | None => raise (Exn ValueError ("invalid literal for int() with base 10: '" +:+ s +:+ "'"))
  end.

(** [s.replace(a, b)] for single characters. *)
Fixpoint replace_char (a b : ascii) (s : string) : string :=
  match s with
  | EmptyString => EmptyString
  | String c s' => String (if Ascii.eqb c a then b else c) (replace_char a b s')
  end.

(** [x or d] for an optional string: [d] when [x] is absent or empty. *)
Definition or_default (x : option string) (d : string) : string :=
  match x with
  | Some s => if String.eqb s "" then d else s
  | None => d
  end.

(** [math.ceil(a / b)] for [b > 0].  For the arguments that occur
    (a result count of at most a few million over the page size) the
    floating point quotient and its ceiling are exact. *)
Definition ceil_div (a b : Z) : Z := - ((- a) / b).

End World.

Import World.

(* ===================================================================== *)
(** ** crawler_refactored.py *)
(* ===================================================================== *)

Module Refactored.

Definition OUTPUT_DIR : string := "C:/Thesis V3/Output".
Definition TOPIC : string := "microservices".
Definition BASE_SEARCH_URL : string := "https://api.github.com/search/repositories".
Definition PER_PAGE : Z := 100.
Definition DELAY_BETWEEN_PAGES : Z := 5.
Definition MAX_RESULTS_PER_QUERY : Z := 1000.
Definition DATE_STEP_DAYS : Z := 182.

(** The loop variables of [crawl]. *)
Record Counters := mkCounters {
  period_downloaded : Z;
  period_failed : Z;
  page_count_estimate : Z;
  total_downloaded : Z;
  total_failed : Z
}.

(** One row of the summary sheet. *)
Record SummaryRow := mkRow {
  row_start : Z;
  row_end : Z;
  row_downloaded : Z;
  row_pages : Z;
  row_failed : Z
}.

(** [math.ceil(min(total_count, MAX_RESULTS_PER_QUERY) / PER_PAGE)],
    the expression of both [iter_search_pages] and [crawl]. *)
Definition page_count (total_count : Z) : Z :=
  ceil_div (Z.min total_count MAX_RESULTS_PER_QUERY) PER_PAGE.

(** The parameters of the count query ... *)
Definition count_params (start end_ : datetime) : SearchParams :=
  mkParams ("topic:" +:+ TOPIC) (date_of start) (date_of end_) 1 None None.

(** ... and of a page query; the first request carries no [page]. *)
Definition page_params (start end_ : datetime) (page : option Z) : SearchParams :=
  mkParams ("topic:" +:+ TOPIC) (date_of start) (date_of end_) PER_PAGE
           (Some ("stars", "desc")) page.

Definition search_request (p : SearchParams) : Request :=
  mkRequest BASE_SEARCH_URL (Some p) false.

Definition zip_download_url (full_name default_branch : string) : string :=
  "https://api.github.com/repos/" +:+ full_name +:+ "/zipball/" +:+ default_branch.

Definition zip_request (full_name default_branch : string) : Request :=
  mkRequest (zip_download_url full_name default_branch) None true.

Definition recursion_error : exn :=
  Exn RecursionError "maximum recursion depth exceeded".
Definition overflow_error : exn :=
  Exn OverflowError "date value out of range".

(** [t + td] as a statement of the program. *)
Definition add_or_raise (t : datetime) (td : timedelta) : M datetime :=
  match dt_add t td with
  | Some t' => ret t'
  | None => raise overflow_error
  end.

Section WithEnv.
Variable env : Env.
Local Open Scope py_scope.

Definition rate_limit_sleep (resp : Response) : M unit :=
  if status_code resp =? 403 then
    match headers resp !! "X-RateLimit-Reset" with
    | Some reset =>
        if String.eqb reset "" then ret tt
        else
          reset_ts <- py_int reset ;;
          now <- time_time ;;
          let wait := Z.max 0 (reset_ts - now + 3) in
          emit (EvWarn ("Rate limit hit. Sleeping " +:+ pretty wait +:+ "s until reset.")) ;;
          time_sleep wait
    | None => ret tt
    end
  else ret tt.

Definition search_count (start end_ : datetime) : M Z :=
  resp <- session_get env (search_request (count_params start end_)) ;;
  rate_limit_sleep resp ;;
  raise_for_status resp ;;
  data <- resp_json resp ;;
  ret (default 0 (total_count data)).

(** The generator [iter_search_pages], in continuation-passing
    style: [body] is the body of the [for] loop that consumes it
    and [s] the loop variables; every [yield item] records
    [EvYield item] and runs [body item]. *)
Definition yield_items {S} (body : Item -> S -> M S) (its : list Item) (s : S) : M S :=
  for_each its (fun it s => emit (EvYield it) ;; body it s) s.

Definition iter_search_pages {S} (start end_ : datetime)
    (body : Item -> S -> M S) (s : S) : M S :=
  resp <- session_get env (search_request (page_params start end_ None)) ;;
  rate_limit_sleep resp ;;
  raise_for_status resp ;;
  data <- resp_json resp ;;
  let total_count := default 0 (total_count data) in
  let pages := page_count total_count in
  s <- yield_items body (default [] (items data)) s ;;
  for_each (py_range 2 (pages + 1))
    (fun page s =>
       resp <- session_get env (search_request (page_params start end_ (Some page))) ;;
       rate_limit_sleep resp ;;
       raise_for_status resp ;;
       data <- resp_json resp ;;
       s <- yield_items body (default [] (items data)) s ;;
       time_sleep DELAY_BETWEEN_PAGES ;;
       ret s) s.

(** [split_window_if_needed]; [depth] is the number of stack frames
    the interpreter still allows, a call with none left raises
    [RecursionError]. *)
Fixpoint split_window_if_needed (depth : nat) (start end_ : datetime)
    : M (list (datetime * datetime)) :=
  match depth with
  | O => raise recursion_error
  | S depth' =>
      cnt <- search_count start end_ ;;
      if cnt <=? MAX_RESULTS_PER_QUERY then ret [(start, end_)]
      else
        midpoint <- add_or_raise start (td_div (dt_sub end_ start) 2) ;;
        left <- split_window_if_needed depth' start midpoint ;;
        right_start <- add_or_raise midpoint (days 1) ;;
        right <- split_window_if_needed depth' right_start end_ ;;
        ret (left ++ right)
  end.

Definition download_zip (full_name default_branch out_path : string) : M unit :=
  r <- session_get env (zip_request full_name default_branch) ;;
  rate_limit_sleep r ;;
  raise_for_status r ;;
  open_for_write env out_path ;;
  stream_to_file r out_path.

(** The body of [for item in iter_search_pages(...)] in [crawl].  The
    path [OUTPUT_DIR / zip_name] is written with the separator ["/"]. *)
Definition crawl_item (item : Item) (c : Counters) : M Counters :=
  let owner := owner_login item in
  let repo := name item in
  let full_name := full_name item in
  let clone_url := clone_url item in
  let default_branch := or_default (default_branch item) "main" in
  let topics := default [] (topics item) in
  let zip_name := replace_char "/" "#" full_name +:+ "@" +:+ default_branch +:+ ".zip" in
  let zip_path := OUTPUT_DIR +:+ "/" +:+ zip_name in
  try_except
    (download_zip full_name default_branch zip_path ;;
     emit (EvRow [owner; repo; full_name; clone_url; default_branch;
                  String.concat ";" topics; "downloaded"; zip_path]) ;;
     ret (mkCounters (period_downloaded c + 1) (period_failed c)
                     (page_count_estimate c)
                     (total_downloaded c + 1) (total_failed c)))
    (fun e =>
     emit (EvWarn ("Failed to download " +:+ full_name +:+ " (" +:+ default_branch
                   +:+ "): " +:+ exn_msg e)) ;;
     emit (EvRow [owner; repo; full_name; clone_url; default_branch;
                  String.concat ";" topics; "error"; zip_path]) ;;
     ret (mkCounters (period_downloaded c) (period_failed c + 1)
                     (page_count_estimate c)
                     (total_downloaded c) (total_failed c + 1))).

(** The body of [for win_start, win_end in windows]. *)
Definition crawl_window (win : datetime * datetime) (c : Counters) : M Counters :=
  let '(win_start, win_end) := win in
  tc <- search_count win_start win_end ;;
  let c := mkCounters (period_downloaded c) (period_failed c)
                      (page_count_estimate c + page_count tc)
                      (total_downloaded c) (total_failed c) in
  iter_search_pages win_start win_end crawl_item c.

(** The body of the [while] loop of [crawl] between the computation
    of [current_end] and the update of [current_start]: it handles
    one top-level window and yields its summary row and the totals. *)
Definition crawl_period (depth : nat) (current_start current_end : datetime)
    (totals : Z * Z) : M (SummaryRow * (Z * Z)) :=
  windows <- split_window_if_needed depth current_start current_end ;;
  c <- for_each windows crawl_window
         (mkCounters 0 0 0 (fst totals) (snd totals)) ;;
  ret (mkRow (date_of current_start) (date_of current_end)
             (period_downloaded c) (page_count_estimate c) (period_failed c),
       (total_downloaded c, total_failed c)).

End WithEnv.

Definition OUTPUT_CSV : string := "C:/Thesis V3/repositories-for-microservices.csv".

Definition csv_header : list string :=
  ["Username"; "Repository Name"; "Full Name"; "Clone URL"; "Default Branch";
   "Topics"; "Download Status"; "Zip Path"].

(** The [while current_start <= finish_date] loop of [crawl]; the
    accumulator holds [summary_rows] and the two totals.  Every
    iteration moves [current_start] forward by at least a day. *)
Equations? crawl_loop (env : Env) (depth : nat) (finish_date current_start : datetime)
    (acc : list SummaryRow * (Z * Z)) (w : State)
    : result (list SummaryRow * (Z * Z)) * State
    by wf (Z.to_nat (date_of finish_date + 1 - date_of current_start)) lt :=
  crawl_loop env depth finish_date current_start acc w
    with inspect (current_start <=? finish_date) := {
    | exist _ false _ => (Ok acc, w)
    | exist _ true Hle
        with inspect (dt_add current_start (days DATE_STEP_DAYS)) := {
        | exist _ None _ => (Raise overflow_error, w)
        | exist _ (Some t) Ht
            with crawl_period env depth current_start (Z.min t finish_date)
                              (snd acc) w := {
            | (Raise e, w') => (Raise e, w')
            | (Ok (row, totals), w')
                with inspect (dt_add (Z.min t finish_date) (days 1)) := {
                | exist _ None _ => (Raise overflow_error, w')
                | exist _ (Some next) Hn =>
                    crawl_loop env depth finish_date next
                               (fst acc ++ [row], totals) w' } } } }.
Proof.
  unfold dt_add in Ht, Hn.
  destruct (in_range (current_start + days DATE_STEP_DAYS)); [|discriminate].
  destruct (in_range (Z.min t finish_date + days 1)); [|discriminate].
  inversion Ht; inversion Hn; subst.
  apply Z.leb_le in Hle.
  apply (next_start_later current_start finish_date (days DATE_STEP_DAYS));
    [exact Hle|discriminate].
Defined.

(** [crawl(start_date, finish_date)]; the result is the content of
    the summary sheet that [to_excel] writes. *)
Definition crawl (env : Env) (depth : nat) (start_date finish_date : datetime)
    : M (list SummaryRow) :=
  (open_for_write env OUTPUT_CSV ;;
   emit (EvRow csv_header) ;;
   r <- crawl_loop env depth finish_date start_date ([], (0, 0)) ;;
   ret (fst r))%py.

End Refactored.

(* ===================================================================== *)
(** ** Crawler/crawler_refactored_with_SRP.py *)
(* ===================================================================== *)

Module SRP.

(** The fields of [AppConfig] that the modelled code reads. *)
Record AppConfig := mkConfig {
  output_folder : string;
  base_url : string;
  query : string;
  per_page : Z;
  delay_between_pages_sec : Z
}.

Definition default_config (output_folder : string) : AppConfig :=
  mkConfig output_folder "https://api.github.com/search/repositories"
           "topic:microservices" 100 10.

Section WithEnv.
Variable env : Env.
Variable cfg : AppConfig.
Local Open Scope py_scope.

(** The wait of [GitHubSearchClient._get] after a throttled reply. *)
Definition throttle_wait (resp : Response) : M unit :=
  reset <- py_int (default "0" (headers resp !! "X-RateLimit-Reset")) ;;
  now <- time_time ;;
  let sleep_for := Z.max 0 (reset - now + 5) in
  time_sleep sleep_for.

Definition throttled (resp : Response) : bool :=
  (status_code resp =? 403)
  && bool_decide (is_Some (headers resp !! "X-RateLimit-Remaining"))
  && String.eqb (default "0" (headers resp !! "X-RateLimit-Remaining")) "0".

(** [GitHubSearchClient._get]: a [while True] loop; [fuel] bounds
    the number of iterations and [None] means that the loop was
    still running when it was used up. *)
Fixpoint _get (fuel : nat) (req : Request) (w : State)
    : option (result SearchBody * State) :=
  match fuel with
  | O => None
  | S fuel' =>
      match session_get env req w with
      | (Raise e, w1) => Some (Raise e, w1)
      | (Ok resp, w1) =>
          if throttled resp then
            match throttle_wait resp w1 with
            | (Raise e, w2) => Some (Raise e, w2)
            | (Ok _, w2) => _get fuel' req w2
            end
          else Some ((raise_for_status resp ;; resp_json resp) w1)
      end
  end.

Definition count_request (created_from created_to : Z) : Request :=
  mkRequest (base_url cfg)
    (Some (mkParams (query cfg) created_from created_to 1 None (Some 1))) false.

(** [pages = int(math.ceil(total_count / float(per_page)))] of
    [Pipeline.run]. *)
Definition pages_of (total_count : Z) : Z := ceil_div total_count (per_page cfg).

(** [RepoDownloader]. *)
Definition _default_branch (item : Item) : string :=
  or_default (default_branch item) "master".

Definition _zip_url (item : Item) : string :=
  "https://github.com/" +:+ full_name item +:+ "/archive/refs/heads/"
  +:+ _default_branch item +:+ ".zip".

Definition _zip_filename (item : Item) : string :=
  output_folder cfg +:+ "/" +:+ replace_char "/" "#" (full_name item) +:+ ".zip".

(** The statements inside the [try] of [download_zip]. *)
Definition fetch_archive (url out_path : string) : M unit :=
  r <- session_get env (mkRequest url None true) ;;
  raise_for_status r ;;
  open_for_write env out_path ;;
  stream_to_file r out_path.

Definition download_zip (item : Item) : M (bool * string) :=
  let url := _zip_url item in
  let out_path := _zip_filename item in
  try_except
    (fetch_archive url out_path ;; ret (true, "downloaded"))
    (fun e => ret (false, "error: " +:+ exn_msg e)).

(** The condition of the [continue] in [Pipeline.run]:
    [topics and "microservices" not in topics]. *)
Definition skipped (item : Item) : bool :=
  let topics := default [] (topics item) in
  negb (bool_decide (topics = [])) && negb (bool_decide ("microservices" ∈ topics)).

(** The body of [for item in items] in [Pipeline.run]; the loop
    variables are [period_downloaded], [period_failed] and
    [total_processed]. *)
Definition run_item (item : Item) (c : Z * Z * Z) : M (Z * Z * Z) :=
  let '(period_downloaded, period_failed, total_processed) := c in
  let user := owner_login item in
  let repo := name item in
  let repo_url := clone_url item in
  if skipped item then ret c
  else
    r <- download_zip item ;;
    let '(ok, status) := r in
    let period_downloaded := if ok then period_downloaded + 1 else period_downloaded in
    let period_failed := if ok then period_failed else period_failed + 1 in
    emit (EvRow [user; repo; repo_url; status]) ;;
    ret (period_downloaded, period_failed, total_processed + 1).

End WithEnv.

(** [DateRanges.windows], with [step_days] not negative: the windows
    that the generator yields when it is drained, and the exception, if
    any, that ends it.  [end] is [min(start + step, finish)] whenever
    the loop condition is evaluated, and is computed before it. *)
Equations? windows (step_days : nat) (finish start : datetime)
    : list (datetime * datetime) * option exn
    by wf (Z.to_nat (date_of finish + 1 - date_of start)) lt :=
  windows step_days finish start
    with inspect (dt_add start (days (Z.of_nat step_days))) := {
    | exist _ None _ => ([], Some Refactored.overflow_error)
    | exist _ (Some t) Ht with inspect (start <=? finish) := {
        | exist _ false _ => ([], None)
        | exist _ true Hle
            with inspect (dt_add (Z.min t finish) (days 1)) := {
            | exist _ None _ =>
                ([(start, Z.min (Z.min t finish) finish)],
                 Some Refactored.overflow_error)
            | exist _ (Some next) Hn =>
                let rest := windows step_days finish next in
                ((start, Z.min (Z.min t finish) finish) :: fst rest, snd rest) } } }.
Proof.
  unfold dt_add in Ht, Hn.
  destruct (in_range (start + days (Z.of_nat step_days))); [|discriminate].
  destruct (in_range (Z.min t finish + days 1)); [|discriminate].
  inversion Ht; inversion Hn; subst.
  apply Z.leb_le in Hle.
  apply (next_start_later start finish (days (Z.of_nat step_days)));
    [exact Hle|unfold days, usec_per_day; lia].
Defined.

End SRP.

(* ===================================================================== *)
(** ** crawler.py and Classes/Crawler.py *)
(* ===================================================================== *)

Module Legacy.

(** [numberOfPages = int(math.ceil(data.get("total_count", 0) / 100.0))]. *)
Definition numberOfPages (total_count : option Z) : Z :=
  ceil_div (default 0 total_count) 100.

(** The test [if "microservices" in topics] that guards the download. *)
Definition has_topic (item : Item) : bool :=
  bool_decide ("microservices" ∈ default [] (topics item)).

End Legacy.

(* ===================================================================== *)
(** ** Concrete environments used in examples *)
(* ===================================================================== *)

Module Samples.

(** The number of repositories created on the days [from .. to], given
    the number created on each day. *)
Definition range_total (per_day : Z -> Z) (from to : Z) : Z :=
  fold_right Z.add 0 (map per_day (py_range from (to + 1))).

Definition ok_response (u : string) (b : option SearchBody)
    (chunks : list string) : Response :=
  mkResponse 200 "OK" u ∅ b chunks None.

(** A server that answers every search with the count of its date range
    and the given items, and every other request with a small archive. *)
Definition count_server (count : Z -> Z -> Z) (its : list Item)
    : nat -> Request -> Reply :=
  fun _ req =>
    match req_params req with
    | Some p => Resp (ok_response (req_url req)
                        (Some (mkBody (Some (count (q_from p) (q_to p))) (Some its))) [])
    | None => Resp (ok_response (req_url req) None ["PK"])
    end.

Definition env_of (count : Z -> Z -> Z) (its : list Item) : Env :=
  mkEnv (count_server count its) (fun _ => None).

Definition w0 : State := mkState 0 0 [].

(** 1500 repositories for every range. *)
Definition always_1500 (from to : Z) : Z := 1500.

(** 1500 repositories created on 2020-01-01 and 10 on 2020-01-02. *)
Definition busy_new_year (d : Z) : Z :=
  if d =? ymd2ord 2020 1 1 then 1500
  else if d =? ymd2ord 2020 1 2 then 10 else 0.

(** 600 repositories created on each of 2020-01-05 and 2020-01-06. *)
Definition jan5_6 (d : Z) : Z :=
  if (d =? ymd2ord 2020 1 5) || (d =? ymd2ord 2020 1 6) then 600 else 0.

(** 1500 for the first half of 2020 as a whole, 750 for every other range
    that is not empty. *)
Definition first_half_2020 (from to : Z) : Z :=
  if (from =? ymd2ord 2020 1 1) && (to =? ymd2ord 2020 6 30) then 1500
  else if to <? from then 0 else 750.

(** The dates of the scenario of the first half of 2020. *)
Definition jan_01 : datetime := mk_datetime 2020 1 1.
Definition jun_30 : datetime := mk_datetime 2020 6 30.
Definition mar_31_noon : datetime := mk_datetime_at 2020 3 31 12 0.
Definition apr_01_noon : datetime := mk_datetime_at 2020 4 1 12 0.

Definition repo (topics_ : option (list string)) (nm owner : string) : Item :=
  mkItem owner nm (owner +:+ "/" +:+ nm)
         ("https://github.com/" +:+ owner +:+ "/" +:+ nm +:+ ".git")
         (Some "main") topics_.

Definition shop : Item := repo (Some ["microservices"; "go"]) "shop" "alice".
Definition blog : Item := repo (Some ["java"]) "blog" "bob".
Definition bare : Item := repo None "bare" "carol".

(** A throttling reply: no quota left, reset 30 seconds after the time
    1700000000 of the clock of [w_throttled]. *)
Definition throttled_response : Response :=
  mkResponse 403 "Forbidden" "https://api.github.com/search/repositories"
    (<["X-RateLimit-Remaining" := "0"]> (<["X-RateLimit-Reset" := "1700000030"]> ∅))
    None [] None.

(** The first request of the run is throttled, the later ones are served. *)
Definition throttled_once : Env :=
  mkEnv (fun k req => match k with
                      | O => Resp throttled_response
                      | S _ => count_server (fun _ _ => 7) [shop] k req
                      end)
        (fun _ => None).

Definition w_throttled : State := mkState 1700000000 0 [].

(** A server whose archive downloads all fail with status 404. *)
Definition no_archives : Env :=
  mkEnv (fun k req => match req_params req with
                      | Some _ => count_server (fun _ _ => 2) [shop; blog] k req
                      | None => Resp (mkResponse 404 "Not Found" (req_url req) ∅ None [] None)
                      end)
        (fun _ => None).

End Samples.

(* ===================================================================== *)
(** ** Vocabulary of the statements *)
(* ===================================================================== *)

Module Spec.

Import Refactored.

(** A reply that the code accepts: a response that [raise_for_status]
    lets through (so it is not a 403 either) with a body that decodes. *)
Definition accepted (rp : Reply) (b : SearchBody) : Prop :=
  exists r, rp = Resp r /\ http_error_msg r = None /\ json r = Some b.

(** The server answers every search request, whenever it is sent, with
    an accepted reply whose [total_count] is [count] of the two dates
    of the query: the count oracle is a fixed function of the window. *)
Definition answers_count (env : Env) (count : Z -> Z -> Z) : Prop :=
  forall (k : nat) (u : string) (p : SearchParams) (st : bool),
    exists b, accepted (srv env k (mkRequest u (Some p) st)) b
              /\ default 0 (total_count b) = count (q_from p) (q_to p).

(** The state after the count query of a window was answered. *)
Definition after_count (s e : datetime) (w : State) : State :=
  mkState (clock w) (S (nreq w))
          (trace w ++ [EvRequest (search_request (count_params s e))]).

(** The decoded body of the reply to the [k]-th request. *)
Definition reply_body (env : Env) (k : nat) (req : Request) : SearchBody :=
  match srv env k req with
  | Resp r => default (mkBody None None) (json r)
  | NetErr _ => mkBody None None
  end.

(** The count that the oracle reports for a window. *)
Definition count_of (count : Z -> Z -> Z) (win : datetime * datetime) : Z :=
  count (date_of (fst win)) (date_of (snd win)).

(** The calendar days that the query of a window selects: the days from
    the day of its start to the day of its end, none when the end day
    precedes the start day. *)
Definition leaf_days (win : datetime * datetime) : list Z :=
  py_range (date_of (fst win)) (date_of (snd win) + 1).

(** The days of a sequence of windows, in order, with repetitions. *)
Definition covered (wins : list (datetime * datetime)) : list Z :=
  flat_map leaf_days wins.

(** An oracle that reports at most the cap for every empty range. *)
Definition empty_ranges_small (count : Z -> Z -> Z) : Prop :=
  forall a b, b < a -> count a b <= MAX_RESULTS_PER_QUERY.

(** Counting the events of a kind in a trace. *)
Definition is_row (ev : Event) : bool :=
  match ev with EvRow _ => true | _ => false end.
Definition is_yield (ev : Event) : bool :=
  match ev with EvYield _ => true | _ => false end.
Definition is_page_request (ev : Event) : bool :=
  match ev with
  | EvRequest r =>
      match req_params r with
      | Some p => World.per_page p =? PER_PAGE
      | None => false
      end
  | _ => false
  end.
Definition is_download (ev : Event) : bool :=
  match ev with
  | EvRequest r => match req_params r with Some _ => false | None => true end
  | _ => false
  end.

Definition count_events (f : Event -> bool) (w : State) : Z :=
  Z.of_nat (length (List.filter f (trace w))).

Definition rows (w : State) : Z := count_events is_row w.
Definition yields (w : State) : Z := count_events is_yield w.
Definition page_requests (w : State) : Z := count_events is_page_request w.

(** The events that happened between two states of a run. *)
Definition events_since (w w' : State) : list Event :=
  drop (length (trace w)) (trace w').

End Spec.

Import Spec.

(* ===================================================================== *)
(** ** A small program logic for the monad *)
(* ===================================================================== *)

Module Logic.

(** [m] appends events to the trace, all of them satisfying [P], whether
    it returns or raises. *)
Definition only {A} (P : Event -> Prop) (m : M A) : Prop :=
  forall w, exists evs, trace (snd (m w)) = trace w ++ evs /\ Forall P evs.

(** Run from a state satisfying [P], [m] returns in a state satisfying
    [Q] or raises in a state satisfying [E]. *)
Definition hoare {A} (P : State -> Prop) (m : M A)
    (Q : A -> State -> Prop) (E : State -> Prop) : Prop :=
  forall w, P w ->
    match m w with
    | (Ok a, w') => Q a w'
    | (Raise _, w') => E w'
    end.

(** Events that are neither a row of the sink nor a yield. *)
Definition quiet (ev : Event) : Prop :=
  is_row ev = false /\ is_yield ev = false.

(** Quiet events that are not the request of a result page either. *)
Definition calm (ev : Event) : Prop :=
  is_row ev = false /\ is_yield ev = false /\ is_page_request ev = false.

End Logic.

Import Logic.

Module FetchSpec.

(** The writes that streaming the chunks of a body to [path] makes. *)
Definition written (path : string) (chunks : list string) : list Event :=
  map (EvWrite path) (List.filter (fun c => negb (String.eqb c "")) chunks).

(** The state after the events [evs] of one more request. *)
Definition after_request (w : State) (evs : list Event) : State :=
  mkState (clock w) (S (nreq w)) (trace w ++ evs).

(** The state after further events that are not requests. *)
Definition with_events (w : State) (evs : list Event) : State :=
  mkState (clock w) (nreq w) (trace w ++ evs).

(** The row that [crawl] writes for an item. *)
Definition crawl_row (item : Item) (status : string) : list string :=
  let branch := or_default (default_branch item) "main" in
  [owner_login item; name item; full_name item; clone_url item; branch;
   String.concat ";" (default [] (topics item)); status;
   Refactored.OUTPUT_DIR +:+ "/" +:+ replace_char "/" "#" (full_name item)
   +:+ "@" +:+ branch +:+ ".zip"].

(** The items of a page that [Pipeline.run] does not skip. *)
Definition kept (its : list Item) : list Item :=
  List.filter (fun it => negb (SRP.skipped it)) its.

End FetchSpec.

Import FetchSpec.

Module PagingSpec.

Import Refactored.




(** The sum of [f] over the windows of a list. *)
Definition sum_over (f : datetime * datetime -> Z)
    (wins : list (datetime * datetime)) : Z :=
  fold_right Z.add 0 (map f wins).

End PagingSpec.

Import PagingSpec.

Module Bookkeeping.

Import Refactored.

(** The bookkeeping of [crawl] is balanced: relative to the yields of
    the trace, the two counters of the period stand at [a] and the rows
    of the sink at [b]; the page estimate is [v]. *)
Definition balanced (a b v : Z) (c : Counters) (w : State) : Prop :=
  period_downloaded c + period_failed c - yields w = a
  /\ rows w - yields w = b
  /\ page_count_estimate c = v.

(** From [(c, w)] to [(c', w')] the run sent [n] requests for result
    pages, left the page estimate alone and only added events to the
    trace. *)
Definition advanced (n : Z) (c c' : Counters) (w w' : State) : Prop :=
  page_count_estimate c' = page_count_estimate c
  /\ page_requests w' = page_requests w + n
  /\ exists evs, trace w' = trace w ++ evs.

(** No condition on the state in which an exception leaves the run. *)
Definition anyhow (w : State) : Prop := True.

End Bookkeeping.

Import Bookkeeping.

(* ===================================================================== *)
(** ** Vocabulary of the further properties *)
(* ===================================================================== *)

Module Tiling.

(** The day ranges [ranges] follow one another without gap or overlap
    from day [from] to day [to], none of them empty. *)
Fixpoint tiles (from to : Z) (ranges : list (Z * Z)) : Prop :=
  match ranges with
  | [] => from = to + 1
  | r :: rest => fst r = from /\ from <= snd r /\ tiles (snd r + 1) to rest
  end.

(** The day range of a summary row and of a window. *)
Definition row_range (r : Refactored.SummaryRow) : Z * Z :=
  (Refactored.row_start r, Refactored.row_end r).

Definition window_range (win : datetime * datetime) : Z * Z :=
  (date_of (fst win), date_of (snd win)).

(** The time of day of a datetime, in microseconds since midnight. *)
Definition time_of_day (t : datetime) : Z := t mod usec_per_day.

(** A datetime at midnight. *)
Definition at_midnight (t : datetime) : Prop := time_of_day t = 0.

(** Whether the character [c] occurs in [s]. *)
Fixpoint occurs (c : ascii) (s : string) : bool :=
  match s with
  | EmptyString => false
  | String c' s' => Ascii.eqb c' c || occurs c s'
  end.

(** The requests among the events of a trace. *)
Definition is_request (ev : Event) : bool :=
  match ev with EvRequest _ => true | _ => false end.
Definition is_sleep (ev : Event) : bool :=
  match ev with EvSleep _ => true | _ => false end.

End Tiling.

Import Tiling.

Module CrawlSpec.

(** A search request that does not ask for results beyond the cap of
    the search API: it names no page (which the API reads as the first
    one), or a page from the second on whose last result is within the
    first [MAX_RESULTS_PER_QUERY]. *)
Definition within_cap (ev : Event) : Prop :=
  match ev with
  | EvRequest r =>
      match req_params r with
      | Some p =>
          match page p with
          | Some k => 2 <= k /\ k * World.per_page p <= Refactored.MAX_RESULTS_PER_QUERY
          | None => True
          end
      | None => True
      end
  | _ => True
  end.

End CrawlSpec.

Import CrawlSpec.

Module Totals.

(** The column sums of the summary sheet. *)
Definition sum_downloaded (rows : list Refactored.SummaryRow) : Z :=
  fold_right Z.add 0 (map Refactored.row_downloaded rows).

Definition sum_failed (rows : list Refactored.SummaryRow) : Z :=
  fold_right Z.add 0 (map Refactored.row_failed rows).

(** The counters of a period in progress: the totals are those at the
    start of the period, [before], plus the counts of the period, and
    the counts of the period are not negative. *)
Definition in_period (before : Z * Z) (c : Refactored.Counters) : Prop :=
  Refactored.total_downloaded c = fst before + Refactored.period_downloaded c
  /\ Refactored.total_failed c = snd before + Refactored.period_failed c
  /\ 0 <= Refactored.period_downloaded c
  /\ 0 <= Refactored.period_failed c.

End Totals.

Import Totals.

Module RetrySpec.

(** A reply that [GitHubSearchClient._get] takes for a throttled one
    and whose reset time it can read: [ts] is the reset time, 0 when
    the header is missing. *)
Definition throttling (rp : Reply) (ts : Z) : Prop :=
  exists r, rp = Resp r
    /\ SRP.throttled r = true
    /\ parse_int (default "0" (headers r !! "X-RateLimit-Reset")) = Some ts.

(** The state of [_get] after a throttled reply with reset time [ts]. *)
Definition after_throttled (req : Request) (ts : Z) (w : State) : State :=
  let wait := Z.max 0 (ts - clock w + 5) in
  mkState (clock w + wait) (S (nreq w)) (trace w ++ [EvRequest req; EvSleep wait]).

(** ... and after one throttled reply for each of the reset times [tss]. *)
Definition after_throttles (req : Request) (tss : list Z) (w : State) : State :=
  fold_left (fun w ts => after_throttled req ts w) tss w.

End RetrySpec.

Import RetrySpec.

Module Session.

(** [make_session] of crawler_refactored.py mounts an adapter with
    [Retry(total=5, status_forcelist=[429, 500, 502, 503, 504])]: a
    request whose reply has one of these statuses is sent again by the
    adapter, and [SESSION.get] raises [RetryError] when the retries are
    used up.  [SESSION.get] hands no response with such a status to its
    caller. *)
Definition status_forcelist : list Z := [429; 500; 502; 503; 504].

(** A response that [SESSION.get] can return. *)
Definition handed_over (r : Response) : Prop :=
  status_code r ∉ status_forcelist.

End Session.

Import Session.

Module MoreSamples.

(** A reply with an error status and no body. *)
Definition error_response (code : Z) (reason : string) : Response :=
  mkResponse code reason "https://api.github.com/search/repositories" ∅ None [] None.

(** A server that refuses the token of the client. *)
Definition bad_credentials : Env :=
  mkEnv (fun _ _ => Resp (error_response 401 "Unauthorized")) (fun _ => None).

(** A throttled reply that names no reset time. *)
Definition throttled_no_reset : Response :=
  mkResponse 403 "Forbidden" "https://api.github.com/search/repositories"
    (<["X-RateLimit-Remaining" := "0"]> ∅) None [] None.

(** The first [k] requests of the run are throttled with the reset time
    of [Samples.throttled_response], the later ones are served. *)
Definition throttled_first (k : nat) : Env :=
  mkEnv (fun i req => if (i <? k)%nat then Resp Samples.throttled_response
                      else Samples.count_server (fun _ _ => 7) [Samples.shop] i req)
        (fun _ => None).

(** Every request is throttled, and no reset time is named. *)
Definition always_throttled : Env :=
  mkEnv (fun _ _ => Resp throttled_no_reset) (fun _ => None).

(** The reply of the API to a client over its rate limit: status 403
    and a body that holds a message and no results. *)
Definition rate_limited : Response :=
  mkResponse 403 "Forbidden" "https://api.github.com/search/repositories" ∅
    (Some (mkBody None None)) [] None.

Definition over_the_limit : Env :=
  mkEnv (fun _ _ => Resp rate_limited) (fun _ => None).

End MoreSamples.

Import MoreSamples.

(* ===================================================================== *)
(** ** [Pipeline.run] of Crawler/crawler_refactored_with_SRP.py *)
(* ===================================================================== *)

Module Partial.

(** Computations that, besides returning or raising, may still be in a
    [while True] loop when the iterations allowed are used up: [None]. *)
Definition P (A : Type) : Type := State -> option (result A * State).

Definition lift {A} (m : M A) : P A := fun w => Some (m w).

Definition bindP {A B} (m : P A) (f : A -> P B) : P B :=
  fun w => match m w with
           | Some (Ok a, w') => f a w'
           | Some (Raise e, w') => Some (Raise e, w')
           | None => None
           end.

Fixpoint for_eachP {A S} (xs : list A) (body : A -> S -> P S) (s : S) : P S :=
  match xs with
  | [] => lift (ret s)
  | x :: xs' => bindP (body x s) (for_eachP xs' body)
  end.

Declare Scope run_scope.
Delimit Scope run_scope with run.
Notation "x <- m ;; k" := (bindP m (fun x => k))
  (at level 100, m at next level, right associativity) : run_scope.
Notation "m ;; k" := (bindP m (fun _ => k))
  (at level 100, right associativity) : run_scope.

End Partial.

Import Partial.

Module Pipeline.

Import SRP.

Definition csv_header : list string :=
  ["Username"; "Repository Name"; "URL"; "Download Status"].

Definition step_days : nat := 182.

Section WithEnv.
Variable env : Env.
Variable cfg : AppConfig.
(** The number of iterations allowed to each call of [_get]. *)
Variable fuel : nat.
Local Open Scope run_scope.

(** The request of [search_page]. *)
Definition page_request (created_from created_to page : Z) : Request :=
  mkRequest (base_url cfg)
    (Some (mkParams (query cfg) created_from created_to (per_page cfg) None (Some page)))
    false.

Definition search_total_count (created_from created_to : Z) : P Z :=
  data <- _get env fuel (count_request cfg created_from created_to) ;;
  lift (ret (default 0 (total_count data))).

Definition search_page (created_from created_to page : Z) : P (list Item) :=
  data <- _get env fuel (page_request created_from created_to page) ;;
  lift (ret (default [] (items data))).

(** The body of [for page in range(1, pages + 1)]; the loop variables
    are [period_downloaded], [period_failed] and [total_processed]. *)
Definition run_page (fs fe pages page : Z) (c : Z * Z * Z) : P (Z * Z * Z) :=
  items <- search_page fs fe page ;;
  c <- lift (for_each items (run_item env cfg) c) ;;
  (if page <? pages then lift (time_sleep (delay_between_pages_sec cfg))
   else lift (ret tt)) ;;
  lift (ret c).

(** The body of [for period_start, period_end in ....windows()]; the
    loop variables are the rows of the summary and [total_processed]. *)
Definition run_period (win : datetime * datetime)
    (acc : list Refactored.SummaryRow * Z) : P (list Refactored.SummaryRow * Z) :=
  let fs := date_of (fst win) in
  let fe := date_of (snd win) in
  total_count <- search_total_count fs fe ;;
  let pages := pages_of cfg total_count in
  c <- for_eachP (py_range 1 (pages + 1)) (run_page fs fe pages) (0, 0, snd acc) ;;
  let '(period_downloaded, period_failed, total_processed) := c in
  lift (ret (fst acc ++ [Refactored.mkRow fs fe period_downloaded pages period_failed],
             total_processed)).

(** [Pipeline.run]: the CSV file is opened and gets its header, the
    periods are processed as the generator yields them, and an
    exception of the generator arrives after the periods that it
    yielded.  The result is the content of the summary sheet and
    [total_processed]. *)
Definition run (output_csv_file : string) (start_date finish_date : datetime)
    : P (list Refactored.SummaryRow * Z) :=
  lift (open_for_write env output_csv_file) ;;
  lift (emit (EvRow csv_header)) ;;
  let periods := windows step_days finish_date start_date in
  r <- for_eachP (fst periods) run_period ([], 0) ;;
  match snd periods with
  | Some e => lift (raise e)
  | None => lift (ret r)
  end.

End WithEnv.

End Pipeline.

Module PipelineSpec.

(** The requests to the search API among the events. *)
Definition is_search (ev : Event) : bool :=
  match ev with
  | EvRequest r => match req_params r with Some _ => true | None => false end
  | _ => false
  end.

(** Events that are neither a search request nor a sleep. *)
Definition aside (ev : Event) : Prop :=
  is_search ev = false /\ is_sleep ev = false.

(** The pauses of [Pipeline.run] for the pages [ps] of a period of
    [pages] pages. *)
Definition cooldowns (delay pages : Z) (ps : list Z) : list Event :=
  flat_map (fun p => if p <? pages then [EvSleep delay] else []) ps.

End PipelineSpec.

Import PipelineSpec.

Module PartialLogic.

(** Run from a state satisfying [Pre], [m] returns only in states
    satisfying [Q]; nothing is said of the runs that raise or that do
    not leave a loop. *)
Definition hoareP {A} (Pre : State -> Prop) (m : P A) (Q : A -> State -> Prop) : Prop :=
  forall w, Pre w ->
    match m w with
    | Some (Ok a, w') => Q a w'
    | _ => True
    end.

(** The counters of the item loops of [Pipeline.run] since the state
    [w0], where they were [c0]: every item processed was counted once,
    as downloaded or as failed, and got one row. *)
Definition counted (w0 : State) (c0 : Z * Z * Z) (c : Z * Z * Z) (w : State) : Prop :=
  let '(pd0, pf0, tp0) := c0 in
  let '(pd, pf, tp) := c in
  pd0 <= pd /\ pf0 <= pf
  /\ (pd - pd0) + (pf - pf0) = tp - tp0
  /\ tp - tp0 = rows w - rows w0.

(** The summary and [total_processed] between two periods of a run
    that started in [w0]. *)
Definition summed (w0 : State) (acc : list Refactored.SummaryRow * Z) (w : State) : Prop :=
  snd acc = sum_downloaded (fst acc) + sum_failed (fst acc)
  /\ snd acc = rows w - rows w0 - 1
  /\ Forall (fun r => 0 <= Refactored.row_downloaded r /\ 0 <= Refactored.row_failed r)
            (fst acc).

End PartialLogic.

Import PartialLogic.

(* ===================================================================== *)
(** ** The script crawler.py *)
(* ===================================================================== *)

Module LegacyScript.

Definition URL : string := "https://api.github.com/search/repositories".
Definition QUERY : string := "topic:microservices".
Definition PER_PAGE : Z := 100.
Definition DELAY_BETWEEN_QUERIES : Z := 10.
Definition OUTPUT_FOLDER : string := "C:\Thesis V3\Output".
Definition OUTPUT_CSV_FILE : string := "C:/Thesis V3/repositories-for-microservices.csv".
Definition STEP_DAYS : Z := 182.

Definition csv_header : list string :=
  ["Username"; "Repository Name"; "URL"; "Download Status"].

(** The request for [url] and for [url + "&page=" + str(currentPage)]:
    the query string that the script appends to [URL], in parts. *)
Definition query_request (created_from created_to : Z) (page : option Z) : Request :=
  mkRequest URL (Some (mkParams QUERY created_from created_to PER_PAGE None page)) false.

(** [s[:-4]]. *)
Definition but_last4 (s : string) : string :=
  String.substring 0 (String.length s - 4) s.

(** [fileToDownload] and [fileName] of an item. *)
Definition fileToDownload (item : Item) : string :=
  but_last4 (clone_url item) +:+ "/archive/refs/heads/master.zip".

Definition fileName (item : Item) : string :=
  replace_char "/" "#" (full_name item) +:+ ".zip".

Section WithEnv.
Variable env : Env.

(** [getUrl]: the body of the response, whatever its status. *)
Definition getUrl (req : Request) : M SearchBody :=
  (response <- session_get env req ;;
   resp_json response)%py.

(** [wget.download(url, out=path)]: the request, the error that
    [urllib] raises for an error status, and the writing of the file
    (the temporary file that [wget] renames to [path] is not told
    apart from [path]). *)
Definition wget_download (url path : string) : M unit :=
  (r <- session_get env (mkRequest url None true) ;;
   raise_for_status r ;;
   open_for_write env path ;;
   stream_to_file r path)%py.

(** The body of [for item in data.get('items', [])]; the loop
    variables are [period_download_count],
    [not_downloaded_repositories] and [countOfRepositories]. *)
Definition process_item (item : Item) (c : Z * Z * Z) : M (Z * Z * Z) :=
  let '(period_download_count, not_downloaded_repositories, countOfRepositories) := c in
  let user := owner_login item in
  let repository := name item in
  let repo_url := clone_url item in
  if Legacy.has_topic item then
    (r <- try_except
            (wget_download (fileToDownload item) (OUTPUT_FOLDER +:+ "/" +:+ fileName item) ;;
             emit (EvRow [user; repository; repo_url; "downloaded"]) ;;
             ret (period_download_count + 1, not_downloaded_repositories))
            (fun e =>
             emit (EvRow [user; repository; repo_url; "error when downloading"]) ;;
             ret (period_download_count, not_downloaded_repositories + 1)) ;;
     ret (fst r, snd r, countOfRepositories + 1))%py
  else ret c.

(** The body of [for currentPage in range(1, numberOfPages + 1)]. *)
Definition process_page (fs fe currentPage : Z) (c : Z * Z * Z) : M (Z * Z * Z) :=
  (data <- getUrl (query_request fs fe (Some currentPage)) ;;
   c <- for_each (default [] (items data)) process_item c ;;
   time_sleep DELAY_BETWEEN_QUERIES ;;
   ret c)%py.

(** The body of the [while] loop from [formatted_start] to
    [summary_data.append]; the loop variables are [summary_data] and
    [countOfRepositories]. *)
Definition process_period (start_date end_date : datetime)
    (acc : list Refactored.SummaryRow * Z) : M (list Refactored.SummaryRow * Z) :=
  let fs := date_of start_date in
  let fe := date_of end_date in
  (data <- getUrl (query_request fs fe None) ;;
   let numberOfPages := Legacy.numberOfPages (total_count data) in
   c <- for_each (py_range 1 (numberOfPages + 1)) (process_page fs fe) (0, 0, snd acc) ;;
   let '(period_download_count, not_downloaded_repositories, countOfRepositories) := c in
   ret (fst acc ++ [Refactored.mkRow fs fe period_download_count numberOfPages
                                     not_downloaded_repositories],
        countOfRepositories))%py.

(** The [while start_date < finish_date] loop; [fuel] bounds the
    number of its iterations. *)
Fixpoint periods_loop (fuel : nat) (finish_date start_date end_date : datetime)
    (acc : list Refactored.SummaryRow * Z) : P (list Refactored.SummaryRow * Z) :=
  match fuel with
  | O => fun _ => None
  | S fuel' =>
      if start_date <? finish_date then
        let end_date := if finish_date <? end_date then finish_date else end_date in
        (acc <- lift (process_period start_date end_date acc) ;;
         start_date <- lift (Refactored.add_or_raise end_date (days 1)) ;;
         end_date <- lift (Refactored.add_or_raise start_date (days STEP_DAYS)) ;;
         periods_loop fuel' finish_date start_date end_date acc)%run
      else lift (ret acc)
  end.

(** The script from the opening of the CSV file to its closing, for
    the three dates that it sets; the result is the content of the
    summary sheet and [countOfRepositories]. *)
Definition script (fuel : nat) (start_date end_date finish_date : datetime)
    : P (list Refactored.SummaryRow * Z) :=
  (lift (open_for_write env OUTPUT_CSV_FILE) ;;
   lift (emit (EvRow csv_header)) ;;
   periods_loop fuel finish_date start_date end_date ([], 0))%run.

(** The script with its dates. *)
Definition main (fuel : nat) : P (list Refactored.SummaryRow * Z) :=
  script fuel (mk_datetime 2020 1 1) (mk_datetime 2020 6 30) (mk_datetime 2021 1 30).

End WithEnv.

End LegacyScript.

(* ===================================================================== *)
(** * Properties *)
(* ===================================================================== *)

Import Refactored.

(** ** Date arithmetic *)

Section DateFacts.

Lemma date_of_mono (a b : datetime) : a <= b -> date_of a <= date_of b.
Proof.
  intros H. unfold date_of, usec_per_day.
  apply Z.div_le_mono; lia.
Qed.

Lemma date_of_next_day (t : datetime) : date_of (t + days 1) = date_of t + 1.
Proof.
  unfold date_of, days, usec_per_day.
  rewrite Z.div_add by lia. reflexivity.
Qed.

Lemma date_of_between (a b t : datetime) :
  a <= t <= b -> date_of a = date_of b -> date_of t = date_of a.
Proof.
  intros [H1 H2] Hab.
  apply date_of_mono in H1. apply date_of_mono in H2. lia.
Qed.

(** Halving a span rounds to one of the two neighbouring integers and
    never leaves the span. *)
Lemma halve_bounds (x : Z) :
  (0 <= x -> 0 <= td_div x 2 <= x) /\ (x <= 0 -> x <= td_div x 2 <= 0).
Proof.
  unfold td_div, divide_and_round.
  change (0 <? 2) with true; cbv iota.
  pose proof (Z.div_mod x 2 ltac:(lia)) as Hx.
  pose proof (Z.mod_pos_bound x 2 ltac:(lia)) as Hr.
  destruct ((2 <? x mod 2 * 2) || (x mod 2 * 2 =? 2) && ((x / 2) mod 2 =? 1)) eqn:E.
  - apply orb_true_iff in E as [E|E].
    + apply Z.ltb_lt in E. lia.
    + apply andb_true_iff in E as [E _]. apply Z.eqb_eq in E. lia.
  - lia.
Qed.

Lemma halve_strict (x : Z) : 1 <= x -> td_div x 2 < x.
Proof.
  intros Hx1.
  unfold td_div, divide_and_round.
  change (0 <? 2) with true; cbv iota.
  pose proof (Z.div_mod x 2 ltac:(lia)) as Hx.
  pose proof (Z.mod_pos_bound x 2 ltac:(lia)) as Hr.
  pose proof (Z.div_mod (x / 2) 2 ltac:(lia)) as Hq.
  pose proof (Z.mod_pos_bound (x / 2) 2 ltac:(lia)) as Hqr.
  destruct ((2 <? x mod 2 * 2) || (x mod 2 * 2 =? 2) && ((x / 2) mod 2 =? 1)) eqn:E.
  - apply orb_true_iff in E as [E|E].
    + apply Z.ltb_lt in E. lia.
    + apply andb_true_iff in E as [E1 E2].
      apply Z.eqb_eq in E1. apply Z.eqb_eq in E2. lia.
  - lia.
Qed.

(** The midpoint [start + (end - start) / 2] lies between the two ends,
    whichever is the later one. *)
Lemma midpoint_between (s e : datetime) :
  Z.min s e <= s + td_div (dt_sub e s) 2 <= Z.max s e.
Proof.
  unfold dt_sub. destruct (halve_bounds (e - s)) as [Hp Hn].
  destruct (Z.le_ge_cases s e) as [Hle|Hle].
  - specialize (Hp ltac:(lia)). lia.
  - specialize (Hn ltac:(lia)). lia.
Qed.

Lemma in_range_between (a b t : datetime) :
  in_range a = true -> in_range b = true ->
  Z.min a b <= t <= Z.max a b -> in_range t = true.
Proof.
  unfold in_range. rewrite !andb_true_iff, !Z.leb_le. lia.
Qed.

Lemma dt_add_some (t t' : datetime) (td : timedelta) :
  dt_add t td = Some t' -> t' = t + td.
Proof.
  unfold dt_add. destruct (in_range (t + td)); [|discriminate]. congruence.
Qed.

End DateFacts.

(** ** Stepping through the monad *)

Lemma bind_eq {A B} (m : M A) (f : A -> M B) (w : State) :
  bind m f w = match m w with
               | (Ok a, w') => f a w'
               | (Raise e, w') => (Raise e, w')
               end.
Proof. reflexivity. Qed.

(** ** The count oracle *)

Section Oracle.
Variable env : Env.
Variable count : Z -> Z -> Z.
Hypothesis Hsrv : answers_count env count.

Lemma accepted_not_403 (r : Response) :
  http_error_msg r = None -> (status_code r =? 403) = false.
Proof.
  unfold http_error_msg. intros H.
  destruct (status_code r =? 403) eqn:E; [|reflexivity].
  apply Z.eqb_eq in E. rewrite E in H. simpl in H. discriminate.
Qed.

Lemma rate_limit_sleep_accepted (r : Response) (w : State) :
  http_error_msg r = None -> rate_limit_sleep r w = (Ok tt, w).
Proof.
  intros H. unfold rate_limit_sleep. rewrite (accepted_not_403 r H). reflexivity.
Qed.

Lemma raise_for_status_accepted (r : Response) (w : State) :
  http_error_msg r = None -> raise_for_status r w = (Ok tt, w).
Proof. intros H. unfold raise_for_status. rewrite H. reflexivity. Qed.

(** Under a fixed oracle [search_count] sends one request and returns
    the oracle's count. *)
Lemma search_count_oracle (s e : datetime) (w : State) :
  search_count env s e w =
  (Ok (count (date_of s) (date_of e)),
   mkState (clock w) (S (nreq w))
           (trace w ++ [EvRequest (search_request (count_params s e))])).
Proof.
  destruct (Hsrv (nreq w) BASE_SEARCH_URL (count_params s e) false)
    as (b & (r & Hr & Hm & Hj) & Hc).
  unfold search_count, bind, session_get, search_request.
  rewrite Hr, (rate_limit_sleep_accepted r _ Hm), (raise_for_status_accepted r _ Hm).
  unfold resp_json. rewrite Hj. unfold ret. rewrite Hc. reflexivity.
Qed.

Lemma split_leaf (d : nat) (s e : datetime) (w : State) :
  count (date_of s) (date_of e) <= MAX_RESULTS_PER_QUERY ->
  split_window_if_needed env (S d) s e w = (Ok [(s, e)], after_count s e w).
Proof.
  intros H. simpl. unfold bind at 1. rewrite search_count_oracle.
  apply Z.leb_le in H. rewrite H. reflexivity.
Qed.

Lemma split_node (d : nat) (s e : datetime) (w : State) :
  MAX_RESULTS_PER_QUERY < count (date_of s) (date_of e) ->
  split_window_if_needed env (S d) s e w =
  (midpoint <- add_or_raise s (td_div (dt_sub e s) 2) ;;
   left <- split_window_if_needed env d s midpoint ;;
   right_start <- add_or_raise midpoint (days 1) ;;
   right <- split_window_if_needed env d right_start e ;;
   ret (left ++ right))%py (after_count s e w).
Proof.
  intros H. simpl. unfold bind at 1. rewrite search_count_oracle.
  apply Z.leb_gt in H. rewrite H. reflexivity.
Qed.

(** A window whose two ends fall on the same calendar day and whose
    count exceeds the cap is split into itself: the left half has the
    same query, and the recursion only ends when the stack does. *)
Lemma split_same_day_stuck (d : nat) :
  forall (s e : datetime) (w : State),
    date_of s = date_of e ->
    MAX_RESULTS_PER_QUERY < count (date_of s) (date_of e) ->
    exists ex, fst (split_window_if_needed env d s e w) = Raise ex
               /\ (in_range s = true -> in_range e = true -> ex = recursion_error).
Proof.
  induction d as [|d IH]; intros s e w Hday Hcnt.
  - exists recursion_error. split; [reflexivity|tauto].
  - rewrite split_node by assumption.
    pose proof (midpoint_between s e) as Hm.
    set (m := s + td_div (dt_sub e s) 2) in *.
    assert (Hmd : date_of m = date_of s).
    { destruct (Z.le_ge_cases s e).
      - apply (date_of_between s e); [lia|assumption].
      - rewrite Hday. apply (date_of_between e s); [lia|congruence]. }
    assert (Hc : MAX_RESULTS_PER_QUERY < count (date_of s) (date_of m))
      by (rewrite Hmd; rewrite <- Hday in Hcnt; exact Hcnt).
    unfold add_or_raise at 1, dt_add. fold m.
    destruct (in_range m) eqn:Hmr.
    + unfold bind at 1, ret at 1. unfold bind at 1.
      destruct (IH s m (after_count s e w) (eq_sym Hmd) Hc) as (ex & Hex & Hrec).
      destruct (split_window_if_needed env d s m (after_count s e w)) as [[l|ex'] w1];
        simpl in Hex; [discriminate|].
      exists ex. split; [exact Hex|]. intros Hs He. apply Hrec; assumption.
    + exists overflow_error. split; [reflexivity|].
      intros Hs He. rewrite (in_range_between s e m Hs He Hm) in Hmr. discriminate.
Qed.

End Oracle.

(** ** The partitioner covers its window *)

Section Ranges.

Lemma py_range_empty (a b : Z) : b <= a -> py_range a b = [].
Proof.
  intros H. unfold py_range. replace (Z.to_nat (b - a)) with 0%nat by lia. reflexivity.
Qed.

Lemma py_range_length (a b : Z) : length (py_range a b) = Z.to_nat (b - a).
Proof. unfold py_range. rewrite length_map, length_seq. reflexivity. Qed.

Lemma py_range_app (a b c : Z) :
  a <= b <= c -> py_range a c = py_range a b ++ py_range b c.
Proof.
  intros H. unfold py_range.
  replace (Z.to_nat (c - a)) with (Z.to_nat (b - a) + Z.to_nat (c - b))%nat by lia.
  rewrite seq_app, map_app. f_equal.
  rewrite Nat.add_0_l.
  rewrite <- (Nat.add_0_r (Z.to_nat (b - a))) at 1.
  rewrite <- (fmap_add_seq (Z.to_nat (b - a)) 0).
  change (@fmap list _) with (@map) at 1.
  rewrite map_map. apply map_ext. intros i. lia.
Qed.

Lemma py_range_cons (a b : Z) : a < b -> py_range a b = a :: py_range (a + 1) b.
Proof.
  intros H. rewrite (py_range_app a (a + 1) b) by lia.
  unfold py_range at 1. replace (a + 1 - a) with 1 by lia. simpl.
  rewrite Z.add_0_r. reflexivity.
Qed.

End Ranges.

Section Cover.
Variable env : Env.
Variable count : Z -> Z -> Z.
Hypothesis Hsrv : answers_count env count.
Hypothesis Hempty : empty_ranges_small count.

Lemma covered_app (l r : list (datetime * datetime)) :
  covered (l ++ r) = covered l ++ covered r.
Proof. unfold covered. apply flat_map_app. Qed.

(** Whenever the partitioner returns, its leaves are within the cap
    and their days are the days of the window, each once, in order.
    A leaf may select no day at all. *)
Lemma split_cover (d : nat) :
  forall (s e : datetime) (w w' : State) (leaves : list (datetime * datetime)),
    date_of s <= date_of e + 1 ->
    split_window_if_needed env d s e w = (Ok leaves, w') ->
    covered leaves = py_range (date_of s) (date_of e + 1)
    /\ Forall (fun leaf => count_of count leaf <= MAX_RESULTS_PER_QUERY) leaves
    /\ Forall (fun leaf => date_of (fst leaf) <= date_of (snd leaf) + 1) leaves.
Proof.
  induction d as [|d IH]; intros s e w w' leaves Hse Hrun.
  - discriminate.
  - destruct (Z.le_gt_cases (count (date_of s) (date_of e)) MAX_RESULTS_PER_QUERY)
      as [Hle|Hgt].
    + rewrite (split_leaf env count Hsrv) in Hrun by assumption.
      inversion Hrun; subst. unfold covered. simpl. rewrite app_nil_r.
      repeat split; repeat constructor; simpl; assumption.
    + assert (Hlt : date_of s < date_of e).
      { destruct (Z.lt_trichotomy (date_of s) (date_of e)) as [H|[H|H]]; [exact H| |].
        - destruct (split_same_day_stuck env count Hsrv (S d) s e w H Hgt) as (ex & Hex & _).
          rewrite Hrun in Hex. discriminate.
        - specialize (Hempty _ _ H). lia. }
      assert (Hs : s < e).
      { destruct (Z.lt_ge_cases s e) as [H|H]; [exact H|].
        apply date_of_mono in H. lia. }
      rewrite (split_node env count Hsrv) in Hrun by assumption.
      pose proof (midpoint_between s e) as Hm.
      set (m := s + td_div (dt_sub e s) 2) in *.
      unfold add_or_raise at 1, dt_add in Hrun. fold m in Hrun.
      destruct (in_range m); [|discriminate].
      unfold bind at 1, ret at 1 in Hrun. unfold bind at 1 in Hrun.
      destruct (split_window_if_needed env d s m (after_count s e w))
        as [[l|ex] w1] eqn:Hl; [|discriminate].
      unfold bind at 1, add_or_raise, dt_add in Hrun.
      destruct (in_range (m + days 1)); [|discriminate].
      unfold ret at 1 in Hrun. unfold bind at 1 in Hrun.
      destruct (split_window_if_needed env d (m + days 1) e w1)
        as [[r|ex] w2] eqn:Hr; [|discriminate].
      inversion Hrun; subst leaves w'.
      assert (Hdm : date_of s <= date_of m <= date_of e)
        by (split; apply date_of_mono; lia).
      destruct (IH s m _ _ _ ltac:(lia) Hl) as (Hcl & Hfl & Hol).
      destruct (IH (m + days 1) e _ _ _
                  ltac:(rewrite date_of_next_day; lia) Hr) as (Hcr & Hfr & Hor).
      rewrite date_of_next_day in Hcr.
      rewrite covered_app, Hcl, Hcr.
      repeat split.
      * symmetry. apply py_range_app. lia.
      * apply Forall_app; split; assumption.
      * apply Forall_app; split; assumption.
Qed.

End Cover.

(** ** The result of the partitioner depends on the oracle only *)

Section Determined.
Variable env : Env.

(** A deeper stack does not change a result that was obtained. *)
Lemma split_depth_mono (d : nat) :
  forall (s e : datetime) (w w' : State) (leaves : list (datetime * datetime)),
    split_window_if_needed env d s e w = (Ok leaves, w') ->
    split_window_if_needed env (S d) s e w = (Ok leaves, w').
Proof.
  induction d as [|d IH]; intros s e w w' leaves Hrun; [discriminate|].
  remember (S d) as d1 eqn:Hd1.
  simpl. rewrite Hd1 in Hrun. simpl in Hrun.
  unfold bind at 1. unfold bind at 1 in Hrun.
  destruct (search_count env s e w) as [[cnt|ex] w1]; [|discriminate].
  destruct (cnt <=? MAX_RESULTS_PER_QUERY); [exact Hrun|].
  unfold bind at 1. unfold bind at 1 in Hrun.
  destruct (add_or_raise s (td_div (dt_sub e s) 2) w1) as [[m|ex] w2]; [|discriminate].
  unfold bind at 1. unfold bind at 1 in Hrun.
  destruct (split_window_if_needed env d s m w2) as [[l|ex] w3] eqn:Hl; [|discriminate].
  rewrite (IH _ _ _ _ _ Hl).
  unfold bind at 1. unfold bind at 1 in Hrun.
  destruct (add_or_raise m (days 1) w3) as [[rs|ex] w4]; [|discriminate].
  unfold bind at 1. unfold bind at 1 in Hrun.
  destruct (split_window_if_needed env d rs e w4) as [[r|ex] w5] eqn:Hr; [|discriminate].
  rewrite (IH _ _ _ _ _ Hr). exact Hrun.
Qed.

Lemma split_depth_plus (k d : nat) (s e : datetime) (w w' : State)
    (leaves : list (datetime * datetime)) :
  split_window_if_needed env d s e w = (Ok leaves, w') ->
  split_window_if_needed env (k + d) s e w = (Ok leaves, w').
Proof.
  intros H. induction k as [|k IH]; [exact H|].
  simpl Nat.add. apply split_depth_mono. exact IH.
Qed.

Variable count : Z -> Z -> Z.
Hypothesis Hsrv : answers_count env count.

(** Under a fixed oracle the state in which the partitioner starts has
    no influence on what it returns. *)
Lemma split_result_state (d : nat) :
  forall (s e : datetime) (w1 w2 : State),
    fst (split_window_if_needed env d s e w1)
    = fst (split_window_if_needed env d s e w2).
Proof.
  induction d as [|d IH]; intros s e w1 w2; [reflexivity|].
  destruct (Z.le_gt_cases (count (date_of s) (date_of e)) MAX_RESULTS_PER_QUERY)
    as [Hle|Hgt].
  - rewrite !(split_leaf env count Hsrv) by assumption. reflexivity.
  - rewrite !(split_node env count Hsrv) by assumption.
    rewrite !bind_eq. unfold add_or_raise at 1 3.
    destruct (dt_add s (td_div (dt_sub e s) 2)) as [m|]; [|reflexivity].
    unfold ret at 1 3. cbv beta iota. rewrite !bind_eq.
    pose proof (IH s m (after_count s e w1) (after_count s e w2)) as Hl.
    destruct (split_window_if_needed env d s m (after_count s e w1)) as [[l1|ex1] u1],
             (split_window_if_needed env d s m (after_count s e w2)) as [[l2|ex2] u2];
      simpl in Hl; try discriminate; [|exact Hl].
    inversion Hl; subst l2.
    rewrite !bind_eq. unfold add_or_raise.
    destruct (dt_add m (days 1)) as [rs|]; [|reflexivity].
    unfold ret at 1 3. cbv beta iota. rewrite !bind_eq.
    pose proof (IH rs e u1 u2) as Hr.
    destruct (split_window_if_needed env d rs e u1) as [[r1|ey1] v1],
             (split_window_if_needed env d rs e u2) as [[r2|ey2] v2];
      simpl in Hr; try discriminate; [|exact Hr].
    inversion Hr; subst r2. reflexivity.
Qed.

End Determined.

(** The sample servers answer with their count function. *)
Lemma env_of_answers (count : Z -> Z -> Z) (its : list Item) :
  answers_count (Samples.env_of count its) count.
Proof.
  intros k u p st. eexists. split.
  - eexists. split; [reflexivity|]. split; reflexivity.
  - reflexivity.
Qed.

(** ** The partitioner on windows that it cannot split *)

Section Irreducible.
Import Samples.

(** A window over the cap whose first day alone is over the cap: the
    left half starts and ends on that day, and the call never returns. *)
Lemma split_first_day_stuck (env : Env) (count : Z -> Z -> Z)
    (s e : datetime) (depth : nat) (w : State) :
  answers_count env count ->
  in_range s = true -> in_range e = true ->
  MAX_RESULTS_PER_QUERY < count (date_of s) (date_of e) ->
  date_of (s + td_div (dt_sub e s) 2) = date_of s ->
  MAX_RESULTS_PER_QUERY < count (date_of s) (date_of s) ->
  fst (split_window_if_needed env depth s e w) = Raise recursion_error.
Proof.
  intros Hsrv Hs He Hgt Hmid Hday.
  destruct depth as [|d]; [reflexivity|].
  rewrite (split_node env count Hsrv) by exact Hgt.
  pose proof (midpoint_between s e) as Hm.
  set (m := s + td_div (dt_sub e s) 2) in *.
  assert (Hmr : in_range m = true) by exact (in_range_between s e m Hs He Hm).
  rewrite bind_eq. unfold add_or_raise at 1, dt_add. fold m. rewrite Hmr.
  unfold ret at 1. rewrite bind_eq.
  destruct (split_same_day_stuck env count Hsrv d s m (after_count s e w)
              (eq_sym Hmid) ltac:(rewrite Hmid; exact Hday))
    as (ex & Hex & Hrec).
  destruct (split_window_if_needed env d s m _) as [[l|ex'] w1];
    simpl in Hex; [discriminate|].
  simpl. rewrite Hex. f_equal. apply Hrec; assumption.
Qed.

(** C2 (defect of the code): the partitioner does not terminate when a
    single day exceeds the cap, here with an oracle that reports 1500
    for every query.  For the window 2020-01-01..2020-01-01 the midpoint
    is the start itself, so the recursive call for the left half is the
    call for the same window: the span does not shrink, and whatever the
    depth that the stack allows the call ends in [RecursionError]; the
    window is not returned as it is.  The same happens for the window
    2020-01-01..2020-01-02, whose left half is the first day. *)
Theorem partition_single_day_over_cap_recurses (depth : nat) (w : State) :
  let day := mk_datetime 2020 1 1 in
  let env := env_of always_1500 [] in
  day + td_div (dt_sub day day) 2 = day
  /\ fst (split_window_if_needed env depth day day w) = Raise recursion_error
  /\ fst (split_window_if_needed env depth day (mk_datetime 2020 1 2) w)
     = Raise recursion_error.
Proof.
  intros day env. split; [reflexivity|]. split.
  - destruct (split_same_day_stuck env always_1500
                (env_of_answers _ _) depth day day w eq_refl)
      as (ex & Hex & Hrec).
    + reflexivity.
    + rewrite Hex. f_equal. apply Hrec; reflexivity.
  - apply (split_first_day_stuck env always_1500);
      [apply env_of_answers|reflexivity..].
Qed.

(** C1 (defect of the code): for the window 2020-01-01..2020-01-02,
    with 1500 repositories created on the first day and 10 on the
    second, the partitioner returns no sequence of leaves at all: the
    first day alone exceeds the cap, it is never returned as a leaf,
    and the call ends in [RecursionError] at every depth of the stack. *)
Theorem partition_over_cap_day_no_leaves (depth : nat) (w : State) :
  let count := range_total busy_new_year in
  count (ymd2ord 2020 1 1) (ymd2ord 2020 1 1) = 1500
  /\ count (ymd2ord 2020 1 2) (ymd2ord 2020 1 2) = 10
  /\ fst (split_window_if_needed (env_of count []) depth
            (mk_datetime 2020 1 1) (mk_datetime 2020 1 2) w)
     = Raise recursion_error.
Proof.
  intros count. split; [reflexivity|]. split; [reflexivity|].
  apply (split_first_day_stuck (env_of count []) count);
    [apply env_of_answers|reflexivity..].
Qed.

End Irreducible.

(** ** Windows whose end precedes their start *)

Section Inverted.
Import Samples.

(** C9 (defect of the code): the partitioner builds windows whose start
    is later than their end.  For the window 2020-01-01..2020-01-08,
    with 600 repositories created on each of 2020-01-05 and 2020-01-06,
    it returns five leaves, at every stack depth from five on and
    whatever the state it starts in.  The right halves start a day after
    a midpoint that carries a time of day: the third leaf starts at
    19:30 and ends at 03:00 of the same day, and the fourth starts on
    2020-01-07 and ends on 2020-01-06, so that its query is
    [created:2020-01-07..2020-01-06]. *)
Theorem partition_returns_inverted_window (k : nat) (w : State) :
  fst (split_window_if_needed (env_of (range_total jan5_6) []) (k + 5)
         (mk_datetime 2020 1 1) (mk_datetime 2020 1 8) w)
  = Ok [ (mk_datetime 2020 1 1, mk_datetime_at 2020 1 4 12 0);
         (mk_datetime_at 2020 1 5 12 0, mk_datetime_at 2020 1 5 19 30);
         (mk_datetime_at 2020 1 6 19 30, mk_datetime_at 2020 1 6 3 0);
         (mk_datetime_at 2020 1 7 3 0, mk_datetime_at 2020 1 6 18 0);
         (mk_datetime_at 2020 1 7 18 0, mk_datetime 2020 1 8) ]
  /\ mk_datetime_at 2020 1 6 3 0 < mk_datetime_at 2020 1 6 19 30
  /\ date_of (mk_datetime_at 2020 1 7 3 0) = ymd2ord 2020 1 7
  /\ date_of (mk_datetime_at 2020 1 6 18 0) = ymd2ord 2020 1 6
  /\ ymd2ord 2020 1 6 < ymd2ord 2020 1 7.
Proof.
  split; [|repeat split; reflexivity].
  set (env := env_of (range_total jan5_6) []).
  set (s := mk_datetime 2020 1 1). set (e := mk_datetime 2020 1 8).
  rewrite (split_result_state env _ (env_of_answers _ _) (k + 5) s e w w0).
  destruct (split_window_if_needed env 5 s e w0) as [r w'] eqn:E.
  assert (Hr : fst (split_window_if_needed env 5 s e w0) = r) by (rewrite E; reflexivity).
  vm_compute in Hr. subst r.
  rewrite (split_depth_plus env k 5 s e w0 w' _ E). reflexivity.
Qed.

End Inverted.

(** ** The first half of 2020 *)

Section FirstHalf2020.
Import Samples.

(** C8 as stated fails: with 1500 results for 2020-01-01..2020-06-30
    and 750 for each half, the partitioner returns the two halves, the
    left one ends on 2020-03-31 (not on 2020-03-30), the right one
    starts on 2020-04-01 (not on 2020-03-31), and the window has 182
    calendar days (not 181). *)
Lemma first_half_2020_counterexample :
  fst (split_window_if_needed (env_of first_half_2020 []) 2 jan_01 jun_30 w0)
  = Ok [(jan_01, mar_31_noon); (apr_01_noon, jun_30)]
  /\ date_of mar_31_noon <> ymd2ord 2020 3 30
  /\ date_of apr_01_noon <> ymd2ord 2020 3 31
  /\ length (leaf_days (jan_01, jun_30)) <> 181%nat.
Proof.
  split; [vm_compute; reflexivity|].
  repeat split; vm_compute; discriminate.
Qed.

(** C8 (amended): for the window 2020-01-01..2020-06-30 with a count of
    1500, the partitioner bisects at the 2020-03-31/2020-04-01 boundary
    (the midpoint is 2020-03-31 12:00) and recurses on the two halves;
    when the oracle is a fixed function that reports at most the cap for
    empty ranges and the recursion returns, every leaf has a count of at
    most 1000 and the days of the leaves are the 182 days of the window,
    each exactly once, in order. *)
Theorem first_half_2020_partition (env : Env) (count : Z -> Z -> Z)
    (depth : nat) (w w' : State) (leaves : list (datetime * datetime)) :
  answers_count env count ->
  empty_ranges_small count ->
  count (ymd2ord 2020 1 1) (ymd2ord 2020 6 30) = 1500 ->
  split_window_if_needed env depth jan_01 jun_30 w = (Ok leaves, w') ->
  date_of mar_31_noon = ymd2ord 2020 3 31
  /\ date_of apr_01_noon = ymd2ord 2020 4 1
  /\ (exists depth' l r w1,
        depth = S depth'
        /\ split_window_if_needed env depth' jan_01 mar_31_noon
             (after_count jan_01 jun_30 w) = (Ok l, w1)
        /\ split_window_if_needed env depth' apr_01_noon jun_30 w1 = (Ok r, w')
        /\ leaves = l ++ r)
  /\ Forall (fun leaf => count_of count leaf <= 1000) leaves
  /\ covered leaves = py_range (ymd2ord 2020 1 1) (ymd2ord 2020 6 30 + 1)
  /\ length (covered leaves) = 182%nat.
Proof.
  intros Hsrv Hempty Hcnt Hrun.
  split; [reflexivity|]. split; [reflexivity|].
  destruct (split_cover env count Hsrv Hempty depth jan_01 jun_30 w w' leaves
              ltac:(vm_compute; discriminate) Hrun) as (Hcov & Hcap & _).
  split; [|split; [exact Hcap|split; [exact Hcov|rewrite Hcov; reflexivity]]].
  destruct depth as [|d]; [discriminate|].
  rewrite (split_node env count Hsrv) in Hrun
    by (change (date_of jan_01) with (ymd2ord 2020 1 1);
        change (date_of jun_30) with (ymd2ord 2020 6 30);
        rewrite Hcnt; reflexivity).
  rewrite bind_eq in Hrun.
  change (add_or_raise jan_01 (td_div (dt_sub jun_30 jan_01) 2))
    with (@ret datetime mar_31_noon) in Hrun.
  unfold ret at 1 in Hrun. cbv beta iota in Hrun. rewrite bind_eq in Hrun.
  destruct (split_window_if_needed env d jan_01 mar_31_noon _)
    as [[l|ex] w1] eqn:Hl; [|discriminate].
  rewrite bind_eq in Hrun.
  change (add_or_raise mar_31_noon (days 1)) with (@ret datetime apr_01_noon) in Hrun.
  unfold ret at 1 in Hrun. cbv beta iota in Hrun. rewrite bind_eq in Hrun.
  destruct (split_window_if_needed env d apr_01_noon jun_30 w1)
    as [[r|ex] w2] eqn:Hr; [|discriminate].
  inversion Hrun; subst.
  exists d, l, r, w1. repeat split; assumption.
Qed.

Lemma first_half_2020_partition_witness :
  date_of mar_31_noon = ymd2ord 2020 3 31
  /\ date_of apr_01_noon = ymd2ord 2020 4 1
  /\ (exists depth' l r w1,
        2%nat = S depth'
        /\ split_window_if_needed (env_of first_half_2020 []) depth' jan_01 mar_31_noon
             (after_count jan_01 jun_30 w0) = (Ok l, w1)
        /\ split_window_if_needed (env_of first_half_2020 []) depth' apr_01_noon jun_30 w1
           = (Ok r, snd (split_window_if_needed (env_of first_half_2020 []) 2 jan_01 jun_30 w0))
        /\ [(jan_01, mar_31_noon); (apr_01_noon, jun_30)] = l ++ r)
  /\ Forall (fun leaf => count_of first_half_2020 leaf <= 1000)
            [(jan_01, mar_31_noon); (apr_01_noon, jun_30)]
  /\ covered [(jan_01, mar_31_noon); (apr_01_noon, jun_30)]
     = py_range (ymd2ord 2020 1 1) (ymd2ord 2020 6 30 + 1)
  /\ length (covered [(jan_01, mar_31_noon); (apr_01_noon, jun_30)]) = 182%nat.
Proof.
  apply (first_half_2020_partition (env_of first_half_2020 []) first_half_2020 2 w0).
  - apply env_of_answers.
  - intros a b Hab. unfold first_half_2020.
    apply Z.ltb_lt in Hab. rewrite Hab.
    destruct ((a =? ymd2ord 2020 1 1) && (b =? ymd2ord 2020 6 30)) eqn:E.
    + apply andb_true_iff in E as [Ea Eb].
      apply Z.eqb_eq in Ea. apply Z.eqb_eq in Eb. apply Z.ltb_lt in Hab.
      subst. vm_compute in Hab. discriminate.
    + vm_compute. discriminate.
  - reflexivity.
  - vm_compute. reflexivity.
Defined.

End FirstHalf2020.

(** ** Throttled requests *)

Section Throttling.
Import Samples.

(** In [crawler_refactored.py] a reply with status 403 and a reset time
    makes [rate_limit_sleep] wait until three seconds after the reset;
    then [raise_for_status] raises for the same reply.  No second
    request is sent. *)
Lemma search_count_throttled (env : Env) (s e : datetime) (w : State)
    (r : Response) (reset : string) (ts : Z) :
  srv env (nreq w) (search_request (count_params s e)) = Resp r ->
  status_code r = 403 ->
  headers r !! "X-RateLimit-Reset" = Some reset ->
  parse_int reset = Some ts ->
  let wait := Z.max 0 (ts - clock w + 3) in
  search_count env s e w =
  (Raise (Exn HTTPError ("403 Client Error: " +:+ reason r +:+ " for url: " +:+ url r)),
   mkState (clock w + wait) (S (nreq w))
           (trace w ++ [EvRequest (search_request (count_params s e));
                        EvWarn ("Rate limit hit. Sleeping " +:+ pretty wait
                                +:+ "s until reset.");
                        EvSleep wait])).
Proof.
  intros Hr H403 Hreset Hts wait.
  unfold search_count. rewrite bind_eq. unfold session_get. rewrite Hr.
  rewrite bind_eq. unfold rate_limit_sleep. rewrite H403, Hreset.
  change (403 =? 403) with true. cbv iota.
  assert (Hne : String.eqb reset "" = false).
  { destruct reset; [discriminate Hts|reflexivity]. }
  rewrite Hne, bind_eq. unfold py_int. rewrite Hts. unfold ret at 1.
  rewrite bind_eq. unfold time_time. cbv beta iota.
  cbn [clock nreq trace]. fold wait. rewrite bind_eq. unfold emit at 1.
  unfold time_sleep. cbn [clock nreq trace].
  assert (Hw : (wait <? 0) = false) by (apply Z.ltb_ge; unfold wait; lia).
  rewrite Hw, bind_eq.
  unfold raise_for_status, http_error_msg. rewrite H403.
  cbn [clock nreq trace]. rewrite <- !app_assoc. reflexivity.
Qed.

(** In [crawler_refactored_with_SRP.py] the same reply makes [_get] wait
    until five seconds after the reset and go round its loop again. *)
Lemma get_throttled (env : Env) (fuel : nat) (req : Request) (w : State)
    (r : Response) (reset : string) (ts : Z) :
  srv env (nreq w) req = Resp r ->
  status_code r = 403 ->
  headers r !! "X-RateLimit-Remaining" = Some "0" ->
  headers r !! "X-RateLimit-Reset" = Some reset ->
  parse_int reset = Some ts ->
  let wait := Z.max 0 (ts - clock w + 5) in
  SRP._get env (S fuel) req w =
  SRP._get env fuel req
    (mkState (clock w + wait) (S (nreq w)) (trace w ++ [EvRequest req; EvSleep wait])).
Proof.
  intros Hr H403 Hrem Hreset Hts wait.
  simpl. unfold session_get. rewrite Hr.
  unfold SRP.throttled. rewrite H403, Hrem. simpl.
  unfold SRP.throttle_wait. rewrite Hreset. simpl.
  rewrite bind_eq. unfold py_int. rewrite Hts. unfold ret at 1.
  rewrite bind_eq. unfold time_time. cbv beta iota.
  unfold time_sleep. cbn [clock nreq trace]. fold wait.
  assert (Hw : (wait <? 0) = false) by (apply Z.ltb_ge; unfold wait; lia).
  rewrite Hw. cbn [clock nreq trace]. rewrite <- app_assoc. reflexivity.
Qed.

(** C3 (defect of the code): a throttling reply with [remaining = 0]
    and [reset = now + 30].  [search_count] of [crawler_refactored.py]
    blocks for 33 seconds and then raises [HTTPError] for the throttled
    reply instead of sending the request again: one request was sent
    when it returns.  The same reply to a download makes [crawl] record
    the item as failed and increment [period_failed].  The sibling
    [_get] of [crawler_refactored_with_SRP.py] blocks for 35 seconds,
    sends the identical request again and returns its body. *)
Theorem throttled_request_surfaces_as_error (s e : datetime) :
  let req := search_request (count_params s e) in
  search_count throttled_once s e w_throttled
  = (Raise (Exn HTTPError
       "403 Client Error: Forbidden for url: https://api.github.com/search/repositories"),
     mkState 1700000033 1
       [EvRequest req; EvWarn "Rate limit hit. Sleeping 33s until reset."; EvSleep 33])
  /\ crawl_item throttled_once shop (mkCounters 0 0 0 0 0) w_throttled
     = (Ok (mkCounters 0 1 0 0 1),
        mkState 1700000033 1
          [EvRequest (zip_request "alice/shop" "main");
           EvWarn "Rate limit hit. Sleeping 33s until reset."; EvSleep 33;
           EvWarn ("Failed to download alice/shop (main): 403 Client Error: "
                   +:+ "Forbidden for url: https://api.github.com/search/repositories");
           EvRow ["alice"; "shop"; "alice/shop"; "https://github.com/alice/shop.git";
                  "main"; "microservices;go"; "error";
                  "C:/Thesis V3/Output/alice#shop@main.zip"]])
  /\ SRP._get throttled_once 2 req w_throttled
     = Some (Ok (mkBody (Some 7) (Some [shop])),
             mkState 1700000035 2 [EvRequest req; EvSleep 35; EvRequest req]).
Proof.
  intros req. split; [|split].
  - apply (search_count_throttled throttled_once s e w_throttled
             throttled_response "1700000030" 1700000030); reflexivity.
  - vm_compute. reflexivity.
  - rewrite (get_throttled throttled_once 1 req w_throttled
               throttled_response "1700000030" 1700000030) by reflexivity.
    reflexivity.
Qed.

End Throttling.

(** ** Rules of the program logic *)

Section Rules.

Lemma only_ret {A} (P : Event -> Prop) (a : A) : only P (ret a).
Proof. intros w. exists []. rewrite app_nil_r. split; [reflexivity|constructor]. Qed.

Lemma only_raise {A} (P : Event -> Prop) (e : exn) : only P (@raise A e).
Proof. intros w. exists []. rewrite app_nil_r. split; [reflexivity|constructor]. Qed.

Lemma only_bind {A B} (P : Event -> Prop) (m : M A) (f : A -> M B) :
  only P m -> (forall a, only P (f a)) -> only P (bind m f).
Proof.
  intros Hm Hf w. rewrite bind_eq.
  destruct (Hm w) as (evs & Ht & Hp).
  destruct (m w) as [[a|e] w1]; simpl in Ht.
  - destruct (Hf a w1) as (evs' & Ht' & Hp').
    exists (evs ++ evs'). rewrite Ht', Ht, app_assoc.
    split; [reflexivity|apply Forall_app; split; assumption].
  - exists evs. split; assumption.
Qed.

Lemma only_try {A} (P : Event -> Prop) (m : M A) (h : exn -> M A) :
  only P m -> (forall e, only P (h e)) -> only P (try_except m h).
Proof.
  intros Hm Hh w. unfold try_except.
  destruct (Hm w) as (evs & Ht & Hp).
  destruct (m w) as [[a|e] w1]; simpl in Ht.
  - exists evs. split; assumption.
  - destruct (Hh e w1) as (evs' & Ht' & Hp').
    exists (evs ++ evs'). rewrite Ht', Ht, app_assoc.
    split; [reflexivity|apply Forall_app; split; assumption].
Qed.

Lemma only_for_each {A S} (P : Event -> Prop) (xs : list A)
    (body : A -> S -> M S) :
  (forall x s, only P (body x s)) -> forall s, only P (for_each xs body s).
Proof.
  intros Hb. induction xs as [|x xs IH]; intros s; simpl.
  - apply only_ret.
  - apply only_bind; [apply Hb|exact IH].
Qed.

Lemma only_emit (P : Event -> Prop) (ev : Event) : P ev -> only P (emit ev).
Proof. intros H w. exists [ev]. split; [reflexivity|repeat constructor; exact H]. Qed.

Lemma only_if {A} (P : Event -> Prop) (b : bool) (m1 m2 : M A) :
  only P m1 -> only P m2 -> only P (if b then m1 else m2).
Proof. destruct b; tauto. Qed.

Lemma only_session_get (P : Event -> Prop) (env : Env) (req : Request) :
  P (EvRequest req) -> only P (session_get env req).
Proof.
  intros H w. exists [EvRequest req]. unfold session_get.
  destruct (srv env (nreq w) req); (split; [reflexivity|repeat constructor; exact H]).
Qed.

Lemma only_time_sleep (P : Event -> Prop) (secs : Z) :
  P (EvSleep secs) -> only P (time_sleep secs).
Proof.
  intros H. unfold time_sleep. destruct (secs <? 0); [apply only_raise|].
  intros w. exists [EvSleep secs]. split; [reflexivity|repeat constructor; exact H].
Qed.

Lemma only_time_time (P : Event -> Prop) : only P time_time.
Proof. intros w. exists []. rewrite app_nil_r. split; [reflexivity|constructor]. Qed.

Lemma only_py_int (P : Event -> Prop) (s : string) : only P (py_int s).
Proof. unfold py_int. destruct (parse_int s); [apply only_ret|apply only_raise]. Qed.

Lemma only_raise_for_status (P : Event -> Prop) (r : Response) :
  only P (raise_for_status r).
Proof.
  unfold raise_for_status. destruct (http_error_msg r); [apply only_raise|apply only_ret].
Qed.

Lemma only_resp_json (P : Event -> Prop) (r : Response) : only P (resp_json r).
Proof. unfold resp_json. destruct (json r); [apply only_ret|apply only_raise]. Qed.

Lemma only_open (P : Event -> Prop) (env : Env) (path : string) :
  P (EvOpen path) -> only P (open_for_write env path).
Proof.
  intros H. unfold open_for_write.
  destruct (open_err env path); [apply only_raise|apply only_emit; exact H].
Qed.

Lemma only_stream (P : Event -> Prop) (r : Response) (path : string) :
  (forall chunk, P (EvWrite path chunk)) -> only P (stream_to_file r path).
Proof.
  intros H. unfold stream_to_file. apply only_bind.
  - apply only_for_each. intros chunk [].
    apply only_if; [apply only_ret|apply only_emit, H].
  - intros _. destruct (stream_err r); [apply only_raise|apply only_ret].
Qed.

Lemma only_rate_limit_sleep (P : Event -> Prop) (r : Response) :
  (forall secs, P (EvSleep secs)) -> (forall msg, P (EvWarn msg)) ->
  only P (rate_limit_sleep r).
Proof.
  intros H Hw. unfold rate_limit_sleep.
  apply only_if; [|apply only_ret].
  destruct (headers r !! "X-RateLimit-Reset"); [|apply only_ret].
  apply only_if; [apply only_ret|].
  apply only_bind; [apply only_py_int|]. intros ts.
  apply only_bind; [apply only_time_time|]. intros now.
  apply only_bind; [apply only_emit, Hw|]. intros _.
  apply only_time_sleep, H.
Qed.

(** Counting events over an extension of the trace. *)
Lemma count_events_app (f : Event -> bool) (w w' : State) (evs : list Event) :
  trace w' = trace w ++ evs ->
  count_events f w' = count_events f w + Z.of_nat (length (List.filter f evs)).
Proof.
  intros H. unfold count_events. rewrite H, List.filter_app, length_app. lia.
Qed.

Lemma filter_none (f : Event -> bool) (evs : list Event) :
  Forall (fun ev => f ev = false) evs -> List.filter f evs = [].
Proof.
  induction 1 as [|ev evs Hev _ IH]; [reflexivity|].
  simpl. rewrite Hev. exact IH.
Qed.

Lemma calm_counts (w w' : State) (evs : list Event) :
  trace w' = trace w ++ evs -> Forall calm evs ->
  rows w' = rows w /\ yields w' = yields w /\ page_requests w' = page_requests w.
Proof.
  intros Ht Hq. unfold rows, yields, page_requests.
  rewrite !(count_events_app _ w w' evs Ht).
  rewrite !filter_none; [simpl; lia| | |].
  - eapply Forall_impl; [exact Hq|]. intros ev (_ & _ & H). exact H.
  - eapply Forall_impl; [exact Hq|]. intros ev (_ & H & _). exact H.
  - eapply Forall_impl; [exact Hq|]. intros ev (H & _ & _). exact H.
Qed.

Lemma calm_quiet (ev : Event) : calm ev -> quiet ev.
Proof. intros (H1 & H2 & _). split; assumption. Qed.

Lemma quiet_counts (w w' : State) (evs : list Event) :
  trace w' = trace w ++ evs -> Forall quiet evs ->
  rows w' = rows w /\ yields w' = yields w.
Proof.
  intros Ht Hq. unfold rows, yields.
  rewrite !(count_events_app _ w w' evs Ht).
  rewrite !filter_none; [simpl; lia| |].
  - eapply Forall_impl; [exact Hq|]. intros ev (_ & H). exact H.
  - eapply Forall_impl; [exact Hq|]. intros ev (H & _). exact H.
Qed.

End Rules.

(** ** Fetching an archive *)

Section Fetch.
Variable env : Env.

Lemma for_each_writes (path : string) (chunks : list string) :
  forall w,
    for_each chunks
      (fun chunk (_ : unit) =>
         if String.eqb chunk "" then ret tt else emit (EvWrite path chunk)) tt w
    = (Ok tt, mkState (clock w) (nreq w) (trace w ++ written path chunks)).
Proof.
  induction chunks as [|c cs IH]; intros w.
  - simpl. unfold ret, written. simpl. rewrite app_nil_r. destruct w; reflexivity.
  - simpl. rewrite bind_eq. unfold written. simpl.
    destruct (String.eqb c "") eqn:E; simpl.
    + unfold ret at 1. rewrite IH. reflexivity.
    + unfold emit at 1. rewrite IH. cbn [clock nreq trace].
      rewrite <- app_assoc. reflexivity.
Qed.

(** What [download_zip] of the SRP variant returns, read off the
    environment: the reply to the request, the status of the response,
    whether the file can be opened, and whether the body arrives whole. *)
Lemma srp_download_zip_outcome (cfg : SRP.AppConfig) (item : Item) (w : State) :
  let path := SRP._zip_filename cfg item in
  let req := mkRequest (SRP._zip_url item) None true in
  SRP.download_zip env cfg item w =
  match srv env (nreq w) req with
  | NetErr msg => (Ok (false, "error: " +:+ msg), after_request w [EvRequest req])
  | Resp r =>
      match http_error_msg r, open_err env path, stream_err r with
      | Some msg, _, _ =>
          (Ok (false, "error: " +:+ msg), after_request w [EvRequest req])
      | None, Some msg, _ =>
          (Ok (false, "error: " +:+ msg), after_request w [EvRequest req])
      | None, None, Some msg =>
          (Ok (false, "error: " +:+ msg),
           after_request w (EvRequest req :: EvOpen path :: written path (content r)))
      | None, None, None =>
          (Ok (true, "downloaded"),
           after_request w (EvRequest req :: EvOpen path :: written path (content r)))
      end
  end.
Proof.
  intros path req.
  unfold SRP.download_zip, try_except, SRP.fetch_archive.
  fold path. fold req.
  rewrite !bind_eq. unfold session_get.
  destruct (srv env (nreq w) req) as [r|msg]; [|reflexivity].
  rewrite bind_eq. unfold raise_for_status.
  destruct (http_error_msg r) as [msg|]; [reflexivity|].
  unfold ret at 1. rewrite bind_eq. unfold open_for_write.
  destruct (open_err env path) as [msg|]; [reflexivity|].
  unfold emit at 1. unfold stream_to_file. rewrite bind_eq, for_each_writes.
  cbn [clock nreq trace].
  destruct (stream_err r) as [msg|]; unfold after_request;
    rewrite <- !app_assoc; reflexivity.
Qed.

Lemma srp_download_zip_returns (cfg : SRP.AppConfig) (item : Item) (w : State) :
  exists ok status w', SRP.download_zip env cfg item w = (Ok (ok, status), w').
Proof.
  pose proof (srp_download_zip_outcome cfg item w) as H. cbv zeta in H.
  rewrite H. clear H.
  destruct (srv env (nreq w) _) as [r|msg]; [|eauto].
  destruct (http_error_msg r), (open_err env (SRP._zip_filename cfg item)),
           (stream_err r); eauto.
Qed.

Lemma srp_download_zip_calm (cfg : SRP.AppConfig) (item : Item) :
  only calm (SRP.download_zip env cfg item).
Proof.
  unfold SRP.download_zip. apply only_try.
  - apply only_bind; [|intros; apply only_ret].
    unfold SRP.fetch_archive.
    apply only_bind; [apply only_session_get; repeat split|]. intros r.
    apply only_bind; [apply only_raise_for_status|]. intros _.
    apply only_bind; [apply only_open; repeat split|]. intros _.
    apply only_stream. intros; repeat split.
  - intros e. apply only_ret.
Qed.

(** The item loop of [Pipeline.run] never raises; it writes one row for
    every item that it does not skip and counts it once. *)
Lemma srp_run_items (cfg : SRP.AppConfig) (its : list Item) :
  forall (c : Z * Z * Z) (w : State),
    exists c' w',
      for_each its (SRP.run_item env cfg) c w = (Ok c', w')
      /\ rows w' = rows w + Z.of_nat (length (kept its))
      /\ fst (fst c') + snd (fst c')
         = fst (fst c) + snd (fst c) + Z.of_nat (length (kept its)).
Proof.
  induction its as [|it its IH]; intros [[pd pf] tp] w.
  - exists (pd, pf, tp), w. simpl. repeat split; lia.
  - simpl for_each. rewrite bind_eq. unfold SRP.run_item at 1. unfold kept. simpl.
    destruct (SRP.skipped it) eqn:Hskip; simpl.
    + unfold ret at 1. apply IH.
    + rewrite bind_eq.
      destruct (srp_download_zip_returns cfg it w) as (ok & status & w1 & Hd).
      destruct (srp_download_zip_calm cfg it w) as (evs & Ht & Hq).
      rewrite Hd in Ht |- *. simpl in Ht.
      rewrite bind_eq. unfold emit at 1. unfold ret at 1.
      set (w2 := mkState (clock w1) (nreq w1) (trace w1 ++ [EvRow _])).
      destruct (IH ((if ok then pd + 1 else pd), (if ok then pf else pf + 1), tp + 1) w2)
        as (c' & w' & Hrun & Hrows & Hcnt).
      exists c', w'. split; [exact Hrun|].
      destruct (calm_counts w w1 evs Ht Hq) as [Hr1 _].
      assert (Hr2 : rows w2 = rows w1 + 1).
      { unfold rows. rewrite (count_events_app is_row w1 w2 [EvRow _] eq_refl).
        reflexivity. }
      fold (kept its). simpl in Hcnt |- *.
      split; [lia|]. destruct ok; lia.
Qed.

End Fetch.

Section CrawlItem.
Variable env : Env.

Lemma download_zip_calm (full_name branch path : string) :
  only calm (download_zip env full_name branch path).
Proof.
  unfold download_zip.
  apply only_bind; [apply only_session_get; repeat split|]. intros r.
  apply only_bind; [apply only_rate_limit_sleep; intros; repeat split|]. intros _.
  apply only_bind; [apply only_raise_for_status|]. intros _.
  apply only_bind; [apply only_open; repeat split|]. intros _.
  apply only_stream. intros; repeat split.
Qed.

(** The loop body of [crawl] never raises.  After the events of the
    download it writes exactly one row, with status [downloaded] or
    [error], and increments the matching counter of the period. *)
Lemma crawl_item_outcome (item : Item) (c : Counters) (w : State) :
  exists c' w' evs row,
    crawl_item env item c w = (Ok c', w')
    /\ trace w' = trace w ++ evs ++ [EvRow row]
    /\ Forall calm evs
    /\ page_count_estimate c' = page_count_estimate c
    /\ ((nth 6 row "" = "downloaded"
         /\ period_downloaded c' = period_downloaded c + 1
         /\ period_failed c' = period_failed c)
        \/ (nth 6 row "" = "error"
            /\ period_downloaded c' = period_downloaded c
            /\ period_failed c' = period_failed c + 1)).
Proof.
  unfold crawl_item, try_except. rewrite bind_eq.
  destruct (download_zip_calm (full_name item)
              (or_default (default_branch item) "main")
              (OUTPUT_DIR +:+ "/" +:+
               replace_char "/" "#" (full_name item) +:+ "@" +:+
               or_default (default_branch item) "main" +:+ ".zip") w)
    as (evs & Ht & Hq).
  destruct (download_zip env _ _ _ w) as [[[]|e] w1]; simpl in Ht.
  - rewrite bind_eq. unfold emit at 1. unfold ret.
    do 4 eexists. split; [reflexivity|]. cbn [trace].
    split; [rewrite Ht, <- app_assoc; reflexivity|].
    split; [exact Hq|]. split; [reflexivity|]. left. repeat split; reflexivity.
  - rewrite !bind_eq. unfold emit at 1. cbv beta iota.
    rewrite bind_eq. unfold emit at 1. unfold ret.
    eexists _, _, (evs ++ [EvWarn _]), _. split; [reflexivity|]. cbn [trace].
    split; [rewrite Ht, <- !app_assoc; reflexivity|].
    split; [apply Forall_app; split; [exact Hq|repeat constructor; repeat split]|].
    split; [reflexivity|]. right. repeat split; reflexivity.
Qed.

(** The two ways through the [try] statement of [crawl]. *)
Lemma crawl_item_cases (item : Item) (c : Counters) (w : State) :
  let branch := or_default (default_branch item) "main" in
  crawl_item env item c w =
  match download_zip env (full_name item) branch (nth 7 (crawl_row item "") "") w with
  | (Ok _, w1) =>
      (Ok (mkCounters (period_downloaded c + 1) (period_failed c)
                      (page_count_estimate c)
                      (total_downloaded c + 1) (total_failed c)),
       with_events w1 [EvRow (crawl_row item "downloaded")])
  | (Raise e, w1) =>
      (Ok (mkCounters (period_downloaded c) (period_failed c + 1)
                      (page_count_estimate c)
                      (total_downloaded c) (total_failed c + 1)),
       with_events w1
         [EvWarn ("Failed to download " +:+ full_name item +:+ " (" +:+ branch
                  +:+ "): " +:+ exn_msg e);
          EvRow (crawl_row item "error")])
  end.
Proof.
  intros branch. unfold crawl_item, try_except. fold branch. rewrite bind_eq.
  simpl nth.
  destruct (download_zip env _ _ _ w) as [[[]|e] w1].
  - reflexivity.
  - rewrite !bind_eq. unfold emit at 1. cbv beta iota. rewrite bind_eq.
    unfold emit, ret, with_events. cbn [clock nreq trace].
    rewrite <- app_assoc. reflexivity.
Qed.


End CrawlItem.


(** ** Which items are downloaded *)

Section Eligibility.
Import Samples.

Lemma only_weaken {A} (P Q : Event -> Prop) (m : M A) :
  (forall ev, P ev -> Q ev) -> only P m -> only Q m.
Proof.
  intros HPQ Hm w. destruct (Hm w) as (evs & Ht & Hp).
  exists evs. split; [exact Ht|]. eapply Forall_impl; [exact Hp|exact HPQ].
Qed.

(** [download_zip] of [crawler_refactored.py] starts by sending the
    request for the archive. *)
Lemma download_zip_requests (env : Env) (full_name branch path : string) (w : State) :
  exists evs,
    trace (snd (download_zip env full_name branch path w))
    = trace w ++ EvRequest (zip_request full_name branch) :: evs.
Proof.
  unfold download_zip. rewrite bind_eq. unfold session_get.
  set (w1 := mkState (clock w) (S (nreq w)) (trace w ++ [EvRequest _])).
  destruct (srv env (nreq w) _) as [r|msg].
  - assert (Hk : only calm
                   (rate_limit_sleep r ;; raise_for_status r ;;
                    open_for_write env path ;; stream_to_file r path)%py).
    { apply only_bind; [apply only_rate_limit_sleep; intros; repeat split|]. intros _.
      apply only_bind; [apply only_raise_for_status|]. intros _.
      apply only_bind; [apply only_open; repeat split|]. intros _.
      apply only_stream. intros; repeat split. }
    destruct (Hk w1) as (evs & Ht & _). exists evs.
    rewrite Ht. unfold w1. cbn [trace]. rewrite <- app_assoc. reflexivity.
  - exists []. reflexivity.
Qed.

(** C5 as stated fails: [crawl] of [crawler_refactored.py] downloads an
    item whose topics are [java] only, and records it as downloaded. *)
Lemma untagged_item_is_downloaded :
  topics blog = Some ["java"]
  /\ crawl_item (env_of (fun _ _ => 1) []) blog (mkCounters 0 0 0 0 0) w0
     = (Ok (mkCounters 1 0 0 1 0),
        mkState 0 1
          [EvRequest (zip_request "bob/blog" "main");
           EvOpen "C:/Thesis V3/Output/bob#blog@main.zip";
           EvWrite "C:/Thesis V3/Output/bob#blog@main.zip" "PK";
           EvRow (crawl_row blog "downloaded")]).
Proof. split; [reflexivity|vm_compute; reflexivity]. Qed.

(** C5 (amended): [crawl] of [crawler_refactored.py] attempts the
    download of every item that the iterator yields, whatever its
    topics.  [Pipeline.run] of the SRP variant skips an item exactly when
    its topic list is present, not empty and lacks ["microservices"]; a
    skipped item causes no request and no record, and for every other
    item, in particular one without topic data, the download is
    attempted. *)
Theorem download_attempted_unless_skipped (env : Env) (cfg : SRP.AppConfig)
    (item : Item) (c : Counters) (c3 : Z * Z * Z) (w : State) :
  (exists evs,
     trace (snd (crawl_item env item c w))
     = trace w ++ EvRequest (zip_request (full_name item)
                               (or_default (default_branch item) "main")) :: evs)
  /\ (SRP.skipped item = true <->
      default [] (topics item) <> [] /\ "microservices" ∉ default [] (topics item))
  /\ (if SRP.skipped item
      then SRP.run_item env cfg item c3 w = (Ok c3, w)
      else exists evs,
             trace (snd (SRP.run_item env cfg item c3 w))
             = trace w ++ EvRequest (mkRequest (SRP._zip_url item) None true) :: evs).
Proof.
  split; [|split].
  - pose proof (crawl_item_cases env item c w) as Hc. cbv zeta in Hc. rewrite Hc.
    destruct (download_zip_requests env (full_name item)
                (or_default (default_branch item) "main")
                (nth 7 (crawl_row item "") "") w) as (evs & Ht).
    destruct (download_zip env _ _ _ w) as [[[]|e] w1]; simpl in Ht;
      eexists; cbn [snd with_events trace]; rewrite Ht, <- app_assoc;
      reflexivity.
  - unfold SRP.skipped. rewrite andb_true_iff, !negb_true_iff, !bool_decide_eq_false.
    reflexivity.
  - destruct c3 as [[pd pf] tp]. unfold SRP.run_item.
    destruct (SRP.skipped item); [reflexivity|].
    rewrite bind_eq.
    pose proof (srp_download_zip_outcome env cfg item w) as Hd. cbv zeta in Hd.
    rewrite Hd. clear Hd.
    destruct (srv env (nreq w) _) as [r|msg].
    + destruct (http_error_msg r), (open_err env (SRP._zip_filename cfg item)),
               (stream_err r);
        eexists; rewrite bind_eq; cbn [snd emit ret after_request trace];
        rewrite <- app_assoc; reflexivity.
    + eexists. rewrite bind_eq. cbn [snd emit ret after_request trace].
      rewrite <- app_assoc. reflexivity.
Qed.

End Eligibility.

(** ** The page iterator *)

Section Paging.
Variable env : Env.

Lemma page_count_positive (n : Z) : 1 <= n -> 1 <= page_count n.
Proof.
  intros H. unfold page_count, ceil_div, MAX_RESULTS_PER_QUERY, PER_PAGE.
  pose proof (Z.div_mod (- Z.min n 1000) 100 ltac:(lia)) as Hd.
  pose proof (Z.mod_pos_bound (- Z.min n 1000) 100 ltac:(lia)) as Hm.
  lia.
Qed.

Lemma page_count_bounds (n : Z) : 0 <= n -> 0 <= page_count n <= 10.
Proof.
  intros H. unfold page_count, ceil_div, MAX_RESULTS_PER_QUERY, PER_PAGE.
  pose proof (Z.div_mod (- Z.min n 1000) 100 ltac:(lia)) as Hd.
  pose proof (Z.mod_pos_bound (- Z.min n 1000) 100 ltac:(lia)) as Hm.
  lia.
Qed.


(** One accepted request for a page. *)
Lemma fetch_page_accepted (s e : datetime) (page : option Z) (b : SearchBody)
    (w : State) :
  accepted (srv env (nreq w) (search_request (page_params s e page))) b ->
  (resp <- session_get env (search_request (page_params s e page)) ;;
   rate_limit_sleep resp ;; raise_for_status resp ;; resp_json resp)%py w
  = (Ok b, after_request w [EvRequest (search_request (page_params s e page))]).
Proof.
  intros (r & Hr & Hm & Hj).
  rewrite bind_eq. unfold session_get. rewrite Hr.
  rewrite bind_eq, (rate_limit_sleep_accepted r _ Hm).
  rewrite bind_eq, (raise_for_status_accepted r _ Hm).
  unfold resp_json. rewrite Hj. reflexivity.
Qed.

End Paging.

Section PageLoop.
Variable env : Env.
Variables s e : datetime.
Variable bodies : Z -> SearchBody.


End PageLoop.

Section PageIterator.
Import Samples.




End PageIterator.

(** ** Rules for pre- and postconditions *)

Section HoareRules.

Lemma hoare_ret {A} (P : State -> Prop) (Q : A -> State -> Prop)
    (E : State -> Prop) (a : A) :
  (forall w, P w -> Q a w) -> hoare P (ret a) Q E.
Proof. intros H w Hw. apply H, Hw. Qed.

Lemma hoare_bind {A B} (P : State -> Prop) (R : A -> State -> Prop)
    (Q : B -> State -> Prop) (E : State -> Prop) (m : M A) (f : A -> M B) :
  hoare P m R E -> (forall a, hoare (R a) (f a) Q E) -> hoare P (bind m f) Q E.
Proof.
  intros Hm Hf w Hw. rewrite bind_eq. specialize (Hm w Hw).
  destruct (m w) as [[a|e] w1]; [apply Hf, Hm|exact Hm].
Qed.

Lemma hoare_for_each {A S} (I : S -> State -> Prop) (E : State -> Prop)
    (xs : list A) (body : A -> S -> M S) :
  (forall x s, hoare (I s) (body x s) I E) ->
  forall s, hoare (I s) (for_each xs body s) I E.
Proof.
  intros Hb. induction xs as [|x xs IH]; intros s; simpl.
  - apply hoare_ret. tauto.
  - eapply hoare_bind; [apply Hb|exact IH].
Qed.

Lemma hoare_weaken {A} (P P' : State -> Prop) (Q Q' : A -> State -> Prop)
    (E : State -> Prop) (m : M A) :
  (forall w, P' w -> P w) -> (forall a w, Q a w -> Q' a w) ->
  hoare P m Q E -> hoare P' m Q' E.
Proof.
  intros HP HQ Hm w Hw. specialize (Hm w (HP w Hw)).
  destruct (m w) as [[a|e] w1]; [apply HQ, Hm|exact Hm].
Qed.

(** A computation whose events are quiet keeps the bookkeeping balanced. *)
Lemma hoare_quiet {A} (a b v : Z) (c : Counters) (m : M A) :
  only quiet m ->
  hoare (balanced a b v c) m (fun _ => balanced a b v c) anyhow.
Proof.
  intros Hm w (H1 & H2 & H3). destruct (Hm w) as (evs & Ht & Hq).
  destruct (m w) as [[x|e] w1]; [|exact I]. simpl in Ht.
  destruct (quiet_counts w w1 evs Ht Hq) as (Hr & Hy).
  unfold balanced. rewrite Hr, Hy. tauto.
Qed.

End HoareRules.

(** ** One record and one count for every item *)

Section Balance.
Variable env : Env.

Lemma search_steps_quiet (req : Request) :
  only quiet (resp <- session_get env req ;;
              rate_limit_sleep resp ;; raise_for_status resp ;; resp_json resp)%py.
Proof.
  apply only_bind; [apply only_session_get; split; reflexivity|]. intros r.
  apply only_bind; [apply only_rate_limit_sleep; intros; split; reflexivity|]. intros _.
  apply only_bind; [apply only_raise_for_status|]. intros _.
  apply only_resp_json.
Qed.

Lemma search_count_quiet (s e : datetime) : only quiet (search_count env s e).
Proof.
  unfold search_count.
  apply only_bind; [apply only_session_get; split; reflexivity|]. intros r.
  apply only_bind; [apply only_rate_limit_sleep; intros; split; reflexivity|]. intros _.
  apply only_bind; [apply only_raise_for_status|]. intros _.
  apply only_bind; [apply only_resp_json|]. intros b. apply only_ret.
Qed.

Lemma add_or_raise_only (P : Event -> Prop) (t : datetime) (td : timedelta) :
  only P (add_or_raise t td).
Proof. unfold add_or_raise. destruct (dt_add t td); [apply only_ret|apply only_raise]. Qed.

Lemma split_quiet (d : nat) :
  forall s e, only quiet (split_window_if_needed env d s e).
Proof.
  induction d as [|d IH]; intros s e; simpl.
  - apply only_raise.
  - apply only_bind; [apply search_count_quiet|]. intros cnt.
    apply only_if; [apply only_ret|].
    apply only_bind; [apply add_or_raise_only|]. intros m.
    apply only_bind; [apply IH|]. intros l.
    apply only_bind; [apply add_or_raise_only|]. intros rs.
    apply only_bind; [apply IH|]. intros r. apply only_ret.
Qed.

(** Handing one item to the loop body of [crawl]: one yield, then one
    row and one increment of one of the two counters. *)
Lemma hoare_yield_item (a b v : Z) (item : Item) (c : Counters) :
  hoare (balanced a b v c)
        (emit (EvYield item) ;; crawl_item env item c)%py
        (balanced a b v) anyhow.
Proof.
  intros w (H1 & H2 & H3). rewrite bind_eq. unfold emit at 1.
  set (w1 := mkState (clock w) (nreq w) (trace w ++ [EvYield item])).
  destruct (crawl_item_outcome env item c w1)
    as (c' & w' & evs & row & Hrun & Ht & Hq & Hp & Hcnt).
  rewrite Hrun.
  assert (Hy1 : yields w1 = yields w + 1 /\ rows w1 = rows w).
  { unfold yields, rows.
    rewrite !(count_events_app _ w w1 [EvYield item] eq_refl). simpl. lia. }
  assert (Hq' : Forall quiet evs)
    by (eapply Forall_impl; [exact Hq|exact calm_quiet]).
  assert (Hy2 : yields w' = yields w1 /\ rows w' = rows w1 + 1).
  { unfold yields, rows. rewrite !(count_events_app _ w1 w' _ Ht).
    rewrite !List.filter_app, !length_app.
    rewrite (filter_none is_yield evs), (filter_none is_row evs).
    - simpl. lia.
    - eapply Forall_impl; [exact Hq'|]. intros ev [H _]. exact H.
    - eapply Forall_impl; [exact Hq'|]. intros ev [_ H]. exact H. }
  unfold balanced. destruct Hcnt as [(_ & Hd & Hf)|(_ & Hd & Hf)]; lia.
Qed.

Lemma hoare_iter_search_pages (a b v : Z) (s e : datetime) (c : Counters) :
  hoare (balanced a b v c)
        (iter_search_pages env s e (crawl_item env) c)
        (balanced a b v) anyhow.
Proof.
  unfold iter_search_pages.
  eapply hoare_bind; [apply hoare_quiet, only_session_get; split; reflexivity|].
  intros r.
  eapply hoare_bind;
    [apply hoare_quiet, only_rate_limit_sleep; intros; split; reflexivity|]. intros ?.
  eapply hoare_bind; [apply hoare_quiet, only_raise_for_status|]. intros ?.
  eapply hoare_bind; [apply hoare_quiet, only_resp_json|]. intros data.
  cbv zeta.
  eapply hoare_bind.
  { unfold yield_items. apply hoare_for_each. intros; apply hoare_yield_item. }
  intros c1. apply hoare_for_each. intros page c2.
  eapply hoare_bind; [apply hoare_quiet, only_session_get; split; reflexivity|].
  intros r2.
  eapply hoare_bind;
    [apply hoare_quiet, only_rate_limit_sleep; intros; split; reflexivity|]. intros ?.
  eapply hoare_bind; [apply hoare_quiet, only_raise_for_status|]. intros ?.
  eapply hoare_bind; [apply hoare_quiet, only_resp_json|]. intros data2.
  eapply hoare_bind.
  { unfold yield_items. apply hoare_for_each. intros; apply hoare_yield_item. }
  intros c3.
  eapply hoare_bind; [apply hoare_quiet, only_time_sleep; split; reflexivity|].
  intros ?. apply hoare_ret. tauto.
Qed.

End Balance.

Section PeriodBalance.
Variable env : Env.
Import Samples.

Lemma balanced_estimate (a b v v' : Z) (c : Counters) (w : State) :
  balanced a b v c w ->
  balanced a b v'
    (mkCounters (period_downloaded c) (period_failed c) v'
                (total_downloaded c) (total_failed c)) w.
Proof. unfold balanced. simpl. tauto. Qed.

Lemma hoare_crawl_window (a b : Z) (win : datetime * datetime) (c : Counters) :
  hoare (fun w => exists v, balanced a b v c w)
        (crawl_window env win c)
        (fun c' w => exists v, balanced a b v c' w) anyhow.
Proof.
  intros w [v Hb]. destruct win as [ws we]. unfold crawl_window.
  refine (hoare_bind (balanced a b v c) (fun _ => balanced a b v c) _ anyhow
            _ _ _ _ w Hb).
  - apply hoare_quiet, search_count_quiet.
  - intros tc.
    eapply hoare_weaken;
      [| |apply (hoare_iter_search_pages env a b
                   (page_count_estimate c + page_count tc) ws we)].
    + intros w1 H1. apply (balanced_estimate a b v). exact H1.
    + intros c' w1 H1. exists (page_count_estimate c + page_count tc). exact H1.
Qed.

Lemma hoare_crawl_period (depth : nat) (cs ce : datetime) (totals : Z * Z)
    (a b : Z) :
  hoare (fun w => - yields w = a /\ rows w - yields w = b)
        (crawl_period env depth cs ce totals)
        (fun r w => row_downloaded (fst r) + row_failed (fst r) - yields w = a
                    /\ rows w - yields w = b)
        anyhow.
Proof.
  unfold crawl_period.
  eapply hoare_bind with
    (R := fun _ w => balanced a b 0 (mkCounters 0 0 0 (fst totals) (snd totals)) w).
  - intros w [H1 H2].
    destruct (split_quiet env depth cs ce w) as (evs & Ht & Hq).
    destruct (split_window_if_needed env depth cs ce w) as [[l|ex] w1]; [|exact I].
    simpl in Ht. destruct (quiet_counts w w1 evs Ht Hq) as [Hr Hy].
    unfold balanced. simpl. rewrite Hr, Hy. repeat split; lia.
  - intros windows.
    eapply hoare_bind with (R := fun c w => exists v, balanced a b v c w).
    + eapply hoare_weaken; [| |apply hoare_for_each, hoare_crawl_window].
      * intros w Hw. exists 0. exact Hw.
      * intros c w Hw. exact Hw.
    + intros c. apply hoare_ret. intros w (v & H1 & H2 & _). simpl. split; assumption.
Qed.

(** C4: every item that the page iterator yields gets exactly one row
    in the sink, with status [downloaded] or [error], and increments
    exactly one of the two counters of the window; so the counters of
    the summary row of a top-level window add up to the number of items
    yielded for it, which is also the number of rows written for it. *)
Theorem one_record_and_count_per_item (depth : nat) (cs ce : datetime)
    (totals totals' : Z * Z) (row : SummaryRow) (w w' : State) :
  crawl_period env depth cs ce totals w = (Ok (row, totals'), w') ->
  row_downloaded row + row_failed row = yields w' - yields w
  /\ rows w' - rows w = yields w' - yields w
  /\ forall item c w1, exists c' w2 evs r,
       crawl_item env item c w1 = (Ok c', w2)
       /\ trace w2 = trace w1 ++ evs ++ [EvRow r]
       /\ Forall quiet evs
       /\ ((nth 6 r "" = "downloaded"
            /\ period_downloaded c' = period_downloaded c + 1
            /\ period_failed c' = period_failed c)
           \/ (nth 6 r "" = "error"
               /\ period_downloaded c' = period_downloaded c
               /\ period_failed c' = period_failed c + 1)).
Proof.
  intros Hrun.
  pose proof (hoare_crawl_period depth cs ce totals
                (- yields w) (rows w - yields w) w (conj eq_refl eq_refl)) as H.
  rewrite Hrun in H. simpl in H. destruct H as [H1 H2].
  split; [lia|]. split; [lia|].
  intros item c w1.
  destruct (crawl_item_outcome env item c w1)
    as (c' & w2 & evs & r & Hc & Ht & Hq & _ & Hcnt).
  exists c', w2, evs, r. repeat split; try assumption.
  eapply Forall_impl; [exact Hq|exact calm_quiet].
Qed.

End PeriodBalance.

Section PeriodExample.
Import Samples.

Lemma one_record_and_count_per_item_witness :
  let run := crawl_period no_archives 3 jan_01 jun_30 (0, 0) w0 in
  let row := mkRow (ymd2ord 2020 1 1) (ymd2ord 2020 6 30) 0 1 2 in
  row_downloaded row + row_failed row = yields (snd run) - yields w0
  /\ rows (snd run) - rows w0 = yields (snd run) - yields w0
  /\ forall item c w1, exists c' w2 evs r,
       crawl_item no_archives item c w1 = (Ok c', w2)
       /\ trace w2 = trace w1 ++ evs ++ [EvRow r]
       /\ Forall quiet evs
       /\ ((nth 6 r "" = "downloaded"
            /\ period_downloaded c' = period_downloaded c + 1
            /\ period_failed c' = period_failed c)
           \/ (nth 6 r "" = "error"
               /\ period_downloaded c' = period_downloaded c
               /\ period_failed c' = period_failed c + 1)).
Proof.
  intros run row.
  apply (one_record_and_count_per_item no_archives 3 jan_01 jun_30 (0, 0) (0, 2)
           row w0 (snd run)).
  vm_compute. reflexivity.
Defined.

End PeriodExample.

(** ** The page estimate of the summary *)

Section Estimate.
Variable env : Env.
Variable count : Z -> Z -> Z.
Hypothesis Hsrv : answers_count env count.

Lemma advanced_refl (c : Counters) (w : State) : advanced 0 c c w w.
Proof.
  unfold advanced. split; [reflexivity|]. split; [lia|].
  exists []. rewrite app_nil_r. reflexivity.
Qed.

Lemma advanced_trans (n m : Z) (c c1 c2 : Counters) (w w1 w2 : State) :
  advanced n c c1 w w1 -> advanced m c1 c2 w1 w2 -> advanced (n + m) c c2 w w2.
Proof.
  intros (H1 & H2 & evs & H3) (K1 & K2 & evs' & K3).
  unfold advanced. split; [congruence|]. split; [lia|].
  exists (evs ++ evs'). rewrite K3, H3, app_assoc. reflexivity.
Qed.

(** Events added to the trace, none of them a page request. *)
Lemma advanced_calm (c : Counters) (w w' : State) (evs : list Event) :
  trace w' = trace w ++ evs ->
  Forall (fun ev => is_page_request ev = false) evs ->
  advanced 0 c c w w'.
Proof.
  intros Ht Hq. unfold advanced. split; [reflexivity|]. split; [|eauto].
  unfold page_requests. rewrite (count_events_app _ w w' evs Ht).
  rewrite (filter_none _ _ Hq). simpl. lia.
Qed.

Lemma yield_items_advanced (its : list Item) :
  forall c w, exists c' w',
    yield_items (crawl_item env) its c w = (Ok c', w') /\ advanced 0 c c' w w'.
Proof.
  unfold yield_items.
  induction its as [|it its IH]; intros c w.
  - exists c, w. split; [reflexivity|apply advanced_refl].
  - simpl for_each. rewrite !bind_eq. unfold emit at 1.
    set (w1 := mkState (clock w) (nreq w) (trace w ++ [EvYield it])).
    destruct (crawl_item_outcome env it c w1)
      as (c1 & w2 & evs & row & Hrun & Ht & Hq & Hp & _).
    rewrite Hrun.
    destruct (IH c1 w2) as (c' & w' & Hrest & Hadv).
    exists c', w'. split; [exact Hrest|].
    replace 0 with (0 + 0) by lia.
    refine (advanced_trans 0 0 c c1 c' w w2 w' _ Hadv).
    unfold advanced. split; [exact Hp|].
    assert (Ht' : trace w2 = trace w ++ [EvYield it] ++ evs ++ [EvRow row])
      by (rewrite Ht; unfold w1; cbn [trace]; rewrite <- app_assoc; reflexivity).
    split; [|eauto].
    unfold page_requests. rewrite (count_events_app _ w w2 _ Ht').
    rewrite filter_none; [simpl; lia|].
    constructor; [reflexivity|]. apply Forall_app. split.
    + eapply Forall_impl; [exact Hq|]. intros ev (_ & _ & H). exact H.
    + repeat constructor.
Qed.

End Estimate.

Section EstimateLoop.
Variable env : Env.
Variable count : Z -> Z -> Z.
Hypothesis Hsrv : answers_count env count.

(** An accepted page request hands the body of the reply to the rest of
    the computation. *)
Lemma page_request_then {B} (s e : datetime) (page : option Z)
    (k : SearchBody -> M B) (w : State) :
  let req := search_request (page_params s e page) in
  (resp <- session_get env req ;;
   rate_limit_sleep resp ;;
   raise_for_status resp ;;
   data <- resp_json resp ;;
   k data)%py w
  = k (reply_body env (nreq w) req) (after_request w [EvRequest req]).
Proof.
  intros req.
  destruct (Hsrv (nreq w) BASE_SEARCH_URL (page_params s e page) false)
    as (b & (r & Hr & Hm & Hj) & Hc).
  fold (search_request (page_params s e page)) in Hr. fold req in Hr.
  unfold reply_body. rewrite Hr, Hj.
  rewrite bind_eq. unfold session_get at 1. rewrite Hr.
  rewrite bind_eq, (rate_limit_sleep_accepted r _ Hm).
  rewrite bind_eq, (raise_for_status_accepted r _ Hm).
  rewrite bind_eq. unfold resp_json at 1. rewrite Hj. reflexivity.
Qed.

Lemma reply_body_count (s e : datetime) (page : option Z) (k : nat) :
  default 0 (total_count (reply_body env k (search_request (page_params s e page))))
  = count (date_of s) (date_of e).
Proof.
  destruct (Hsrv k BASE_SEARCH_URL (page_params s e page) false)
    as (b & (r & Hr & Hm & Hj) & Hc).
  unfold reply_body, search_request. rewrite Hr, Hj. exact Hc.
Qed.

Lemma page_request_counts (s e : datetime) (page : option Z) (c : Counters)
    (w : State) :
  advanced 1 c c w
    (after_request w [EvRequest (search_request (page_params s e page))]).
Proof.
  unfold advanced. split; [reflexivity|]. split; [|eexists; reflexivity].
  unfold page_requests.
  rewrite (count_events_app _ w (after_request w _) _ eq_refl). reflexivity.
Qed.

(** The loop over the pages after the first, with the loop body of
    [crawl] as consumer: one page request for every page. *)
Lemma later_pages_advanced (s e : datetime) (ps : list Z) :
  forall c w, exists c' w',
    for_each ps
      (fun page c =>
         resp <- session_get env (search_request (page_params s e (Some page))) ;;
         rate_limit_sleep resp ;;
         raise_for_status resp ;;
         data <- resp_json resp ;;
         c <- yield_items (crawl_item env) (default [] (items data)) c ;;
         time_sleep DELAY_BETWEEN_PAGES ;;
         ret c)%py c w
    = (Ok c', w')
    /\ advanced (Z.of_nat (length ps)) c c' w w'.
Proof.
  induction ps as [|p ps IH]; intros c w.
  - exists c, w. split; [reflexivity|apply advanced_refl].
  - simpl for_each. rewrite bind_eq.
    pose proof (page_request_then s e (Some p)
                  (fun data =>
                     c <- yield_items (crawl_item env) (default [] (items data)) c ;;
                     time_sleep DELAY_BETWEEN_PAGES ;; ret c)%py w) as Hreq.
    cbv zeta in Hreq. rewrite Hreq. clear Hreq.
    set (w1 := after_request w _).
    rewrite bind_eq.
    destruct (yield_items_advanced env
                (default [] (items (reply_body env (nreq w)
                   (search_request (page_params s e (Some p)))))) c w1)
      as (c1 & w2 & Hy & Hadv).
    rewrite Hy. rewrite bind_eq. unfold time_sleep at 1.
    change (DELAY_BETWEEN_PAGES <? 0) with false. cbv iota. unfold ret at 1.
    set (w3 := mkState _ _ _).
    destruct (IH c1 w3) as (c' & w' & Hrest & Hadv').
    exists c', w'. split; [exact Hrest|].
    replace (Z.of_nat (length (p :: ps))) with (1 + 0 + 0 + Z.of_nat (length ps))
      by (simpl length; lia).
    refine (advanced_trans _ _ c c1 c' w w3 w' _ Hadv').
    refine (advanced_trans _ _ c c1 c1 w w2 w3 _ _).
    + refine (advanced_trans _ _ c c c1 w w1 w2 _ Hadv).
      apply page_request_counts.
    + apply (advanced_calm c1 w2 w3 [EvSleep DELAY_BETWEEN_PAGES]); [reflexivity|].
      repeat constructor.
Qed.

End EstimateLoop.

Section EstimatePeriod.
Variable env : Env.
Variable count : Z -> Z -> Z.
Hypothesis Hsrv : answers_count env count.

Lemma split_calm (d : nat) :
  forall s e, only calm (split_window_if_needed env d s e).
Proof.
  induction d as [|d IH]; intros s e; simpl.
  - apply only_raise.
  - apply only_bind.
    { unfold search_count.
      apply only_bind; [apply only_session_get; repeat split|]. intros r.
      apply only_bind; [apply only_rate_limit_sleep; intros; repeat split|]. intros _.
      apply only_bind; [apply only_raise_for_status|]. intros _.
      apply only_bind; [apply only_resp_json|]. intros b. apply only_ret. }
    intros cnt. apply only_if; [apply only_ret|].
    apply only_bind; [apply add_or_raise_only|]. intros m.
    apply only_bind; [apply IH|]. intros l.
    apply only_bind; [apply add_or_raise_only|]. intros rs.
    apply only_bind; [apply IH|]. intros r. apply only_ret.
Qed.

(** Under a fixed oracle the iterator, feeding the loop body of [crawl],
    returns after the request of the first page and one request for
    each of the pages 2..[pages]. *)
Lemma iter_search_pages_advanced (s e : datetime) (c : Counters) (w : State) :
  exists c' w',
    iter_search_pages env s e (crawl_item env) c w = (Ok c', w')
    /\ advanced (Z.max 1 (page_count (count (date_of s) (date_of e)))) c c' w w'
    /\ exists evs,
         trace w' = trace w ++ EvRequest (search_request (page_params s e None)) :: evs.
Proof.
  unfold iter_search_pages.
  pose proof (page_request_then env count Hsrv s e None
    (fun data =>
       let total_count := default 0 (total_count data) in
       let pages := page_count total_count in
       c <- yield_items (crawl_item env) (default [] (items data)) c ;;
       for_each (py_range 2 (pages + 1))
         (fun page c =>
            resp <- session_get env (search_request (page_params s e (Some page))) ;;
            rate_limit_sleep resp ;;
            raise_for_status resp ;;
            data <- resp_json resp ;;
            c <- yield_items (crawl_item env) (default [] (items data)) c ;;
            time_sleep DELAY_BETWEEN_PAGES ;;
            ret c) c)%py w) as Hreq.
  cbv zeta in Hreq. rewrite Hreq. clear Hreq.
  rewrite (reply_body_count env count Hsrv).
  set (pages := page_count (count (date_of s) (date_of e))).
  set (w1 := after_request w _).
  rewrite bind_eq.
  destruct (yield_items_advanced env
              (default [] (items (reply_body env (nreq w)
                 (search_request (page_params s e None))))) c w1)
    as (c1 & w2 & Hy & Hadv).
  rewrite Hy.
  destruct (later_pages_advanced env count Hsrv s e (py_range 2 (pages + 1)) c1 w2)
    as (c' & w' & Hloop & Hadv').
  exists c', w'. split; [exact Hloop|].
  assert (Hall : advanced (1 + 0 + Z.of_nat (length (py_range 2 (pages + 1))))
                          c c' w w').
  { refine (advanced_trans _ _ c c1 c' w w2 w' _ Hadv').
    refine (advanced_trans _ _ c c c1 w w1 w2 _ Hadv).
    apply page_request_counts. }
  split.
  - replace (Z.max 1 pages)
      with (1 + 0 + Z.of_nat (length (py_range 2 (pages + 1))))
      by (rewrite py_range_length; lia).
    exact Hall.
  - destruct Hadv as (_ & _ & evs1 & Ht1). destruct Hadv' as (_ & _ & evs2 & Ht2).
    exists (evs1 ++ evs2). rewrite Ht2, Ht1. unfold w1. cbn [after_request trace].
    rewrite <- !app_assoc. reflexivity.
Qed.

Lemma crawl_window_advanced (s e : datetime) (c : Counters) (w : State) :
  exists c' w',
    crawl_window env (s, e) c w = (Ok c', w')
    /\ page_count_estimate c'
       = page_count_estimate c + page_count (count (date_of s) (date_of e))
    /\ page_requests w'
       = page_requests w + Z.max 1 (page_count (count (date_of s) (date_of e)))
    /\ exists evs,
         trace w' = trace w ++ EvRequest (search_request (count_params s e))
                            :: EvRequest (search_request (page_params s e None)) :: evs.
Proof.
  unfold crawl_window. rewrite bind_eq, (search_count_oracle env count Hsrv).
  set (c1 := mkCounters _ _ _ _ _).
  destruct (iter_search_pages_advanced s e c1 (after_count s e w))
    as (c' & w' & Hrun & (Hp & Hf & _) & evs & Ht).
  exists c', w'. split; [exact Hrun|]. split; [exact Hp|]. split.
  - rewrite Hf. unfold page_requests.
    rewrite (count_events_app _ w (after_count s e w) _ eq_refl). simpl. lia.
  - exists evs. rewrite Ht. unfold after_count. cbn [trace].
    rewrite <- app_assoc. reflexivity.
Qed.

Lemma crawl_windows_advanced (wins : list (datetime * datetime)) :
  forall c w, exists c' w',
    for_each wins (crawl_window env) c w = (Ok c', w')
    /\ page_count_estimate c'
       = page_count_estimate c
         + sum_over (fun leaf => page_count (count_of count leaf)) wins
    /\ page_requests w'
       = page_requests w
         + sum_over (fun leaf => Z.max 1 (page_count (count_of count leaf))) wins.
Proof.
  induction wins as [|[s e] wins IH]; intros c w.
  - exists c, w. unfold sum_over. simpl. repeat split; lia.
  - cbn [for_each]. rewrite bind_eq.
    destruct (crawl_window_advanced s e c w) as (c1 & w1 & Hrun & Hp & Hf & _).
    rewrite Hrun.
    destruct (IH c1 w1) as (c' & w' & Hrest & Hp' & Hf').
    exists c', w'. split; [exact Hrest|].
    unfold sum_over in *. simpl. unfold count_of at 1 3. simpl. split; lia.
Qed.

Lemma sum_over_positive (wins : list (datetime * datetime)) :
  Forall (fun leaf => 1 <= count_of count leaf) wins ->
  sum_over (fun leaf => Z.max 1 (page_count (count_of count leaf))) wins
  = sum_over (fun leaf => page_count (count_of count leaf)) wins.
Proof.
  unfold sum_over. induction 1 as [|leaf wins Hleaf _ IH]; [reflexivity|].
  simpl. rewrite IH. pose proof (page_count_positive _ Hleaf). lia.
Qed.

(** A leaf without results has no page in the figure and costs the
    request of its first page. *)
Lemma sum_over_empty_leaves (wins : list (datetime * datetime)) :
  Forall (fun leaf => 0 <= count_of count leaf) wins ->
  sum_over (fun leaf => Z.max 1 (page_count (count_of count leaf))) wins
  = sum_over (fun leaf => page_count (count_of count leaf)) wins
    + Z.of_nat (length (List.filter (fun leaf => count_of count leaf =? 0) wins)).
Proof.
  unfold sum_over. induction 1 as [|leaf wins Hleaf _ IH]; [reflexivity|].
  cbn [map fold_right List.filter]. rewrite IH.
  destruct (count_of count leaf =? 0) eqn:E.
  - apply Z.eqb_eq in E. rewrite E. cbn [length].
    change (page_count 0) with 0. lia.
  - apply Z.eqb_neq in E.
    pose proof (page_count_positive (count_of count leaf) ltac:(lia)). lia.
Qed.

End EstimatePeriod.

(** C10 as stated fails: for the top-level window
    2020-01-01..2020-06-30 with no repository at all, the window is its
    own leaf, the pages figure of the summary row is 0, and the
    iterator has fetched one page, the first, with the request that
    tells it the count: the recorded figure is one less than the number
    of pages fetched. *)
Lemma empty_window_pages_counterexample :
  let env := Samples.env_of (fun _ _ => 0) [] in
  let run := crawl_period env 2 Samples.jan_01 Samples.jun_30 (0, 0) Samples.w0 in
  fst (split_window_if_needed env 2 Samples.jan_01 Samples.jun_30 Samples.w0)
  = Ok [(Samples.jan_01, Samples.jun_30)]
  /\ fst run = Ok (mkRow (ymd2ord 2020 1 1) (ymd2ord 2020 6 30) 0 0 0, (0, 0))
  /\ page_requests (snd run) - page_requests Samples.w0 = 1
  /\ row_pages (mkRow (ymd2ord 2020 1 1) (ymd2ord 2020 6 30) 0 0 0)
     <> page_requests (snd run) - page_requests Samples.w0.
Proof.
  intros env run.
  split; [vm_compute; reflexivity|].
  split; [vm_compute; reflexivity|].
  split; [vm_compute; reflexivity|].
  vm_compute. discriminate.
Qed.

(** C10 (amended): the pages figure of the summary row of a top-level
    window is accumulated from a count query of its own for every leaf,
    sent before the iterator sends the request of the first page.  When
    the count oracle is a fixed function of the query dates, the figure
    is the sum over the leaves of [ceil(min(count(leaf), 1000) / 100)],
    the number of pages that the iterator computes for the leaf from
    the same count.  The iterator fetches that many pages for a leaf
    whose count is at least one, and one page, the first, for a leaf
    whose count is zero: the figure is the number of pages fetched
    exactly when no leaf is empty, and otherwise falls short of it by
    the number of empty leaves. *)
Theorem summary_row_pages_of_leaves (env : Env) (count : Z -> Z -> Z)
    (depth : nat) (cs ce : datetime) (totals totals' : Z * Z)
    (row : SummaryRow) (w w' : State) :
  answers_count env count ->
  crawl_period env depth cs ce totals w = (Ok (row, totals'), w') ->
  exists leaves w1,
    split_window_if_needed env depth cs ce w = (Ok leaves, w1)
    /\ row_pages row = sum_over (fun leaf => page_count (count_of count leaf)) leaves
    /\ page_requests w' - page_requests w
       = sum_over (fun leaf => Z.max 1 (page_count (count_of count leaf))) leaves
    /\ (Forall (fun leaf => 1 <= count_of count leaf) leaves ->
        page_requests w' - page_requests w = row_pages row)
    /\ (Forall (fun leaf => 0 <= count_of count leaf) leaves ->
        page_requests w' - page_requests w
        = row_pages row
          + Z.of_nat (length (List.filter (fun leaf => count_of count leaf =? 0) leaves)))
    /\ forall s e c w2, exists c' w3 evs,
         crawl_window env (s, e) c w2 = (Ok c', w3)
         /\ page_count_estimate c'
            = page_count_estimate c + page_count (count (date_of s) (date_of e))
         /\ trace w3 = trace w2 ++ EvRequest (search_request (count_params s e))
                                :: EvRequest (search_request (page_params s e None))
                                :: evs.
Proof.
  intros Hsrv Hrun. unfold crawl_period in Hrun. rewrite bind_eq in Hrun.
  destruct (split_calm env depth cs ce w) as (evs0 & Ht0 & Hq0).
  destruct (split_window_if_needed env depth cs ce w) as [[leaves|ex] w1];
    [|discriminate].
  simpl in Ht0. rewrite bind_eq in Hrun.
  destruct (crawl_windows_advanced env count Hsrv leaves
              (mkCounters 0 0 0 (fst totals) (snd totals)) w1)
    as (c' & w2 & Hloop & Hp & Hf).
  rewrite Hloop in Hrun. unfold ret in Hrun. inversion Hrun; subst. clear Hrun.
  destruct (calm_counts w w1 evs0 Ht0 Hq0) as (_ & _ & Hf0).
  exists leaves, w1. simpl in Hp |- *.
  split; [reflexivity|]. split; [exact Hp|]. split; [lia|]. split; [|split].
  - intros Hpos. rewrite Hp, <- (sum_over_positive count leaves Hpos). lia.
  - intros Hnn. pose proof (sum_over_empty_leaves count leaves Hnn) as He. lia.
  - intros s e c w3.
    destruct (crawl_window_advanced env count Hsrv s e c w3)
      as (c1 & w4 & Hw & Hp1 & _ & evs & Ht).
    exists c1, w4, evs. repeat split; assumption.
Qed.

Section EstimateExample.
Import Samples.

Lemma summary_row_pages_of_leaves_witness :
  let env := env_of first_half_2020 [shop] in
  let run := crawl_period env 2 jan_01 jun_30 (0, 0) w0 in
  exists leaves w1,
    split_window_if_needed env 2 jan_01 jun_30 w0 = (Ok leaves, w1)
    /\ row_pages (mkRow (ymd2ord 2020 1 1) (ymd2ord 2020 6 30) 16 16 0)
       = sum_over (fun leaf => page_count (count_of first_half_2020 leaf)) leaves
    /\ page_requests (snd run) - page_requests w0
       = sum_over (fun leaf => Z.max 1 (page_count (count_of first_half_2020 leaf))) leaves
    /\ (Forall (fun leaf => 1 <= count_of first_half_2020 leaf) leaves ->
        page_requests (snd run) - page_requests w0
        = row_pages (mkRow (ymd2ord 2020 1 1) (ymd2ord 2020 6 30) 16 16 0))
    /\ (Forall (fun leaf => 0 <= count_of first_half_2020 leaf) leaves ->
        page_requests (snd run) - page_requests w0
        = row_pages (mkRow (ymd2ord 2020 1 1) (ymd2ord 2020 6 30) 16 16 0)
          + Z.of_nat (length (List.filter
                                (fun leaf => count_of first_half_2020 leaf =? 0) leaves)))
    /\ forall s e c w2, exists c' w3 evs,
         crawl_window env (s, e) c w2 = (Ok c', w3)
         /\ page_count_estimate c'
            = page_count_estimate c
              + page_count (first_half_2020 (date_of s) (date_of e))
         /\ trace w3 = trace w2 ++ EvRequest (search_request (count_params s e))
                                :: EvRequest (search_request (page_params s e None))
                                :: evs.
Proof.
  intros env run.
  apply (summary_row_pages_of_leaves env first_half_2020 2 jan_01 jun_30
           (0, 0) (16, 0) _ w0 (snd run)).
  - apply env_of_answers.
  - vm_compute. reflexivity.
Defined.

End EstimateExample.

(** ** The top-level windows of [crawl] *)

Section TopLevel.

(** The window that an iteration of the [while] loop of [crawl] hands to
    the partitioner does not end before it starts. *)
Lemma top_level_window_ordered (current_start finish_date t : datetime) :
  (current_start <=? finish_date) = true ->
  dt_add current_start (days DATE_STEP_DAYS) = Some t ->
  current_start <= Z.min t finish_date.
Proof.
  intros Hle Ht. apply Z.leb_le in Hle. unfold dt_add in Ht.
  destruct (in_range _); [|discriminate]. inversion Ht; subst.
  unfold days, DATE_STEP_DAYS, usec_per_day. lia.
Qed.

(** The loop ends as soon as [current_start] has passed [finish_date]. *)
Lemma crawl_loop_done (env : Env) (depth : nat) (finish_date current_start : datetime)
    (acc : list SummaryRow * (Z * Z)) (w : State) :
  finish_date < current_start ->
  crawl_loop env depth finish_date current_start acc w = (Ok acc, w).
Proof.
  intros H. apply Z.leb_gt in H.
  rewrite crawl_loop_equation_1.
  generalize (inspect (current_start <=? finish_date)).
  intros [b Hb]. destruct b; [congruence|]. reflexivity.
Qed.

Lemma clipped_window_ordered (step_days : nat) (finish start t : datetime) :
  (start <=? finish) = true ->
  dt_add start (days (Z.of_nat step_days)) = Some t ->
  start <= Z.min (Z.min t finish) finish.
Proof.
  intros Hle Ht. apply dt_add_some in Ht. apply Z.leb_le in Hle.
  unfold days, usec_per_day in Ht. lia.
Qed.

(** Every window that [DateRanges.windows] yields starts no later than
    it ends. *)
Lemma date_ranges_windows_ordered (step_days : nat) (finish start : datetime) :
  Forall (fun win => fst win <= snd win) (fst (SRP.windows step_days finish start)).
Proof.
  funelim (SRP.windows step_days finish start);
    try rewrite <- Heqcall; simpl; repeat (constructor; simpl);
    try assumption; try (eapply clipped_window_ordered; eassumption).
Qed.

(** The page counts of the older variants agree with the one of
    [crawler_refactored.py] up to the cap. *)
Lemma older_page_counts_agree (n : Z) (folder : string) :
  n <= MAX_RESULTS_PER_QUERY ->
  Legacy.numberOfPages (Some n) = page_count n
  /\ SRP.pages_of (SRP.default_config folder) n = page_count n.
Proof.
  intros H. unfold Legacy.numberOfPages, SRP.pages_of, page_count, PER_PAGE.
  simpl. rewrite Z.min_l by exact H. split; reflexivity.
Qed.

End TopLevel.

(** ** When the partitioner returns *)

Section Returns.
Variable env : Env.
Variable count : Z -> Z -> Z.
Hypothesis Hsrv : answers_count env count.
Hypothesis Hempty : empty_ranges_small count.
Hypothesis Hday : forall d, count d d <= MAX_RESULTS_PER_QUERY.

(** A window over the cap spans at least two calendar days. *)
Lemma over_cap_spans_days (s e : datetime) :
  MAX_RESULTS_PER_QUERY < count (date_of s) (date_of e) -> date_of s < date_of e.
Proof.
  intros Hgt.
  destruct (Z.lt_trichotomy (date_of s) (date_of e)) as [H|[H|H]]; [exact H| |].
  - rewrite H in Hgt. specialize (Hday (date_of e)). lia.
  - specialize (Hempty _ _ H). lia.
Qed.

Lemma halve_le_pow (x n : Z) : 0 <= n -> 0 <= x <= 2 ^ (n + 1) -> td_div x 2 <= 2 ^ n.
Proof.
  intros Hn [Hx0 Hx]. rewrite Z.pow_add_r, Z.pow_1_r in Hx by lia.
  unfold td_div, divide_and_round.
  change (0 <? 2) with true; cbv iota.
  pose proof (Z.div_mod x 2 ltac:(lia)) as Hd.
  pose proof (Z.mod_pos_bound x 2 ltac:(lia)) as Hm.
  destruct ((2 <? x mod 2 * 2) || (x mod 2 * 2 =? 2) && ((x / 2) mod 2 =? 1)) eqn:E.
  - apply orb_true_iff in E as [E|E].
    + apply Z.ltb_lt in E. lia.
    + apply andb_true_iff in E as [E _]. apply Z.eqb_eq in E. lia.
  - lia.
Qed.

Lemma halve_lower (x : Z) : x <= 2 * td_div x 2 + 1.
Proof.
  unfold td_div, divide_and_round.
  change (0 <? 2) with true; cbv iota.
  pose proof (Z.div_mod x 2 ltac:(lia)) as Hd.
  pose proof (Z.mod_pos_bound x 2 ltac:(lia)) as Hm.
  destruct ((2 <? x mod 2 * 2) || (x mod 2 * 2 =? 2) && ((x / 2) mod 2 =? 1)); lia.
Qed.

(** When no single day and no empty range exceeds the cap, a window of
    at most [2 ^ n] microseconds is partitioned within [n + 2] nested
    calls. *)
Lemma split_returns_within (n : nat) :
  forall (s e : datetime) (w : State),
    in_range s = true -> in_range e = true -> in_range (e + days 1) = true ->
    e - s <= 2 ^ Z.of_nat n ->
    exists leaves w', split_window_if_needed env (n + 2) s e w = (Ok leaves, w').
Proof.
  induction n as [|n IH]; intros s e w Hs He He1 Hspan.
  - change (0 + 2)%nat with (S 1).
    destruct (Z.le_gt_cases (count (date_of s) (date_of e)) MAX_RESULTS_PER_QUERY)
      as [Hle|Hgt].
    { rewrite (split_leaf env count Hsrv) by exact Hle. eauto. }
    pose proof (over_cap_spans_days s e Hgt) as Hlt.
    assert (Hse : e - s = 1).
    { destruct (Z.lt_ge_cases s e) as [H|H]; [simpl in Hspan; lia|].
      apply date_of_mono in H. lia. }
    rewrite (split_node env count Hsrv) by exact Hgt.
    unfold dt_sub. rewrite Hse. change (td_div 1 2) with 0.
    rewrite bind_eq. unfold add_or_raise at 1, dt_add.
    rewrite Z.add_0_r, Hs. unfold ret at 1. rewrite bind_eq.
    rewrite (split_leaf env count Hsrv) by apply Hday.
    rewrite bind_eq. unfold add_or_raise at 1, dt_add.
    assert (Hr : in_range (s + days 1) = true).
    { apply (in_range_between s (e + days 1)); [assumption..|].
      unfold days, usec_per_day. lia. }
    rewrite Hr. unfold ret at 1. rewrite bind_eq.
    assert (Hle : count (date_of (s + days 1)) (date_of e) <= MAX_RESULTS_PER_QUERY).
    { rewrite date_of_next_day.
      assert (date_of e <= date_of s + 1).
      { rewrite <- date_of_next_day. apply date_of_mono.
        unfold days, usec_per_day. lia. }
      destruct (Z.eq_dec (date_of e) (date_of s + 1)) as [Heq|Hne].
      - rewrite Heq. apply Hday.
      - apply Hempty. lia. }
    rewrite (split_leaf env count Hsrv) by exact Hle. unfold ret. eauto.
  - change (S n + 2)%nat with (S (n + 2)).
    destruct (Z.le_gt_cases (count (date_of s) (date_of e)) MAX_RESULTS_PER_QUERY)
      as [Hle|Hgt].
    { rewrite (split_leaf env count Hsrv) by exact Hle. eauto. }
    pose proof (over_cap_spans_days s e Hgt) as Hlt.
    assert (Hse : s < e).
    { destruct (Z.lt_ge_cases s e) as [H|H]; [exact H|].
      apply date_of_mono in H. lia. }
    replace (Z.of_nat (S n)) with (Z.of_nat n + 1) in Hspan by lia.
    pose proof (halve_le_pow (e - s) (Z.of_nat n) ltac:(lia) ltac:(lia)) as Hhalf.
    pose proof (midpoint_between s e) as Hm.
    destruct (halve_bounds (e - s)) as [Hpos _]. specialize (Hpos ltac:(lia)).
    rewrite (split_node env count Hsrv) by exact Hgt.
    unfold dt_sub in *.
    set (m := s + td_div (e - s) 2) in *.
    assert (Hmr : in_range m = true) by exact (in_range_between s e m Hs He Hm).
    assert (Hm1 : in_range (m + days 1) = true).
    { apply (in_range_between s (e + days 1)); [assumption..|].
      unfold days, usec_per_day in *. lia. }
    rewrite bind_eq. unfold add_or_raise at 1, dt_add. fold m. rewrite Hmr.
    unfold ret at 1. rewrite bind_eq.
    destruct (IH s m (after_count s e w) Hs Hmr Hm1 ltac:(unfold m; lia))
      as (l & w1 & Hl).
    rewrite Hl, bind_eq. unfold add_or_raise at 1, dt_add. rewrite Hm1.
    unfold ret at 1. rewrite bind_eq.
    assert (Hright : e - (m + days 1) <= 2 ^ Z.of_nat n).
    { pose proof (halve_lower (e - s)).
      rewrite Z.pow_add_r, Z.pow_1_r in Hspan by lia.
      unfold m, days, usec_per_day. lia. }
    destruct (IH (m + days 1) e w1 Hm1 He He1 Hright) as (r & w2 & Hr).
    rewrite Hr. unfold ret. eauto.
Qed.

(** So the partitioner returns for every window that starts no later
    than it ends, at a depth logarithmic in the span. *)
Lemma split_returns (s e : datetime) (w : State) :
  in_range s = true -> in_range (e + days 1) = true -> s <= e ->
  exists leaves w',
    split_window_if_needed env (Z.to_nat (Z.log2_up (e - s)) + 2) s e w
    = (Ok leaves, w').
Proof.
  intros Hs He1 Hse.
  assert (He : in_range e = true).
  { apply (in_range_between s (e + days 1)); [assumption..|].
    unfold days, usec_per_day. lia. }
  apply split_returns_within; try assumption.
  rewrite Z2Nat.id by apply Z.log2_up_nonneg.
  destruct (Z.le_gt_cases (e - s) 1) as [H|H].
  - pose proof (Z.pow_pos_nonneg 2 (Z.log2_up (e - s)) ltac:(lia)
                  (Z.log2_up_nonneg _)). lia.
  - apply Z.log2_up_spec. lia.
Qed.

End Returns.

(** ** Checks of the model against Python *)

Section Checks.

Example ordinal_of_2020_01_01 : ymd2ord 2020 1 1 = 737425.
Proof. reflexivity. Qed.

Example ordinal_of_9999_12_31 : ymd2ord 9999 12 31 = 3652059.
Proof. reflexivity. Qed.

Example rounding_ties_to_even :
  map (fun x => divide_and_round x 2) [1; 3; 5; -1; -3] = [0; 2; 2; 0; -2].
Proof. reflexivity. Qed.

Example midpoint_of_first_half_2020 :
  Samples.jan_01 + td_div (dt_sub Samples.jun_30 Samples.jan_01) 2
  = mk_datetime_at 2020 3 31 12 0.
Proof. reflexivity. Qed.

Example int_of_header :
  map parse_int [" 1700000030 "; "-1_0"; "1__0"; "_1"; "1_"; ""; "12a"]
  = [Some 1700000030; Some (-10); None; None; None; None; None].
Proof. reflexivity. Qed.

Example page_counts :
  map page_count [0; 1; 100; 101; 999; 1000; 1500] = [0; 1; 1; 2; 10; 10; 10].
Proof. reflexivity. Qed.

Example date_ranges_of_the_configuration :
  SRP.windows 182 (mk_datetime 2021 1 30) (mk_datetime 2020 1 1)
  = ([(mk_datetime 2020 1 1, mk_datetime 2020 7 1);
      (mk_datetime 2020 7 2, mk_datetime 2020 12 31);
      (mk_datetime 2021 1 1, mk_datetime 2021 1 30)], None).
Proof. vm_compute. reflexivity. Qed.

Example crawl_of_a_week :
  fst (crawl (Samples.env_of (Samples.range_total Samples.jan5_6) [Samples.shop]) 5
         (mk_datetime 2020 1 1) (mk_datetime 2020 1 8) Samples.w0)
  = Ok [mkRow (ymd2ord 2020 1 1) (ymd2ord 2020 1 8) 15 12 0].
Proof. vm_compute. reflexivity. Qed.

Example status_message :
  http_error_msg Samples.throttled_response
  = Some "403 Client Error: Forbidden for url: https://api.github.com/search/repositories".
Proof. vm_compute. reflexivity. Qed.

End Checks.

(* ===================================================================== *)
(** * Further properties of the code *)
(* ===================================================================== *)

(** ** The partitioner *)

Section PartitionerMore.
Import Samples.

Lemma range_total_empty (per_day : Z -> Z) (a b : Z) :
  b < a -> range_total per_day a b = 0.
Proof.
  intros H. unfold range_total. rewrite py_range_empty by lia. reflexivity.
Qed.

Lemma range_total_single (per_day : Z -> Z) (d : Z) :
  range_total per_day d d = per_day d.
Proof.
  unfold range_total. rewrite py_range_cons by lia.
  rewrite py_range_empty by lia. simpl. lia.
Qed.

Lemma jan5_6_days_fit (d : Z) : range_total jan5_6 d d <= MAX_RESULTS_PER_QUERY.
Proof.
  rewrite range_total_single. unfold jan5_6, MAX_RESULTS_PER_QUERY.
  destruct (_ || _); lia.
Qed.

Lemma jan5_6_empty_small : empty_ranges_small (range_total jan5_6).
Proof.
  intros a b H. rewrite range_total_empty by exact H.
  unfold MAX_RESULTS_PER_QUERY. lia.
Qed.

(** X1: whenever [split_window_if_needed] returns for a window that
    starts no later than it ends, under a count oracle that is a fixed
    function of the query dates and reports at most the cap for empty
    ranges, every leaf has a count within the cap and the days that the
    queries of the leaves select are the days of the window, each exactly
    once and in chronological order.  A leaf may select no day (its
    start day is then the day after its end day), never less. *)
Theorem partition_covers_window (env : Env) (count : Z -> Z -> Z) (depth : nat)
    (s e : datetime) (w w' : State) (leaves : list (datetime * datetime)) :
  answers_count env count ->
  empty_ranges_small count ->
  s <= e ->
  split_window_if_needed env depth s e w = (Ok leaves, w') ->
  covered leaves = py_range (date_of s) (date_of e + 1)
  /\ Forall (fun leaf => count_of count leaf <= MAX_RESULTS_PER_QUERY) leaves
  /\ Forall (fun leaf => date_of (fst leaf) <= date_of (snd leaf) + 1) leaves.
Proof.
  intros Hsrv Hempty Hse Hrun.
  apply (split_cover env count Hsrv Hempty depth s e w w' leaves); [|exact Hrun].
  apply date_of_mono in Hse. lia.
Qed.

Lemma partition_covers_window_witness :
  let leaves :=
    [ (mk_datetime 2020 1 1, mk_datetime_at 2020 1 4 12 0);
      (mk_datetime_at 2020 1 5 12 0, mk_datetime_at 2020 1 5 19 30);
      (mk_datetime_at 2020 1 6 19 30, mk_datetime_at 2020 1 6 3 0);
      (mk_datetime_at 2020 1 7 3 0, mk_datetime_at 2020 1 6 18 0);
      (mk_datetime_at 2020 1 7 18 0, mk_datetime 2020 1 8) ] in
  covered leaves = py_range (date_of (mk_datetime 2020 1 1))
                            (date_of (mk_datetime 2020 1 8) + 1)
  /\ Forall (fun leaf => count_of (range_total jan5_6) leaf <= MAX_RESULTS_PER_QUERY)
            leaves
  /\ Forall (fun leaf => date_of (fst leaf) <= date_of (snd leaf) + 1) leaves.
Proof.
  intros leaves.
  apply (partition_covers_window (env_of (range_total jan5_6) []) (range_total jan5_6)
           5 (mk_datetime 2020 1 1) (mk_datetime 2020 1 8) w0
           (snd (split_window_if_needed (env_of (range_total jan5_6) []) 5
                   (mk_datetime 2020 1 1) (mk_datetime 2020 1 8) w0))).
  - apply env_of_answers.
  - exact jan5_6_empty_small.
  - vm_compute. discriminate.
  - vm_compute. reflexivity.
Defined.

(** X2: when no single day and no empty range exceeds the cap,
    [split_window_if_needed] returns for every window that starts no
    later than it ends (and ends at least a day before [datetime.max]),
    within a number of nested calls that is logarithmic in the span of
    the window in microseconds. *)
Theorem partition_returns_when_days_fit (env : Env) (count : Z -> Z -> Z)
    (s e : datetime) (w : State) :
  answers_count env count ->
  empty_ranges_small count ->
  (forall d, count d d <= MAX_RESULTS_PER_QUERY) ->
  in_range s = true -> in_range (e + days 1) = true -> s <= e ->
  exists leaves w',
    split_window_if_needed env (Z.to_nat (Z.log2_up (e - s)) + 2) s e w
    = (Ok leaves, w').
Proof.
  intros Hsrv Hempty Hday Hs He Hse.
  apply (split_returns env count Hsrv Hempty Hday s e w Hs He Hse).
Qed.

Lemma partition_returns_when_days_fit_witness :
  exists leaves w',
    split_window_if_needed (env_of (range_total jan5_6) [])
      (Z.to_nat (Z.log2_up (mk_datetime 2020 1 8 - mk_datetime 2020 1 1)) + 2)
      (mk_datetime 2020 1 1) (mk_datetime 2020 1 8) w0
    = (Ok leaves, w').
Proof.
  apply (partition_returns_when_days_fit (env_of (range_total jan5_6) [])
           (range_total jan5_6)).
  - apply env_of_answers.
  - exact jan5_6_empty_small.
  - exact jan5_6_days_fit.
  - reflexivity.
  - reflexivity.
  - vm_compute. discriminate.
Defined.

End PartitionerMore.

(** X3: under a count oracle that is a fixed function of the query
    dates, a call of [split_window_if_needed] that returns has sent one
    count query for every window it looked at, that is one less than
    twice the number of leaves it returns; it returns at least one leaf
    and never sleeps. *)
Theorem partition_query_cost (env : Env) (count : Z -> Z -> Z) (depth : nat) :
  forall (s e : datetime) (w w' : State) (leaves : list (datetime * datetime)),
  answers_count env count ->
  split_window_if_needed env depth s e w = (Ok leaves, w') ->
  (nreq w' + 1 = nreq w + 2 * length leaves)%nat
  /\ (0 < length leaves)%nat
  /\ clock w' = clock w.
Proof.
  induction depth as [|d IH]; intros s e w w' leaves Hsrv Hrun; [discriminate|].
  destruct (Z.le_gt_cases (count (date_of s) (date_of e)) MAX_RESULTS_PER_QUERY)
    as [Hle|Hgt].
  - rewrite (split_leaf env count Hsrv) in Hrun by assumption.
    injection Hrun as <- <-. simpl. repeat split; lia.
  - rewrite (split_node env count Hsrv) in Hrun by assumption.
    rewrite bind_eq in Hrun. unfold add_or_raise at 1 in Hrun.
    destruct (dt_add s (td_div (dt_sub e s) 2)) as [m|]; [|discriminate].
    unfold ret at 1 in Hrun. cbv beta iota in Hrun. rewrite bind_eq in Hrun.
    destruct (split_window_if_needed env d s m (after_count s e w))
      as [[l|ex] u] eqn:El; [|discriminate].
    rewrite bind_eq in Hrun. unfold add_or_raise at 1 in Hrun.
    destruct (dt_add m (days 1)) as [rs|]; [|discriminate].
    unfold ret at 1 in Hrun. cbv beta iota in Hrun. rewrite bind_eq in Hrun.
    destruct (split_window_if_needed env d rs e u) as [[r|ex] u'] eqn:Er;
      [|discriminate].
    unfold ret in Hrun. injection Hrun as <- <-.
    destruct (IH _ _ _ _ _ Hsrv El) as (Hn1 & Hp1 & Hc1).
    destruct (IH _ _ _ _ _ Hsrv Er) as (Hn2 & Hp2 & Hc2).
    rewrite length_app. simpl in Hn1, Hc1. repeat split; [lia|lia|congruence].
Qed.

Lemma partition_query_cost_witness :
  let run := split_window_if_needed (Samples.env_of (Samples.range_total Samples.jan5_6) [])
               5 (mk_datetime 2020 1 1) (mk_datetime 2020 1 8) Samples.w0 in
  (nreq (snd run) + 1 = nreq Samples.w0 + 2 * 5)%nat
  /\ (0 < 5)%nat
  /\ clock (snd run) = clock Samples.w0.
Proof.
  intros run.
  apply (partition_query_cost (Samples.env_of (Samples.range_total Samples.jan5_6) [])
           (Samples.range_total Samples.jan5_6) 5
           (mk_datetime 2020 1 1) (mk_datetime 2020 1 8) Samples.w0 (snd run)
           [ (mk_datetime 2020 1 1, mk_datetime_at 2020 1 4 12 0);
             (mk_datetime_at 2020 1 5 12 0, mk_datetime_at 2020 1 5 19 30);
             (mk_datetime_at 2020 1 6 19 30, mk_datetime_at 2020 1 6 3 0);
             (mk_datetime_at 2020 1 7 3 0, mk_datetime_at 2020 1 6 18 0);
             (mk_datetime_at 2020 1 7 18 0, mk_datetime 2020 1 8) ]).
  - apply env_of_answers.
  - vm_compute. reflexivity.
Defined.

(** ** What the crawl asks the search API for *)

Section CrawlEvents.
Variable env : Env.
Variable P : Event -> Prop.

Lemma only_search_steps (req : Request) :
  P (EvRequest req) -> (forall secs, P (EvSleep secs)) -> (forall msg, P (EvWarn msg)) ->
  only P (resp <- session_get env req ;;
          rate_limit_sleep resp ;; raise_for_status resp ;; resp_json resp)%py.
Proof.
  intros Hreq Hs Hw.
  apply only_bind; [apply only_session_get, Hreq|]. intros r.
  apply only_bind; [apply only_rate_limit_sleep; assumption|]. intros _.
  apply only_bind; [apply only_raise_for_status|]. intros _.
  apply only_resp_json.
Qed.

Lemma only_search_count (s e : datetime) :
  P (EvRequest (search_request (count_params s e))) ->
  (forall secs, P (EvSleep secs)) -> (forall msg, P (EvWarn msg)) ->
  only P (search_count env s e).
Proof.
  intros Hreq Hs Hw. unfold search_count.
  apply only_bind; [apply only_session_get, Hreq|]. intros r.
  apply only_bind; [apply only_rate_limit_sleep; assumption|]. intros _.
  apply only_bind; [apply only_raise_for_status|]. intros _.
  apply only_bind; [apply only_resp_json|]. intros b. apply only_ret.
Qed.

Lemma only_split (d : nat) :
  (forall s e, P (EvRequest (search_request (count_params s e)))) ->
  (forall secs, P (EvSleep secs)) -> (forall msg, P (EvWarn msg)) ->
  forall s e, only P (split_window_if_needed env d s e).
Proof.
  intros Hreq Hs Hw.
  induction d as [|d IH]; intros s e; simpl.
  - apply only_raise.
  - apply only_bind; [apply only_search_count; auto|]. intros cnt.
    apply only_if; [apply only_ret|].
    apply only_bind; [apply add_or_raise_only|]. intros m.
    apply only_bind; [apply IH|]. intros l.
    apply only_bind; [apply add_or_raise_only|]. intros rs.
    apply only_bind; [apply IH|]. intros r. apply only_ret.
Qed.

(** The loop of [crawl] emits what its periods emit. *)
Lemma only_crawl_loop (depth : nat) (finish_date current_start : datetime)
    (acc : list SummaryRow * (Z * Z)) :
  (forall cs ce totals, only P (crawl_period env depth cs ce totals)) ->
  only P (crawl_loop env depth finish_date current_start acc).
Proof.
  intros Hp w.
  funelim (crawl_loop env depth finish_date current_start acc w);
    try rewrite <- Heqcall.
  all: try (exists []; rewrite app_nil_r; split; [reflexivity|constructor]).
  all: pose proof (Hp current_start (Z.min t finish_date) (snd acc) w) as (evs & Ht' & Hf);
    match goal with
    | Hq : crawl_period _ _ _ _ _ _ = _ |- _ => rewrite Hq in Ht'; simpl in Ht'
    end.
  all: try (exists evs; split; assumption).
  match goal with
  | IH : _ -> only _ _ |- _ => destruct (IH Hp w') as (evs' & Ht'' & Hf')
  | IH : _ -> exists _, _ |- _ => destruct (IH Hp) as (evs' & Ht'' & Hf')
  end.
  exists (evs ++ evs'). rewrite Ht'', Ht', app_assoc.
  split; [reflexivity|apply Forall_app; split; assumption].
Qed.

End CrawlEvents.

Lemma only_for_each_in {A S} (P : Event -> Prop) (xs : list A)
    (body : A -> S -> M S) :
  (forall x s, In x xs -> only P (body x s)) -> forall s, only P (for_each xs body s).
Proof.
  induction xs as [|x xs IH]; intros Hb s; simpl.
  - apply only_ret.
  - apply only_bind; [apply Hb; left; reflexivity|].
    intros s'. apply IH. intros y t Hy. apply Hb. right. exact Hy.
Qed.

Lemma py_range_in (a b p : Z) : In p (py_range a b) -> a <= p < b.
Proof.
  unfold py_range. intros H. apply in_map_iff in H as (i & <- & Hi).
  apply in_seq in Hi. lia.
Qed.

Lemma page_count_at_most (n : Z) : page_count n <= 10.
Proof.
  unfold page_count, ceil_div, MAX_RESULTS_PER_QUERY, PER_PAGE.
  pose proof (Z.div_mod (- Z.min n 1000) 100 ltac:(lia)) as Hd.
  pose proof (Z.mod_pos_bound (- Z.min n 1000) 100 ltac:(lia)) as Hm.
  lia.
Qed.

Section WithinCap.
Variable env : Env.

Lemma crawl_item_within_cap (item : Item) (c : Counters) :
  only within_cap (crawl_item env item c).
Proof.
  unfold crawl_item. apply only_try.
  - apply only_bind.
    + unfold download_zip.
      apply only_bind; [apply only_session_get; exact I|]. intros r.
      apply only_bind; [apply only_rate_limit_sleep; intros; exact I|]. intros _.
      apply only_bind; [apply only_raise_for_status|]. intros _.
      apply only_bind; [apply only_open; exact I|]. intros _.
      apply only_stream. intros; exact I.
    + intros _. apply only_bind; [apply only_emit; exact I|]. intros _. apply only_ret.
  - intros e. apply only_bind; [apply only_emit; exact I|]. intros _.
    apply only_bind; [apply only_emit; exact I|]. intros _. apply only_ret.
Qed.

Lemma yield_items_within_cap (its : list Item) (c : Counters) :
  only within_cap (yield_items (crawl_item env) its c).
Proof.
  unfold yield_items. apply only_for_each. intros it c'.
  apply only_bind; [apply only_emit; exact I|]. intros _. apply crawl_item_within_cap.
Qed.

Lemma iter_search_pages_within_cap (s e : datetime) (c : Counters) :
  only within_cap (iter_search_pages env s e (crawl_item env) c).
Proof.
  unfold iter_search_pages.
  apply only_bind; [apply only_session_get; exact I|]. intros r.
  apply only_bind; [apply only_rate_limit_sleep; intros; exact I|]. intros _.
  apply only_bind; [apply only_raise_for_status|]. intros _.
  apply only_bind; [apply only_resp_json|]. intros b.
  apply only_bind; [apply yield_items_within_cap|]. intros c1.
  apply only_for_each_in. intros p c2 Hp.
  apply py_range_in in Hp.
  pose proof (page_count_at_most (default 0 (total_count b))) as Hb.
  apply only_bind.
  { apply only_session_get. simpl. unfold PER_PAGE, MAX_RESULTS_PER_QUERY. lia. }
  intros r'.
  apply only_bind; [apply only_rate_limit_sleep; intros; exact I|]. intros _.
  apply only_bind; [apply only_raise_for_status|]. intros _.
  apply only_bind; [apply only_resp_json|]. intros b'.
  apply only_bind; [apply yield_items_within_cap|]. intros c3.
  apply only_bind; [apply only_time_sleep; exact I|]. intros _. apply only_ret.
Qed.

Lemma crawl_period_within_cap (depth : nat) (cs ce : datetime) (totals : Z * Z) :
  only within_cap (crawl_period env depth cs ce totals).
Proof.
  unfold crawl_period.
  apply only_bind; [apply only_split; intros; exact I|]. intros wins.
  apply only_bind; [|intros c; apply only_ret].
  apply only_for_each. intros [ws we] c. unfold crawl_window.
  apply only_bind; [apply only_search_count; intros; exact I|]. intros tc.
  apply iter_search_pages_within_cap.
Qed.

End WithinCap.

(** X4: whatever the servers answer, no request of [crawl] asks the
    search API for a result beyond the first thousand of a query: a
    search request names no page, or one of the pages 2..10 of a
    hundred results each. *)
Theorem crawl_stays_within_result_cap (env : Env) (depth : nat)
    (start_date finish_date : datetime) (w : State) :
  exists evs,
    trace (snd (crawl env depth start_date finish_date w)) = trace w ++ evs
    /\ Forall within_cap evs.
Proof.
  revert w. change (only within_cap (crawl env depth start_date finish_date)).
  unfold crawl.
  apply only_bind; [apply only_open; exact I|]. intros _.
  apply only_bind; [apply only_emit; exact I|]. intros _.
  apply only_bind; [|intros r; apply only_ret].
  apply only_crawl_loop. intros cs ce totals. apply crawl_period_within_cap.
Qed.

(** ** The top-level periods *)

Section Periods.

(** One step of the loops over top-level periods: the period from
    [cs] is clipped to [fd], and the next one starts a day after its
    end. *)
Lemma period_step (cs fd n : Z) :
  0 <= n -> cs <= fd -> time_of_day cs <= time_of_day fd ->
  let ce := Z.min (cs + days n) fd in
  let next := ce + days 1 in
  date_of cs <= date_of ce
  /\ date_of next = date_of ce + 1
  /\ ((next <= fd /\ time_of_day next = time_of_day cs)
      \/ (fd < next /\ date_of next = date_of fd + 1)).
Proof.
  intros Hn Hle Htod ce next.
  assert (Hce : cs <= ce) by (unfold ce, days, usec_per_day; lia).
  split; [apply date_of_mono, Hce|].
  split; [apply date_of_next_day|].
  unfold next. rewrite date_of_next_day.
  unfold time_of_day in *.
  assert (Hmod : (ce + days 1) mod usec_per_day = ce mod usec_per_day).
  { unfold days. apply Z.mod_add. unfold usec_per_day. lia. }
  assert (Hshift : (cs + days n) mod usec_per_day = cs mod usec_per_day).
  { unfold days. apply Z.mod_add. unfold usec_per_day. lia. }
  assert (Hdshift : date_of (cs + days n) = date_of cs + n).
  { unfold date_of, days. apply Z.div_add. unfold usec_per_day. lia. }
  rewrite Hmod.
  destruct (Z.le_gt_cases (cs + days n) fd) as [Hin|Hout].
  - assert (Ece : ce = cs + days n) by (unfold ce; lia).
    rewrite Ece, Hshift, Hdshift.
    destruct (Z.le_gt_cases (cs + days n + days 1) fd) as [Hnext|Hnext];
      [left; split; [exact Hnext|reflexivity]|right; split; [exact Hnext|]].
    pose proof (date_of_mono _ _ Hin) as Hq. rewrite Hdshift in Hq.
    pose proof (Z.div_mod fd usec_per_day ltac:(unfold usec_per_day; lia)) as Hfd.
    pose proof (Z.div_mod cs usec_per_day ltac:(unfold usec_per_day; lia)) as Hcs.
    unfold date_of in *. unfold days, usec_per_day in *. lia.
  - assert (Ece : ce = fd) by (unfold ce; lia).
    rewrite Ece. right. split; [unfold days, usec_per_day; lia|reflexivity].
Qed.

(** A period that [crawl_period] completes is recorded with the days of
    its two ends. *)
Lemma crawl_period_row (env : Env) (depth : nat) (cs ce : datetime)
    (totals totals' : Z * Z) (row : SummaryRow) (w w' : State) :
  crawl_period env depth cs ce totals w = (Ok (row, totals'), w') ->
  row_range row = (date_of cs, date_of ce).
Proof.
  unfold crawl_period. rewrite bind_eq.
  destruct (split_window_if_needed env depth cs ce w) as [[wins|ex] w1]; [|discriminate].
  rewrite bind_eq.
  destruct (for_each wins (crawl_window env) _ w1) as [[c|ex] w2]; [|discriminate].
  unfold ret. intros H. injection H as <- _ _. reflexivity.
Qed.

Lemma crawl_loop_tiles (env : Env) (depth : nat) (finish_date current_start : datetime)
    (acc : list SummaryRow * (Z * Z)) (w : State) :
  forall rows totals w',
  (current_start <= finish_date
   /\ time_of_day current_start <= time_of_day finish_date)
  \/ (finish_date < current_start
      /\ date_of current_start = date_of finish_date + 1) ->
  crawl_loop env depth finish_date current_start acc w = (Ok (rows, totals), w') ->
  exists new,
    rows = fst acc ++ new
    /\ tiles (date_of current_start) (date_of finish_date) (map row_range new).
Proof.
  funelim (crawl_loop env depth finish_date current_start acc w);
    try rewrite <- Heqcall; intros rows totals' w'' Hinv Hrun; try discriminate.
  - injection Hrun as Hacc _. subst acc.
    exists []. rewrite app_nil_r. split; [reflexivity|].
    simpl. destruct Hinv as [[Hle' _]|[_ Hd]]; [|exact Hd].
    match goal with Hf : Z.leb _ _ = false |- _ =>
      pose proof (proj1 (Z.leb_gt _ _) Hf); lia end.
  - assert (Hle' : current_start <= finish_date) by (apply Z.leb_le; assumption).
    destruct Hinv as [[_ Htod]|[Hgt _]]; [|lia].
    assert (Et : t = current_start + days DATE_STEP_DAYS)
      by (apply dt_add_some; assumption).
    assert (En : next = Z.min t finish_date + days 1)
      by (apply dt_add_some; assumption).
    rewrite Et in En.
    destruct (period_step current_start finish_date DATE_STEP_DAYS
                ltac:(unfold DATE_STEP_DAYS; lia) Hle' Htod) as (Hd1 & Hd2 & Hnext).
    rewrite <- En in Hd2, Hnext.
    assert (Hrow : row_range row = (date_of current_start, date_of (Z.min t finish_date))).
    { match goal with Hq : crawl_period _ _ _ _ _ _ = _ |- _ =>
        exact (crawl_period_row _ _ _ _ _ _ _ _ _ Hq) end. }
    rewrite Et in Hrow.
    match goal with IH : forall _ _ _, _ -> _ -> exists _, _ |- _ =>
      destruct (IH rows totals' w'') as (new & Hrows & Htiles);
        [destruct Hnext as [[Hin E]|Hout];
           [left; split; [exact Hin|rewrite E; exact Htod]|right; exact Hout]
        |exact Hrun|] end.
    exists (row :: new). simpl in Hrows. rewrite <- app_assoc in Hrows.
    split; [exact Hrows|].
    cbn [map tiles]. rewrite Hrow. cbn [fst snd]. rewrite <- Hd2. tauto.
Qed.

End Periods.

(** X5: when [crawl] returns for a start that is not later than the
    finish and not later in the day than the finish is (as for two
    dates given without a time), the date ranges of the summary rows
    follow one another without gap or overlap from the day of the start
    to the day of the finish, and none of them is empty. *)
Theorem crawl_summary_tiles_the_dates (env : Env) (depth : nat)
    (start_date finish_date : datetime) (w w' : State) (rows : list SummaryRow) :
  start_date <= finish_date ->
  time_of_day start_date <= time_of_day finish_date ->
  crawl env depth start_date finish_date w = (Ok rows, w') ->
  tiles (date_of start_date) (date_of finish_date) (map row_range rows).
Proof.
  intros Hle Htod. unfold crawl. rewrite bind_eq.
  destruct (open_for_write env OUTPUT_CSV w) as [[[]|ex] w1]; [|discriminate].
  rewrite bind_eq. unfold emit at 1. rewrite bind_eq.
  destruct (crawl_loop env depth finish_date start_date ([], (0, 0)) _)
    as [[[rows' tot]|ex] w2] eqn:Hloop; [|discriminate].
  unfold ret. intros H. injection H as <- _.
  destruct (crawl_loop_tiles _ _ _ _ _ _ _ _ _ (or_introl (conj Hle Htod)) Hloop)
    as (new & Hrows & Htiles).
  simpl in Hrows. subst rows'. exact Htiles.
Qed.

Lemma crawl_summary_tiles_the_dates_witness :
  tiles (date_of (mk_datetime 2020 1 1)) (date_of (mk_datetime 2021 1 30))
    (map row_range
       [mkRow (ymd2ord 2020 1 1) (ymd2ord 2020 7 1) 0 0 0;
        mkRow (ymd2ord 2020 7 2) (ymd2ord 2020 12 31) 0 0 0;
        mkRow (ymd2ord 2021 1 1) (ymd2ord 2021 1 30) 0 0 0]).
Proof.
  apply (crawl_summary_tiles_the_dates
           (Samples.env_of (fun _ _ => 0) []) 3
           (mk_datetime 2020 1 1) (mk_datetime 2021 1 30) Samples.w0
           (snd (crawl (Samples.env_of (fun _ _ => 0) []) 3
                   (mk_datetime 2020 1 1) (mk_datetime 2021 1 30) Samples.w0))).
  - vm_compute. discriminate.
  - vm_compute. discriminate.
  - vm_compute. reflexivity.
Defined.

Lemma date_ranges_tiles (step_days : nat) (finish start : datetime) :
  forall wins,
  (start <= finish /\ time_of_day start <= time_of_day finish)
  \/ (finish < start /\ date_of start = date_of finish + 1) ->
  SRP.windows step_days finish start = (wins, None) ->
  tiles (date_of start) (date_of finish) (map window_range wins).
Proof.
  funelim (SRP.windows step_days finish start);
    try rewrite <- Heqcall; intros wins Hinv Hrun; try discriminate.
  - injection Hrun as <-. simpl.
    destruct Hinv as [[Hle' _]|[_ Hd]]; [|exact Hd].
    match goal with Hf : Z.leb _ _ = false |- _ =>
      pose proof (proj1 (Z.leb_gt _ _) Hf); lia end.
  - assert (Hle' : start <= finish) by (apply Z.leb_le; assumption).
    destruct Hinv as [[_ Htod]|[Hgt _]]; [|lia].
    assert (Et : t = start + days (Z.of_nat step_days))
      by (apply dt_add_some; assumption).
    assert (En : next = Z.min t finish + days 1)
      by (apply dt_add_some; assumption).
    rewrite Et in En.
    destruct (period_step start finish (Z.of_nat step_days)
                ltac:(lia) Hle' Htod) as (Hd1 & Hd2 & Hnext).
    rewrite <- En in Hd2, Hnext.
    destruct (SRP.windows step_days finish next) as [rest err] eqn:Erest.
    simpl in Hrun. injection Hrun as <- ->.
    replace (Z.min (Z.min t finish) finish) with (Z.min t finish) by lia.
    cbn [map tiles].
    change (window_range (start, Z.min t finish))
      with (date_of start, date_of (Z.min t finish)).
    cbn [fst snd]. rewrite Et, <- Hd2.
    split; [reflexivity|]. split; [lia|].
    match goal with IH : forall _, _ -> _ -> tiles _ _ _ |- _ =>
      apply IH; [|reflexivity] end.
    destruct Hnext as [[Hin E]|Hout];
      [left; split; [exact Hin|rewrite E; exact Htod]|right; exact Hout].
Qed.

(** X6: when [DateRanges.windows] ends without an overflow for a start
    that is not later than the finish and not later in the day than the
    finish is, the days of the windows it yields follow one another
    without gap or overlap from the day of the start to the day of the
    finish, whatever the step; no window is empty and none ends after
    the finish. *)
Theorem date_ranges_windows_tile (step_days : nat) (finish start : datetime)
    (wins : list (datetime * datetime)) :
  start <= finish ->
  time_of_day start <= time_of_day finish ->
  SRP.windows step_days finish start = (wins, None) ->
  tiles (date_of start) (date_of finish) (map window_range wins)
  /\ Forall (fun win => fst win <= snd win <= finish) wins.
Proof.
  intros Hle Htod Hrun. split.
  - apply (date_ranges_tiles step_days finish start wins); [left; split; assumption|exact Hrun].
  - clear Hle Htod. revert wins Hrun.
    funelim (SRP.windows step_days finish start);
      try rewrite <- Heqcall; intros wins Hrun; try discriminate.
    + injection Hrun as <-. constructor.
    + destruct (SRP.windows step_days finish next) as [rest err] eqn:Erest.
      simpl in Hrun. injection Hrun as <- ->.
      constructor.
      * cbn [fst snd]. split; [eapply clipped_window_ordered; eassumption|lia].
      * match goal with IH : forall _, _ -> Forall _ _ |- _ => apply IH; reflexivity end.
Qed.

Lemma date_ranges_windows_tile_witness :
  let wins := [(mk_datetime 2020 1 1, mk_datetime 2020 7 1);
               (mk_datetime 2020 7 2, mk_datetime 2020 12 31);
               (mk_datetime 2021 1 1, mk_datetime 2021 1 30)] in
  tiles (date_of (mk_datetime 2020 1 1)) (date_of (mk_datetime 2021 1 30))
        (map window_range wins)
  /\ Forall (fun win => fst win <= snd win <= mk_datetime 2021 1 30) wins.
Proof.
  intros wins.
  apply (date_ranges_windows_tile 182 (mk_datetime 2021 1 30) (mk_datetime 2020 1 1)).
  - vm_compute. discriminate.
  - vm_compute. discriminate.
  - vm_compute. reflexivity.
Defined.

(** ** The totals of a crawl *)

Section TotalsOfCrawl.
Variable env : Env.
Variable before : Z * Z.

(** A fact that does not depend on the state holds after a computation
    as it did before. *)
Lemma hoare_pure {A} (F : Prop) (m : M A) :
  hoare (fun _ => F) m (fun _ _ => F) anyhow.
Proof. intros w HF. destruct (m w) as [[a|e] w1]; [exact HF|exact I]. Qed.

Lemma crawl_item_in_period (item : Item) (c : Counters) :
  hoare (fun _ => in_period before c) (crawl_item env item c)
        (fun c' _ => in_period before c') anyhow.
Proof.
  intros w (H1 & H2 & H3 & H4). rewrite crawl_item_cases.
  destruct (download_zip env _ _ _ w) as [[[]|e] w1];
    unfold in_period; simpl; repeat split; lia.
Qed.

Lemma yield_items_in_period (its : list Item) (c : Counters) :
  hoare (fun _ => in_period before c) (yield_items (crawl_item env) its c)
        (fun c' _ => in_period before c') anyhow.
Proof.
  unfold yield_items.
  apply (hoare_for_each (fun c' _ => in_period before c') anyhow).
  intros it c1. eapply hoare_bind; [apply hoare_pure|]. intros ?.
  apply crawl_item_in_period.
Qed.

Lemma iter_search_pages_in_period (s e : datetime) (c : Counters) :
  hoare (fun _ => in_period before c) (iter_search_pages env s e (crawl_item env) c)
        (fun c' _ => in_period before c') anyhow.
Proof.
  unfold iter_search_pages.
  eapply hoare_bind; [apply hoare_pure|]. intros r.
  eapply hoare_bind; [apply hoare_pure|]. intros ?.
  eapply hoare_bind; [apply hoare_pure|]. intros ?.
  eapply hoare_bind; [apply hoare_pure|]. intros b.
  eapply hoare_bind; [apply yield_items_in_period|]. intros c1.
  apply (hoare_for_each (fun c' _ => in_period before c') anyhow).
  intros p c2.
  eapply hoare_bind; [apply hoare_pure|]. intros r'.
  eapply hoare_bind; [apply hoare_pure|]. intros ?.
  eapply hoare_bind; [apply hoare_pure|]. intros ?.
  eapply hoare_bind; [apply hoare_pure|]. intros b'.
  eapply hoare_bind; [apply yield_items_in_period|]. intros c3.
  eapply hoare_bind; [apply hoare_pure|]. intros ?.
  apply hoare_ret. tauto.
Qed.

Lemma crawl_window_in_period (win : datetime * datetime) (c : Counters) :
  hoare (fun _ => in_period before c) (crawl_window env win c)
        (fun c' _ => in_period before c') anyhow.
Proof.
  destruct win as [s e]. unfold crawl_window.
  eapply hoare_bind; [apply hoare_pure|]. intros tc.
  eapply hoare_weaken; [| |apply iter_search_pages_in_period].
  - intros w H. exact H.
  - intros c' w H. exact H.
Qed.

(** A completed period adds its two counts to the totals. *)
Lemma crawl_period_totals (depth : nat) (cs ce : datetime) (w w' : State)
    (row : SummaryRow) (totals : Z * Z) :
  crawl_period env depth cs ce before w = (Ok (row, totals), w') ->
  fst totals = fst before + row_downloaded row
  /\ snd totals = snd before + row_failed row
  /\ 0 <= row_downloaded row /\ 0 <= row_failed row.
Proof.
  unfold crawl_period. rewrite bind_eq.
  destruct (split_window_if_needed env depth cs ce w) as [[wins|ex] w1]; [|discriminate].
  rewrite bind_eq.
  pose proof (hoare_for_each (fun c' _ => in_period before c') anyhow wins
                (crawl_window env) crawl_window_in_period
                (mkCounters 0 0 0 (fst before) (snd before)) w1) as Hfor.
  destruct (for_each wins (crawl_window env) _ w1) as [[c|ex] w2]; [|discriminate].
  unfold ret. intros H. injection H as <- <- _. simpl.
  apply Hfor. unfold in_period. simpl. lia.
Qed.

End TotalsOfCrawl.

Lemma crawl_loop_totals (env : Env) (depth : nat) (finish_date current_start : datetime)
    (acc : list SummaryRow * (Z * Z)) (w : State) :
  forall rows totals w',
  crawl_loop env depth finish_date current_start acc w = (Ok (rows, totals), w') ->
  exists new,
    rows = fst acc ++ new
    /\ fst totals = fst (snd acc) + sum_downloaded new
    /\ snd totals = snd (snd acc) + sum_failed new
    /\ Forall (fun r => 0 <= row_downloaded r /\ 0 <= row_failed r) new.
Proof.
  funelim (crawl_loop env depth finish_date current_start acc w);
    try rewrite <- Heqcall; intros rows totals' w'' Hrun; try discriminate.
  - injection Hrun as Hacc _. subst acc.
    exists []. rewrite app_nil_r. unfold sum_downloaded, sum_failed. simpl.
    split; [reflexivity|]. split; [lia|]. split; [lia|constructor].
  - match goal with Hq : crawl_period _ _ _ _ _ _ = _ |- _ =>
      pose proof (crawl_period_totals _ _ _ _ _ _ _ _ _ Hq) as (Hd & Hf & Hd0 & Hf0) end.
    match goal with IH : forall _ _ _, _ -> exists _, _ |- _ =>
      destruct (IH rows totals' w'' Hrun) as (new & Hrows & Hsd & Hsf & Hall) end.
    exists (row :: new). simpl in Hrows, Hsd, Hsf. rewrite <- app_assoc in Hrows.
    split; [exact Hrows|].
    unfold sum_downloaded, sum_failed in *. simpl.
    split; [lia|]. split; [lia|]. constructor; [split; assumption|exact Hall].
Qed.

(** X7: the two totals that [crawl] holds when its loop ends, and logs,
    are the sums of the downloaded and of the failed column of the
    summary sheet, and no count of the sheet is negative. *)
Theorem crawl_totals_are_column_sums (env : Env) (depth : nat)
    (start_date finish_date : datetime) (w w' : State)
    (rows : list SummaryRow) (total_downloaded total_failed : Z) :
  crawl_loop env depth finish_date start_date ([], (0, 0)) w
  = (Ok (rows, (total_downloaded, total_failed)), w') ->
  total_downloaded = sum_downloaded rows
  /\ total_failed = sum_failed rows
  /\ Forall (fun r => 0 <= row_downloaded r /\ 0 <= row_failed r) rows.
Proof.
  intros Hrun.
  destruct (crawl_loop_totals _ _ _ _ _ _ _ _ _ Hrun) as (new & Hrows & Hd & Hf & Hall).
  simpl in Hrows, Hd, Hf. subst rows. repeat split; assumption.
Qed.

Lemma crawl_totals_are_column_sums_witness :
  let rows := [mkRow (ymd2ord 2020 1 1) (ymd2ord 2020 1 8) 15 12 0] in
  15 = sum_downloaded rows
  /\ 0 = sum_failed rows
  /\ Forall (fun r => 0 <= row_downloaded r /\ 0 <= row_failed r) rows.
Proof.
  intros rows.
  apply (crawl_totals_are_column_sums
           (Samples.env_of (Samples.range_total Samples.jan5_6) [Samples.shop]) 5
           (mk_datetime 2020 1 1) (mk_datetime 2020 1 8) Samples.w0
           (snd (crawl_loop (Samples.env_of (Samples.range_total Samples.jan5_6)
                               [Samples.shop]) 5
                   (mk_datetime 2020 1 8) (mk_datetime 2020 1 1) ([], (0, 0))
                   Samples.w0))).
  vm_compute. reflexivity.
Defined.

(** ** Failing and throttled requests *)

(** An exception of a period ends the loop of [crawl]. *)
Lemma crawl_loop_raise (env : Env) (depth : nat) (finish_date current_start t : datetime)
    (acc : list SummaryRow * (Z * Z)) (w w' : State) (e : exn) :
  current_start <= finish_date ->
  dt_add current_start (days DATE_STEP_DAYS) = Some t ->
  crawl_period env depth current_start (Z.min t finish_date) (snd acc) w = (Raise e, w') ->
  crawl_loop env depth finish_date current_start acc w = (Raise e, w').
Proof.
  revert t w' e.
  funelim (crawl_loop env depth finish_date current_start acc w);
    try rewrite <- Heqcall; intros t0 w0 e0 Hle' Ht' Hrun.
  all: try (match goal with Hf : Z.leb _ _ = false |- _ =>
              pose proof (proj1 (Z.leb_gt _ _) Hf); lia end).
  all: try congruence.
Qed.

(** X8: [crawl] does not survive a refused search: when [SESSION.get]
    returns, for the count query of the first period, a response with
    an error status (one that the adapter of the session does not send
    again, so none of 429, 500, 502, 503 and 504) other than 403,
    [crawl] raises the [HTTPError] of that response after this one call
    of [SESSION.get], without sleeping or asking again, and having
    written only the header of the CSV file; no summary is produced. *)
Theorem crawl_aborts_on_failed_count (env : Env) (depth : nat)
    (start_date finish_date : datetime) (w : State) (r : Response) (msg : string) :
  open_err env OUTPUT_CSV = None ->
  start_date <= finish_date ->
  in_range (start_date + days DATE_STEP_DAYS) = true ->
  let current_end := Z.min (start_date + days DATE_STEP_DAYS) finish_date in
  let req := search_request (count_params start_date current_end) in
  srv env (nreq w) req = Resp r ->
  handed_over r ->
  status_code r <> 403 ->
  http_error_msg r = Some msg ->
  crawl env (S depth) start_date finish_date w
  = (Raise (Exn HTTPError msg),
     mkState (clock w) (S (nreq w))
             (trace w ++ [EvOpen OUTPUT_CSV; EvRow csv_header; EvRequest req])).
Proof.
  intros Hopen Hle Hin current_end req Hr _ H403 Hmsg.
  unfold crawl. rewrite bind_eq. unfold open_for_write. rewrite Hopen.
  unfold emit at 1. rewrite bind_eq. unfold emit at 1. rewrite bind_eq.
  assert (Hperiod : forall totals w0, nreq w0 = nreq w ->
            crawl_period env (S depth) start_date current_end totals w0
            = (Raise (Exn HTTPError msg),
               mkState (clock w0) (S (nreq w0)) (trace w0 ++ [EvRequest req]))).
  { intros totals w0 Hn. unfold crawl_period. rewrite bind_eq.
    cbn [split_window_if_needed]. rewrite bind_eq.
    unfold search_count. rewrite bind_eq. unfold session_get at 1.
    fold req. rewrite Hn, Hr. rewrite bind_eq.
    unfold rate_limit_sleep.
    destruct (status_code r =? 403) eqn:E; [apply Z.eqb_eq in E; contradiction|].
    unfold ret at 1. rewrite bind_eq. unfold raise_for_status. rewrite Hmsg.
    reflexivity. }
  erewrite (crawl_loop_raise env (S depth) finish_date start_date
              (start_date + days DATE_STEP_DAYS) ([], (0, 0)));
    [|exact Hle|unfold dt_add; rewrite Hin; reflexivity|apply Hperiod; reflexivity].
  cbn [clock nreq trace]. rewrite <- !app_assoc. reflexivity.
Qed.

Lemma crawl_aborts_on_failed_count_witness :
  crawl bad_credentials 1 (mk_datetime 2020 1 1) (mk_datetime 2021 1 30) Samples.w0
  = (Raise (Exn HTTPError
       "401 Client Error: Unauthorized for url: https://api.github.com/search/repositories"),
     mkState 0 1
       [EvOpen OUTPUT_CSV; EvRow csv_header;
        EvRequest (search_request
                     (count_params (mk_datetime 2020 1 1) (mk_datetime 2020 7 1)))]).
Proof.
  apply (crawl_aborts_on_failed_count bad_credentials 0
           (mk_datetime 2020 1 1) (mk_datetime 2021 1 30) Samples.w0
           (error_response 401 "Unauthorized")).
  - reflexivity.
  - vm_compute. discriminate.
  - reflexivity.
  - reflexivity.
  - unfold handed_over, status_forcelist. simpl. intros H.
    repeat (apply elem_of_cons in H as [H|H]; [discriminate H|]).
    apply elem_of_nil in H. exact H.
  - discriminate.
  - reflexivity.
Defined.

Section Retries.
Variable env : Env.
Variable req : Request.

Lemma get_step_throttled (fuel : nat) (w : State) (ts : Z) :
  throttling (srv env (nreq w) req) ts ->
  SRP._get env (S fuel) req w = SRP._get env fuel req (after_throttled req ts w).
Proof.
  intros (r & Hr & Hth & Hts).
  simpl. unfold session_get. rewrite Hr, Hth.
  unfold SRP.throttle_wait. rewrite bind_eq. unfold py_int. rewrite Hts.
  unfold ret at 1. rewrite bind_eq. unfold time_time. cbv beta iota.
  unfold time_sleep. cbn [clock nreq trace].
  assert (Hw : (Z.max 0 (ts - clock w + 5) <? 0) = false) by (apply Z.ltb_ge; lia).
  rewrite Hw. unfold after_throttled. cbn [clock nreq trace].
  rewrite <- app_assoc. reflexivity.
Qed.

Lemma get_step_accepted (fuel : nat) (w : State) (b : SearchBody) :
  accepted (srv env (nreq w) req) b ->
  SRP._get env (S fuel) req w = Some (Ok b, after_request w [EvRequest req]).
Proof.
  intros (r & Hr & Hm & Hj).
  simpl. unfold session_get. rewrite Hr.
  assert (Hth : SRP.throttled r = false).
  { unfold SRP.throttled. rewrite (accepted_not_403 r Hm). reflexivity. }
  rewrite Hth, bind_eq, (raise_for_status_accepted r _ Hm).
  unfold resp_json. rewrite Hj. reflexivity.
Qed.

Lemma after_throttles_nreq (tss : list Z) :
  forall w, nreq (after_throttles req tss w) = (nreq w + length tss)%nat.
Proof.
  induction tss as [|ts tss IH]; intros w.
  - simpl. lia.
  - change (after_throttles req (ts :: tss) w)
      with (after_throttles req tss (after_throttled req ts w)).
    rewrite IH. simpl. lia.
Qed.

Lemma get_retries (tss : list Z) :
  forall (w : State) (fuel : nat),
  (forall i ts, tss !! i = Some ts -> throttling (srv env (nreq w + i)%nat req) ts) ->
  ((fuel <= length tss)%nat -> SRP._get env fuel req w = None)
  /\ ((length tss < fuel)%nat ->
      SRP._get env fuel req w
      = SRP._get env (fuel - length tss) req (after_throttles req tss w)).
Proof.
  induction tss as [|ts tss IH]; intros w fuel Hth.
  - split; intros Hf; simpl in Hf.
    + assert (fuel = O) by lia. subst fuel. reflexivity.
    + rewrite Nat.sub_0_r. reflexivity.
  - assert (H0 : throttling (srv env (nreq w) req) ts).
    { specialize (Hth O ts eq_refl). rewrite Nat.add_0_r in Hth. exact Hth. }
    assert (Hrest : forall i ts', tss !! i = Some ts' ->
              throttling (srv env (nreq (after_throttled req ts w) + i)%nat req) ts').
    { intros i ts' Hi. specialize (Hth (S i) ts' Hi).
      unfold after_throttled. cbn [nreq].
      replace (S (nreq w) + i)%nat with (nreq w + S i)%nat by lia. exact Hth. }
    destruct fuel as [|fuel].
    + split; intros Hf; [reflexivity|simpl in Hf; lia].
    + rewrite (get_step_throttled fuel w ts H0).
      destruct (IH (after_throttled req ts w) fuel Hrest) as [Hnone Hsome].
      split; intros Hf; simpl in Hf.
      * apply Hnone. lia.
      * rewrite Hsome by lia. reflexivity.
Qed.

End Retries.

(** X9: [GitHubSearchClient._get] sends the identical request again
    after every throttled reply, having slept until five seconds after
    the reset time of that reply (not at all when that moment has
    passed, or when the reply names no reset time).  If the first [k]
    replies are throttled and the next one is accepted, it returns the
    body of that reply after exactly [k + 1] requests, and it is still
    in its loop after [k] iterations. *)
Theorem get_retries_until_accepted (env : Env) (req : Request) (tss : list Z)
    (b : SearchBody) (w : State) (fuel : nat) :
  (forall i ts, tss !! i = Some ts -> throttling (srv env (nreq w + i)%nat req) ts) ->
  accepted (srv env (nreq w + length tss)%nat req) b ->
  let w' := after_request (after_throttles req tss w) [EvRequest req] in
  ((length tss < fuel)%nat -> SRP._get env fuel req w = Some (Ok b, w'))
  /\ ((fuel <= length tss)%nat -> SRP._get env fuel req w = None)
  /\ nreq w' = (nreq w + length tss + 1)%nat.
Proof.
  intros Hth Hacc w'.
  destruct (get_retries env req tss w fuel Hth) as [Hnone Hsome].
  split; [|split].
  - intros Hf. rewrite (Hsome Hf).
    destruct (fuel - length tss)%nat as [|n] eqn:E; [lia|].
    apply get_step_accepted. rewrite after_throttles_nreq. exact Hacc.
  - exact Hnone.
  - unfold w', after_request. cbn [nreq]. rewrite after_throttles_nreq. lia.
Qed.

Lemma get_retries_until_accepted_witness :
  let env := throttled_first 2 in
  let req := SRP.count_request (SRP.default_config "out")
               (ymd2ord 2020 1 1) (ymd2ord 2020 7 1) in
  let tss := [1700000030; 1700000030] in
  let b := mkBody (Some 7) (Some [Samples.shop]) in
  let w' := after_request (after_throttles req tss Samples.w_throttled) [EvRequest req] in
  ((length tss < 5)%nat -> SRP._get env 5 req Samples.w_throttled = Some (Ok b, w'))
  /\ ((5 <= length tss)%nat -> SRP._get env 5 req Samples.w_throttled = None)
  /\ nreq w' = (nreq Samples.w_throttled + length tss + 1)%nat.
Proof.
  intros env req tss b w'.
  apply (get_retries_until_accepted env req tss b Samples.w_throttled 5).
  - intros [|[|i]] ts Hi; simpl in Hi; try discriminate;
      injection Hi as <-; exists Samples.throttled_response;
      repeat split; vm_compute; reflexivity.
  - eexists. repeat split; vm_compute; reflexivity.
Defined.

(** X10: [GitHubSearchClient._get] has no bound on its retries: as
    long as every reply to the request is a throttled one, it stays in
    its loop, whatever the number of iterations allowed.  A reply that
    names no reset time counts as throttled with reset time 0, which is
    in the past, so that the next request follows at once. *)
Theorem get_loops_while_throttled (env : Env) (req : Request) (ts : nat -> Z)
    (fuel : nat) :
  (forall k, throttling (srv env k req) (ts k)) ->
  forall w, SRP._get env fuel req w = None.
Proof.
  intros Hth. induction fuel as [|fuel IH]; intros w; [reflexivity|].
  rewrite (get_step_throttled env req fuel w (ts (nreq w)) (Hth (nreq w))).
  apply IH.
Qed.

Lemma get_loops_while_throttled_witness :
  SRP._get always_throttled 1000
    (SRP.count_request (SRP.default_config "out") (ymd2ord 2020 1 1) (ymd2ord 2020 7 1))
    Samples.w_throttled = None.
Proof.
  apply (get_loops_while_throttled always_throttled _ (fun _ => 0) 1000).
  intros k. exists throttled_no_reset. repeat split; vm_compute; reflexivity.
Defined.

(** ** The periods of [Pipeline.run] *)

Section PipelinePeriod.
Variable env : Env.
Variable cfg : SRP.AppConfig.

Lemma filter_aside (evs : list Event) :
  Forall aside evs -> List.filter is_search evs = [] /\ List.filter is_sleep evs = [].
Proof.
  intros H. split; apply filter_none; (eapply Forall_impl; [exact H|]);
    intros ev [H1 H2]; assumption.
Qed.

Lemma srp_run_item_aside (it : Item) (c : Z * Z * Z) :
  only aside (SRP.run_item env cfg it c).
Proof.
  destruct c as [[pd pf] tp]. unfold SRP.run_item.
  apply only_if; [apply only_ret|].
  apply only_bind.
  - unfold SRP.download_zip. apply only_try.
    + apply only_bind; [|intros; apply only_ret].
      unfold SRP.fetch_archive.
      apply only_bind; [apply only_session_get; split; reflexivity|]. intros r.
      apply only_bind; [apply only_raise_for_status|]. intros _.
      apply only_bind; [apply only_open; split; reflexivity|]. intros _.
      apply only_stream. intros; split; reflexivity.
    + intros e. apply only_ret.
  - intros [ok status].
    apply only_bind; [apply only_emit; split; reflexivity|]. intros _. apply only_ret.
Qed.

(** The item loop of a page returns, and sends no search request and
    does not sleep. *)
Lemma srp_run_items_aside (its : list Item) (c : Z * Z * Z) (w : State) :
  exists c' w' evs,
    for_each its (SRP.run_item env cfg) c w = (Ok c', w')
    /\ trace w' = trace w ++ evs /\ Forall aside evs.
Proof.
  destruct (srp_run_items env cfg its c w) as (c' & w' & Hrun & _).
  destruct (only_for_each aside its (SRP.run_item env cfg) srp_run_item_aside c w)
    as (evs & Ht & Ha).
  rewrite Hrun in Ht. simpl in Ht.
  exists c', w', evs. repeat split; assumption.
Qed.

Variable count : Z -> Z -> Z.
Hypothesis Hsrv : answers_count env count.
Variable fuel : nat.
Hypothesis Hdelay : 0 <= SRP.delay_between_pages_sec cfg.

Lemma get_answered (req : Request) (p : SearchParams) (w : State) :
  req_params req = Some p ->
  exists b,
    SRP._get env (S fuel) req w = Some (Ok b, after_request w [EvRequest req])
    /\ default 0 (total_count b) = count (q_from p) (q_to p).
Proof.
  intros Hp. destruct req as [u ps st]. simpl in Hp. subst ps.
  destruct (Hsrv (nreq w) u p st) as (b & Hacc & Hc).
  exists b. split; [apply get_step_accepted; exact Hacc|exact Hc].
Qed.

(** One page: its request, the events of its items, and a pause unless
    it is the last page. *)
Lemma run_page_events (fs fe pages page : Z) (c : Z * Z * Z) (w : State) :
  exists c' w' evs,
    Pipeline.run_page env cfg (S fuel) fs fe pages page c w = Some (Ok c', w')
    /\ trace w' = trace w ++ EvRequest (Pipeline.page_request cfg fs fe page) :: evs
                  ++ cooldowns (SRP.delay_between_pages_sec cfg) pages [page]
    /\ Forall aside evs.
Proof.
  unfold Pipeline.run_page, Pipeline.search_page, bindP.
  destruct (get_answered (Pipeline.page_request cfg fs fe page) _ w eq_refl)
    as (b & Hget & _).
  rewrite Hget. unfold lift at 1, ret at 1. unfold lift at 1.
  destruct (srp_run_items_aside (default [] (items b)) c
              (after_request w [EvRequest (Pipeline.page_request cfg fs fe page)]))
    as (c' & w1 & evs & Hrun & Ht & Ha).
  rewrite Hrun. exists c'.
  unfold cooldowns. simpl flat_map.
  destruct (page <? pages).
  - unfold lift, time_sleep.
    assert (Hw : (SRP.delay_between_pages_sec cfg <? 0) = false) by (apply Z.ltb_ge; lia).
    rewrite Hw. unfold ret. eexists. exists evs.
    split; [reflexivity|]. split; [|exact Ha].
    cbn [trace]. rewrite Ht. unfold after_request. cbn [trace].
    rewrite app_nil_r, <- !app_assoc. reflexivity.
  - unfold lift, ret. exists w1, evs.
    split; [reflexivity|]. split; [|exact Ha].
    rewrite Ht. unfold after_request. cbn [trace].
    rewrite !app_nil_r, <- !app_assoc. reflexivity.
Qed.

(** The pages [ps] of a period, one after the other. *)
Lemma run_pages_events (fs fe pages : Z) (ps : list Z) :
  forall (c : Z * Z * Z) (w : State),
  exists c' w' evs,
    for_eachP ps (Pipeline.run_page env cfg (S fuel) fs fe pages) c w = Some (Ok c', w')
    /\ trace w' = trace w ++ evs
    /\ List.filter is_search evs
       = map (fun p => EvRequest (Pipeline.page_request cfg fs fe p)) ps
    /\ List.filter is_sleep evs
       = cooldowns (SRP.delay_between_pages_sec cfg) pages ps.
Proof.
  induction ps as [|p ps IH]; intros c w.
  - exists c, w, []. simpl. rewrite app_nil_r. repeat split; reflexivity.
  - cbn [for_eachP]. unfold bindP at 1.
    destruct (run_page_events fs fe pages p c w) as (c1 & w1 & evs1 & Hrun1 & Ht1 & Ha1).
    rewrite Hrun1.
    destruct (IH c1 w1) as (c' & w' & evs & Hrun & Ht & Hs & Hz).
    rewrite Hrun. exists c', w'.
    eexists. split; [reflexivity|].
    split; [rewrite Ht, Ht1, <- app_assoc; reflexivity|].
    destruct (filter_aside evs1 Ha1) as [Hf1 Hf2].
    assert (Hc1 : List.filter is_search
                    (cooldowns (SRP.delay_between_pages_sec cfg) pages [p]) = []).
    { unfold cooldowns. simpl. destruct (p <? pages); reflexivity. }
    assert (Hc2 : List.filter is_sleep
                    (cooldowns (SRP.delay_between_pages_sec cfg) pages [p])
                  = cooldowns (SRP.delay_between_pages_sec cfg) pages [p]).
    { unfold cooldowns. simpl. destruct (p <? pages); reflexivity. }
    split.
    + rewrite List.filter_app. cbn [List.filter is_search Pipeline.page_request req_params].
      rewrite !List.filter_app, Hf1, Hc1, Hs. reflexivity.
    + rewrite List.filter_app. cbn [List.filter is_sleep].
      rewrite !List.filter_app, Hf2, Hc2, Hz.
      unfold cooldowns. simpl. rewrite app_nil_r. reflexivity.
Qed.

(** All pages but the last are followed by a pause. *)
Lemma cooldowns_of_range (delay pages : Z) :
  cooldowns delay pages (py_range 1 (pages + 1))
  = repeat (EvSleep delay) (Z.to_nat (pages - 1)).
Proof.
  destruct (Z.le_gt_cases pages 0) as [H0|H1].
  - rewrite py_range_empty by lia.
    replace (Z.to_nat (pages - 1)) with O by lia. reflexivity.
  - rewrite (py_range_app 1 pages (pages + 1)) by lia.
    unfold cooldowns. rewrite flat_map_app.
    rewrite (py_range_cons pages (pages + 1)) by lia.
    rewrite (py_range_empty (pages + 1) (pages + 1)) by lia. simpl.
    rewrite Z.ltb_irrefl, app_nil_r.
    rewrite <- py_range_length.
    assert (Hall : Forall (fun p => p < pages) (py_range 1 pages)).
    { apply List.Forall_forall. intros p Hp. apply py_range_in in Hp. lia. }
    revert Hall. generalize (py_range 1 pages). intros l Hall.
    induction Hall as [|p l Hp _ IH]; [reflexivity|].
    simpl. apply Z.ltb_lt in Hp. rewrite Hp. simpl. rewrite IH. reflexivity.
Qed.

End PipelinePeriod.

(** X11: a period of [Pipeline.run] under a server that answers every
    search with the count of its date range: after the count query the
    pages 1 to [ceil(total_count / per_page)] are requested, each once
    and in order, with no cap at the first thousand results; the run
    pauses for the configured delay after every page but the last, and
    the summary gets one row for the period with that number of pages.
    Downloads add no search request and no pause. *)
Theorem pipeline_period_pages (env : Env) (cfg : SRP.AppConfig) (count : Z -> Z -> Z)
    (fuel : nat) (win : datetime * datetime) (acc : list SummaryRow * Z) (w : State) :
  answers_count env count ->
  0 <= SRP.delay_between_pages_sec cfg ->
  let fs := date_of (fst win) in
  let fe := date_of (snd win) in
  let pages := SRP.pages_of cfg (count fs fe) in
  exists downloaded failed total_processed w' evs,
    Pipeline.run_period env cfg (S fuel) win acc w
    = Some (Ok (fst acc ++ [mkRow fs fe downloaded pages failed], total_processed), w')
    /\ trace w' = trace w ++ evs
    /\ List.filter is_search evs
       = EvRequest (SRP.count_request cfg fs fe)
         :: map (fun p => EvRequest (Pipeline.page_request cfg fs fe p))
                (py_range 1 (pages + 1))
    /\ List.filter is_sleep evs
       = repeat (EvSleep (SRP.delay_between_pages_sec cfg)) (Z.to_nat (pages - 1)).
Proof.
  intros Hsrv Hdelay fs fe pages.
  unfold Pipeline.run_period, Pipeline.search_total_count. fold fs fe.
  unfold bindP at 1. unfold bindP at 1.
  destruct (get_answered env count Hsrv fuel (SRP.count_request cfg fs fe) _ w eq_refl)
    as (b & Hget & Hc).
  rewrite Hget. unfold lift at 1, ret at 1. rewrite Hc.
  change (count (q_from _) (q_to _)) with (count fs fe). fold pages.
  destruct (run_pages_events env cfg count Hsrv fuel Hdelay fs fe pages
              (py_range 1 (pages + 1)) (0, 0, snd acc)
              (after_request w [EvRequest (SRP.count_request cfg fs fe)]))
    as ([[pd pf] tp] & w' & evs & Hrun & Ht & Hs & Hz).
  unfold bindP. rewrite Hrun. unfold lift, ret.
  exists pd, pf, tp, w'. eexists.
  split; [reflexivity|].
  split; [rewrite Ht; unfold after_request; cbn [trace]; rewrite <- app_assoc; reflexivity|].
  split.
  - simpl. rewrite Hs. reflexivity.
  - simpl. rewrite Hz. apply cooldowns_of_range.
Qed.

Lemma pipeline_period_pages_witness :
  let env := Samples.env_of Samples.always_1500 [Samples.shop] in
  let cfg := SRP.default_config "out" in
  let fs := date_of (mk_datetime 2020 1 1) in
  let fe := date_of (mk_datetime 2020 7 1) in
  let pages := SRP.pages_of cfg (Samples.always_1500 fs fe) in
  exists downloaded failed total_processed w' evs,
    Pipeline.run_period env cfg 1 (mk_datetime 2020 1 1, mk_datetime 2020 7 1)
      ([], 0) Samples.w0
    = Some (Ok ([] ++ [mkRow fs fe downloaded pages failed], total_processed), w')
    /\ trace w' = trace Samples.w0 ++ evs
    /\ List.filter is_search evs
       = EvRequest (SRP.count_request cfg fs fe)
         :: map (fun p => EvRequest (Pipeline.page_request cfg fs fe p))
                (py_range 1 (pages + 1))
    /\ List.filter is_sleep evs
       = repeat (EvSleep (SRP.delay_between_pages_sec cfg)) (Z.to_nat (pages - 1)).
Proof.
  intros env cfg fs fe pages.
  apply (pipeline_period_pages env cfg Samples.always_1500 0
           (mk_datetime 2020 1 1, mk_datetime 2020 7 1) ([], 0) Samples.w0).
  - apply env_of_answers.
  - vm_compute. discriminate.
Defined.

(** ** The bookkeeping of [Pipeline.run] *)

Section PartialRules.

Lemma hoareP_bind {A B} (Pre : State -> Prop) (R : A -> State -> Prop)
    (Q : B -> State -> Prop) (m : P A) (f : A -> P B) :
  hoareP Pre m R -> (forall a, hoareP (R a) (f a) Q) -> hoareP Pre (bindP m f) Q.
Proof.
  intros Hm Hf w Hw. unfold bindP. specialize (Hm w Hw).
  destruct (m w) as [[[a|e] w1]|]; [apply Hf, Hm|exact I|exact I].
Qed.

Lemma hoareP_for_each {A S} (I : S -> State -> Prop) (xs : list A)
    (body : A -> S -> P S) :
  (forall x s, hoareP (I s) (body x s) I) ->
  forall s, hoareP (I s) (for_eachP xs body s) I.
Proof.
  intros Hb. induction xs as [|x xs IH]; intros s; simpl.
  - intros w Hw. exact Hw.
  - eapply hoareP_bind; [apply Hb|exact IH].
Qed.

Lemma hoareP_lift {A} (Pre : State -> Prop) (Q : A -> State -> Prop) (m : M A) :
  hoare Pre m Q anyhow -> hoareP Pre (lift m) Q.
Proof.
  intros Hm w Hw. unfold lift. specialize (Hm w Hw).
  destruct (m w) as [[a|e] w1]; [exact Hm|exact I].
Qed.

Lemma hoareP_weaken {A} (Pre Pre' : State -> Prop) (Q Q' : A -> State -> Prop)
    (m : P A) :
  (forall w, Pre' w -> Pre w) -> (forall a w, Q a w -> Q' a w) ->
  hoareP Pre m Q -> hoareP Pre' m Q'.
Proof.
  intros HP HQ Hm w Hw. specialize (Hm w (HP w Hw)).
  destruct (m w) as [[[a|e] w1]|]; [apply HQ, Hm|exact I|exact I].
Qed.

(** A computation whose events are no rows keeps the number of rows. *)
Lemma hoare_no_rows {A} (F : Z -> Prop) (m : M A) :
  only (fun ev => is_row ev = false) m ->
  hoare (fun w => F (rows w)) m (fun _ w => F (rows w)) anyhow.
Proof.
  intros Hm w Hw. destruct (Hm w) as (evs & Ht & Hq).
  destruct (m w) as [[a|e] w1]; [|exact I]. simpl in Ht.
  unfold rows in *. rewrite (count_events_app is_row w w1 evs Ht).
  rewrite filter_none by exact Hq. simpl. rewrite Z.add_0_r. exact Hw.
Qed.

End PartialRules.

Section PipelineBooks.
Variable env : Env.
Variable cfg : SRP.AppConfig.
Variable fuel : nat.

(** The events of [_get] are requests and sleeps. *)
Lemma get_events (Q : Event -> Prop) (req : Request) :
  Q (EvRequest req) -> (forall secs, Q (EvSleep secs)) ->
  forall (n : nat) (w : State) (r : result SearchBody) (w' : State),
    SRP._get env n req w = Some (r, w') ->
    exists evs, trace w' = trace w ++ evs /\ Forall Q evs.
Proof.
  intros Hreq Hsleep. induction n as [|n IH]; intros w r w' Hrun; [discriminate|].
  simpl in Hrun.
  destruct (only_session_get Q env req Hreq w) as (evs1 & Ht1 & Hq1).
  destruct (session_get env req w) as [[resp|e] w1]; simpl in Ht1.
  - destruct (SRP.throttled resp).
    + assert (Hwait : only Q (SRP.throttle_wait resp)).
      { unfold SRP.throttle_wait.
        apply only_bind; [apply only_py_int|]. intros ts.
        apply only_bind; [apply only_time_time|]. intros now.
        apply only_time_sleep, Hsleep. }
      destruct (Hwait w1) as (evs2 & Ht2 & Hq2).
      destruct (SRP.throttle_wait resp w1) as [[[]|e] w2]; simpl in Ht2.
      * destruct (IH w2 r w' Hrun) as (evs3 & Ht3 & Hq3).
        exists (evs1 ++ evs2 ++ evs3).
        rewrite Ht3, Ht2, Ht1, <- !app_assoc.
        split; [reflexivity|]. repeat (apply Forall_app; split); assumption.
      * injection Hrun as <- <-. exists (evs1 ++ evs2).
        rewrite Ht2, Ht1, <- !app_assoc.
        split; [reflexivity|]. apply Forall_app; split; assumption.
    + assert (Hlast : only Q (raise_for_status resp ;; resp_json resp)%py).
      { apply only_bind; [apply only_raise_for_status|]. intros _. apply only_resp_json. }
      destruct (Hlast w1) as (evs2 & Ht2 & Hq2).
      injection Hrun as Hrun. rewrite Hrun in Ht2. simpl in Ht2.
      exists (evs1 ++ evs2). rewrite Ht2, Ht1, <- !app_assoc.
      split; [reflexivity|]. apply Forall_app; split; assumption.
  - injection Hrun as <- <-. exists evs1. split; assumption.
Qed.

Lemma get_no_rows (F : Z -> Prop) (req : Request) :
  hoareP (fun w => F (rows w)) (SRP._get env fuel req) (fun _ w => F (rows w)).
Proof.
  intros w Hw.
  destruct (SRP._get env fuel req w) as [[[b|e] w']|] eqn:Hrun; try exact I.
  destruct (get_events (fun ev => is_row ev = false) req eq_refl (fun _ => eq_refl)
              fuel w _ _ Hrun) as (evs & Ht & Hq).
  unfold rows in *. rewrite (count_events_app is_row w w' evs Ht).
  rewrite filter_none by exact Hq. simpl. rewrite Z.add_0_r. exact Hw.
Qed.

Lemma srp_run_item_counted (w0 : State) (c0 : Z * Z * Z) (it : Item) (c : Z * Z * Z) :
  hoare (counted w0 c0 c) (SRP.run_item env cfg it c) (counted w0 c0) anyhow.
Proof.
  destruct c0 as [[pd0 pf0] tp0], c as [[pd pf] tp].
  intros w (H1 & H2 & H3 & H4). unfold SRP.run_item.
  destruct (SRP.skipped it); [unfold ret; repeat split; assumption|].
  rewrite bind_eq.
  destruct (srp_download_zip_returns env cfg it w) as (ok & status & w1 & Hd).
  destruct (srp_download_zip_calm env cfg it w) as (evs & Ht & Hq).
  rewrite Hd in Ht |- *. simpl in Ht.
  rewrite bind_eq. unfold emit at 1. unfold ret.
  destruct (calm_counts w w1 evs Ht Hq) as [Hr1 _].
  set (w2 := mkState (clock w1) (nreq w1) (trace w1 ++ [EvRow _])).
  assert (Hr2 : rows w2 = rows w1 + 1).
  { unfold rows. rewrite (count_events_app is_row w1 w2 [EvRow _] eq_refl).
    reflexivity. }
  unfold counted. destruct ok; repeat split; lia.
Qed.

Lemma run_page_counted (w0 : State) (c0 : Z * Z * Z) (fs fe pages page : Z)
    (c : Z * Z * Z) :
  hoareP (counted w0 c0 c) (Pipeline.run_page env cfg fuel fs fe pages page c)
         (counted w0 c0).
Proof.
  assert (Hrows : forall A (m : M A),
            only (fun ev => is_row ev = false) m ->
            forall c1, hoare (counted w0 c0 c1) m (fun _ => counted w0 c0 c1) anyhow).
  { intros A m Hm [[pd pf] tp]. destruct c0 as [[pd0 pf0] tp0].
    apply (hoare_no_rows
             (fun n => pd0 <= pd /\ pf0 <= pf /\ pd - pd0 + (pf - pf0) = tp - tp0
                       /\ tp - tp0 = n - rows w0) m Hm). }
  assert (Hget : forall req,
            hoareP (counted w0 c0 c) (SRP._get env fuel req) (fun _ => counted w0 c0 c)).
  { intros req. destruct c0 as [[pd0 pf0] tp0], c as [[pd pf] tp].
    apply (get_no_rows
             (fun n => pd0 <= pd /\ pf0 <= pf /\ pd - pd0 + (pf - pf0) = tp - tp0
                       /\ tp - tp0 = n - rows w0)). }
  unfold Pipeline.run_page, Pipeline.search_page.
  apply (hoareP_bind _ (fun _ => counted w0 c0 c)).
  - apply (hoareP_bind _ (fun _ => counted w0 c0 c)); [apply Hget|].
    intros b. apply hoareP_lift. apply hoare_ret. intros w Hw. exact Hw.
  - intros its. cbv beta.
    apply (hoareP_bind _ (counted w0 c0)).
    + apply hoareP_lift.
      apply (hoare_for_each (counted w0 c0) anyhow). intros it c1.
      apply srp_run_item_counted.
    + intros c1. apply (hoareP_bind _ (fun _ => counted w0 c0 c1)).
      * destruct (page <? pages); apply hoareP_lift; apply (Hrows _ _).
        -- apply only_time_sleep. reflexivity.
        -- apply only_ret.
      * intros ?. apply hoareP_lift. apply hoare_ret. intros w Hw. exact Hw.
Qed.

Lemma sums_snoc (l : list SummaryRow) (r : SummaryRow) :
  sum_downloaded (l ++ [r]) = sum_downloaded l + row_downloaded r
  /\ sum_failed (l ++ [r]) = sum_failed l + row_failed r.
Proof.
  unfold sum_downloaded, sum_failed.
  induction l as [|x l [IH1 IH2]]; simpl; [lia|].
  rewrite IH1, IH2. lia.
Qed.

Lemma run_period_summed (w0 : State) (win : datetime * datetime)
    (acc : list SummaryRow * Z) :
  hoareP (summed w0 acc) (Pipeline.run_period env cfg fuel win acc) (summed w0).
Proof.
  intros w (Hsum & Hrows & Hall).
  unfold Pipeline.run_period, Pipeline.search_total_count.
  unfold bindP at 1. unfold bindP at 1.
  pose proof (get_no_rows (fun n => n = rows w)
                (SRP.count_request cfg (date_of (fst win)) (date_of (snd win)))
                w eq_refl) as Hget.
  destruct (SRP._get env fuel _ w) as [[[b|e] w1]|]; try exact I.
  unfold lift at 1, ret at 1.
  set (pages := SRP.pages_of cfg (default 0 (total_count b))).
  pose proof (hoareP_for_each (counted w1 (0, 0, snd acc)) (py_range 1 (pages + 1))
                (Pipeline.run_page env cfg fuel (date_of (fst win)) (date_of (snd win))
                   pages)
                (fun page c => run_page_counted w1 (0, 0, snd acc) _ _ pages page c)
                (0, 0, snd acc) w1) as Hpages.
  unfold bindP.
  destruct (for_eachP _ _ _ w1) as [[[[[pd pf] tp]|e] w2]|]; try exact I.
  unfold lift, ret.
  destruct Hpages as (H1 & H2 & H3 & H4); [unfold counted; lia|].
  unfold summed. cbn [fst snd].
  destruct (sums_snoc (fst acc)
              (mkRow (date_of (fst win)) (date_of (snd win)) pd pages pf)) as [E1 E2].
  rewrite E1, E2. cbn [row_downloaded row_failed].
  split; [lia|]. split; [lia|].
  apply Forall_app. split; [exact Hall|]. repeat constructor; simpl; lia.
Qed.

End PipelineBooks.

(** X12: when [Pipeline.run] completes, [total_processed] is the sum of
    the downloaded and failed columns of the summary and the number of
    rows written to the CSV file after its header: every item that was
    not skipped was counted once, as downloaded or as failed, and got
    one row, whatever the servers answered.  No count of the summary is
    negative. *)
Theorem pipeline_run_books (env : Env) (cfg : SRP.AppConfig) (fuel : nat)
    (output_csv_file : string) (start_date finish_date : datetime)
    (w w' : State) (summary : list SummaryRow) (total_processed : Z) :
  Pipeline.run env cfg fuel output_csv_file start_date finish_date w
  = Some (Ok (summary, total_processed), w') ->
  total_processed = sum_downloaded summary + sum_failed summary
  /\ total_processed = rows w' - rows w - 1
  /\ Forall (fun r => 0 <= row_downloaded r /\ 0 <= row_failed r) summary.
Proof.
  unfold Pipeline.run. unfold bindP at 1. unfold lift at 1, open_for_write.
  destruct (open_err env output_csv_file); [discriminate|].
  unfold emit at 1. unfold bindP at 1. unfold lift at 1, emit at 1.
  cbn [clock nreq trace].
  set (w2 := mkState (clock w) (nreq w)
               ((trace w ++ [EvOpen output_csv_file]) ++ [EvRow Pipeline.csv_header])).
  assert (Hr2 : rows w2 = rows w + 1).
  { unfold rows.
    rewrite (count_events_app is_row w w2
               [EvOpen output_csv_file; EvRow Pipeline.csv_header]).
    - reflexivity.
    - unfold w2. cbn [trace]. rewrite <- app_assoc. reflexivity. }
  pose proof (hoareP_for_each (summed w)
                (fst (SRP.windows Pipeline.step_days finish_date start_date))
                (Pipeline.run_period env cfg fuel)
                (fun win acc => run_period_summed env cfg fuel w win acc)
                ([], 0) w2) as Hloop.
  unfold bindP.
  destruct (for_eachP _ _ _ w2) as [[[acc|e] w3]|]; try discriminate.
  destruct (snd (SRP.windows Pipeline.step_days finish_date start_date));
    [discriminate|].
  unfold lift, ret. intros H. injection H as -> ->.
  apply Hloop. unfold summed, sum_downloaded, sum_failed. simpl.
  split; [reflexivity|]. split; [lia|constructor].
Qed.

Lemma pipeline_run_books_witness :
  let summary := [mkRow (ymd2ord 2020 1 1) (ymd2ord 2020 7 1) 2 1 0;
                  mkRow (ymd2ord 2020 7 2) (ymd2ord 2020 12 31) 2 1 0;
                  mkRow (ymd2ord 2021 1 1) (ymd2ord 2021 1 30) 2 1 0] in
  6 = sum_downloaded summary + sum_failed summary
  /\ 6 = 7 - rows Samples.w0 - 1
  /\ Forall (fun r => 0 <= row_downloaded r /\ 0 <= row_failed r) summary.
Proof.
  intros summary.
  pose (env := Samples.env_of (fun _ _ => 2) [Samples.shop; Samples.blog; Samples.bare]).
  pose (run := Pipeline.run env (SRP.default_config "out") 1 "repos.csv"
                 (mk_datetime 2020 1 1) (mk_datetime 2021 1 30) Samples.w0).
  pose (w' := match run with Some (_, w1) => w1 | None => Samples.w0 end).
  change 7 with (rows w').
  apply (pipeline_run_books env (SRP.default_config "out") 1 "repos.csv"
           (mk_datetime 2020 1 1) (mk_datetime 2021 1 30) Samples.w0 w').
  vm_compute. reflexivity.
Defined.

(** ** The script crawler.py *)

Section LegacyPeriods.
Variable env : Env.

(** A period that completes adds one row, for its two days. *)
Lemma process_period_row (s e : datetime) (acc acc' : list SummaryRow * Z)
    (w w' : State) :
  LegacyScript.process_period env s e acc w = (Ok acc', w') ->
  exists row, fst acc' = fst acc ++ [row] /\ row_range row = (date_of s, date_of e).
Proof.
  unfold LegacyScript.process_period. rewrite bind_eq.
  destruct (LegacyScript.getUrl env _ w) as [[b|ex] w1]; [|discriminate].
  rewrite bind_eq.
  destruct (for_each _ _ _ w1) as [[[[pd pf] tp]|ex] w2]; [|discriminate].
  unfold ret. intros H. injection H as <- _.
  eexists. split; reflexivity.
Qed.

Lemma midnight_date (t : datetime) : at_midnight t -> t = date_of t * usec_per_day.
Proof.
  unfold at_midnight, time_of_day, date_of. intros H.
  pose proof (Z.div_mod t usec_per_day ltac:(unfold usec_per_day; lia)). lia.
Qed.

Lemma midnight_next (t : datetime) (n : Z) : at_midnight t -> at_midnight (t + days n).
Proof.
  unfold at_midnight, time_of_day, days. intros H.
  rewrite Z.mod_add by (unfold usec_per_day; lia). exact H.
Qed.

Lemma periods_loop_tiles (finish_date : datetime) (fuel : nat) :
  at_midnight finish_date ->
  forall (start_date end_date : datetime) (acc : list SummaryRow * Z) (w w' : State)
         (rows : list SummaryRow) (n : Z),
  at_midnight start_date -> at_midnight end_date ->
  start_date <= end_date -> start_date <= finish_date + days 1 ->
  LegacyScript.periods_loop env fuel finish_date start_date end_date acc w
  = Some (Ok (rows, n), w') ->
  exists new last,
    rows = fst acc ++ new
    /\ (last = date_of finish_date \/ last = date_of finish_date - 1)
    /\ tiles (date_of start_date) last (map row_range new).
Proof.
  intros Hmf. induction fuel as [|fuel IH];
    intros s e acc w w' rows n Hms Hme Hse Hsf Hrun; [discriminate|].
  cbn [LegacyScript.periods_loop] in Hrun.
  pose proof (midnight_date _ Hmf) as Ef. pose proof (midnight_date _ Hms) as Es.
  destruct (s <? finish_date) eqn:Hlt.
  - apply Z.ltb_lt in Hlt.
    set (e' := if finish_date <? e then finish_date else e) in Hrun.
    assert (He' : e' = Z.min e finish_date).
    { unfold e'. destruct (finish_date <? e) eqn:E;
        [apply Z.ltb_lt in E|apply Z.ltb_ge in E]; lia. }
    assert (Hme' : at_midnight e').
    { unfold e'. destruct (finish_date <? e); assumption. }
    unfold bindP at 1 in Hrun. unfold lift at 1 in Hrun.
    destruct (LegacyScript.process_period env s e' acc w) as [[acc1|ex] w1] eqn:Hp;
      [|discriminate].
    destruct (process_period_row _ _ _ _ _ _ Hp) as (row & Hrows1 & Hrow).
    unfold bindP at 1 in Hrun. unfold lift at 1, add_or_raise at 1 in Hrun.
    destruct (dt_add e' (days 1)) as [s2|] eqn:Hs2; [|discriminate].
    apply dt_add_some in Hs2.
    unfold ret at 1 in Hrun.
    unfold bindP at 1 in Hrun. unfold lift at 1, add_or_raise at 1 in Hrun.
    destruct (dt_add s2 (days LegacyScript.STEP_DAYS)) as [e2|] eqn:He2; [|discriminate].
    apply dt_add_some in He2.
    unfold ret at 1 in Hrun.
    destruct (IH s2 e2 acc1 w1 w' rows n) as (new & last & Hrows & Hlast & Htiles).
    + subst s2. apply midnight_next, Hme'.
    + subst e2 s2. apply midnight_next, midnight_next, Hme'.
    + subst e2. unfold days, LegacyScript.STEP_DAYS, usec_per_day. lia.
    + subst s2. unfold days, usec_per_day in *. lia.
    + exact Hrun.
    + exists (row :: new), last. rewrite Hrows, Hrows1, <- app_assoc.
      split; [reflexivity|]. split; [exact Hlast|].
      cbn [map tiles]. rewrite Hrow. cbn [fst snd].
      split; [reflexivity|]. split; [apply date_of_mono; lia|].
      rewrite <- date_of_next_day, <- Hs2. exact Htiles.
  - apply Z.ltb_ge in Hlt. unfold lift, ret in Hrun. injection Hrun as Hacc _.
    subst acc. exists []. cbn [fst]. rewrite app_nil_r.
    assert (Hd : date_of s = date_of finish_date \/ date_of s = date_of finish_date + 1).
    { unfold days, usec_per_day in *. lia. }
    destruct Hd as [Hd|Hd].
    + exists (date_of finish_date - 1). split; [reflexivity|].
      split; [right; reflexivity|]. simpl. lia.
    + exists (date_of finish_date). split; [reflexivity|].
      split; [left; reflexivity|]. simpl. lia.
Qed.

(** The loop ends within one iteration for every day from the start to
    the finish, and one more. *)
Lemma periods_loop_ends (finish_date : datetime) (fuel : nat) :
  forall (start_date end_date : datetime) (acc : list SummaryRow * Z) (w : State),
  start_date <= end_date ->
  (Z.to_nat (date_of finish_date + 1 - date_of start_date) < fuel)%nat ->
  LegacyScript.periods_loop env fuel finish_date start_date end_date acc w <> None.
Proof.
  induction fuel as [|fuel IH]; intros s e acc w Hse Hfuel; [lia|].
  cbn [LegacyScript.periods_loop].
  destruct (s <? finish_date) eqn:Hlt; [|discriminate].
  apply Z.ltb_lt in Hlt.
  set (e' := if finish_date <? e then finish_date else e).
  assert (He' : e' = Z.min e finish_date).
  { unfold e'. destruct (finish_date <? e) eqn:E;
      [apply Z.ltb_lt in E|apply Z.ltb_ge in E]; lia. }
  unfold bindP at 1. unfold lift at 1.
  destruct (LegacyScript.process_period env s e' acc w) as [[acc1|ex] w1];
    [|discriminate].
  unfold bindP at 1. unfold lift at 1, add_or_raise at 1.
  destruct (dt_add e' (days 1)) as [s2|] eqn:Hs2; [|discriminate].
  apply dt_add_some in Hs2. unfold ret at 1.
  unfold bindP at 1. unfold lift at 1, add_or_raise at 1.
  destruct (dt_add s2 (days LegacyScript.STEP_DAYS)) as [e2|] eqn:He2; [|discriminate].
  apply dt_add_some in He2. unfold ret at 1.
  apply IH.
  - subst e2. unfold days, LegacyScript.STEP_DAYS, usec_per_day. lia.
  - assert (Hd : date_of s2 = date_of e' + 1) by (subst s2; apply date_of_next_day).
    assert (Hd1 : date_of s <= date_of e') by (apply date_of_mono; lia).
    assert (Hd2 : date_of e' <= date_of finish_date) by (apply date_of_mono; lia).
    lia.
Qed.

End LegacyPeriods.

(** X13: the periods of the script crawler.py, for a start, a first end
    and a finish at midnight with start < finish and start <= end.  The
    loop ends within one iteration for each day from the start to the
    finish, and one more.  When the script completes, the date ranges
    of its summary rows follow one another without gap or overlap from
    the day of the start, and they end on the day of the finish or on
    the day before it: the loop stops when the next start is not
    earlier than the finish, so that a last period of the single day of
    the finish is never queried. *)
Theorem legacy_periods_tile (env : Env) (fuel : nat)
    (start_date end_date finish_date : datetime) (w : State) :
  at_midnight start_date -> at_midnight end_date -> at_midnight finish_date ->
  start_date < finish_date -> start_date <= end_date ->
  ((Z.to_nat (date_of finish_date + 1 - date_of start_date) < fuel)%nat ->
   LegacyScript.script env fuel start_date end_date finish_date w <> None)
  /\ (forall rows n w',
        LegacyScript.script env fuel start_date end_date finish_date w
        = Some (Ok (rows, n), w') ->
        exists last,
          (last = date_of finish_date \/ last = date_of finish_date - 1)
          /\ tiles (date_of start_date) last (map row_range rows)).
Proof.
  intros Hms Hme Hmf Hlt Hse.
  unfold LegacyScript.script. unfold bindP at 1. unfold lift at 1, open_for_write.
  destruct (open_err env LegacyScript.OUTPUT_CSV_FILE) as [msg|].
  - split; [discriminate|]. intros rows n w' H. discriminate.
  - unfold emit at 1. unfold bindP at 1. unfold lift at 1, emit at 1. split.
    + intros Hfuel. apply periods_loop_ends; [exact Hse|exact Hfuel].
    + intros rows n w' Hrun.
      destruct (periods_loop_tiles env finish_date fuel Hmf _ _ _ _ _ _ _
                  Hms Hme Hse ltac:(unfold days, usec_per_day; lia) Hrun)
        as (new & last & Hrows & Hlast & Htiles).
      simpl in Hrows. subst rows. exists last. split; assumption.
Qed.

Lemma legacy_periods_tile_witness :
  let env := Samples.env_of (fun _ _ => 0) [] in
  let start_date := mk_datetime 2020 1 1 in
  let end_date := mk_datetime 2020 6 30 in
  let finish_date := mk_datetime 2021 1 30 in
  ((Z.to_nat (date_of finish_date + 1 - date_of start_date) < 400)%nat ->
   LegacyScript.script env 400 start_date end_date finish_date Samples.w0 <> None)
  /\ (forall rows n w',
        LegacyScript.script env 400 start_date end_date finish_date Samples.w0
        = Some (Ok (rows, n), w') ->
        exists last,
          (last = date_of finish_date \/ last = date_of finish_date - 1)
          /\ tiles (date_of start_date) last (map row_range rows)).
Proof.
  intros env start_date end_date finish_date.
  apply (legacy_periods_tile env 400 start_date end_date finish_date Samples.w0).
  - vm_compute. reflexivity.
  - vm_compute. reflexivity.
  - vm_compute. reflexivity.
  - vm_compute. reflexivity.
  - vm_compute. discriminate.
Defined.

(** X14: the script crawler.py leaves out the last day when a period
    ends on the day before the finish: with a finish one day after the
    first end, a script that completes has processed the single period
    from the start to that end, which stops one day short of the
    finish. *)
Theorem legacy_skips_final_day (env : Env) (fuel : nat)
    (start_date end_date : datetime) (w w' : State)
    (rows : list SummaryRow) (n : Z) :
  start_date <= end_date ->
  let finish_date := end_date + days 1 in
  LegacyScript.script env fuel start_date end_date finish_date w
  = Some (Ok (rows, n), w') ->
  map row_range rows = [(date_of start_date, date_of end_date)]
  /\ date_of finish_date = date_of end_date + 1.
Proof.
  intros Hse finish_date Hrun.
  split; [|apply date_of_next_day].
  unfold LegacyScript.script in Hrun.
  unfold bindP at 1 in Hrun. unfold lift at 1, open_for_write in Hrun.
  destruct (open_err env LegacyScript.OUTPUT_CSV_FILE) as [msg|]; [discriminate|].
  unfold emit at 1 in Hrun. unfold bindP at 1 in Hrun.
  unfold lift at 1, emit at 1 in Hrun.
  destruct fuel as [|fuel]; [discriminate|].
  cbn [LegacyScript.periods_loop] in Hrun.
  assert (Hlt : (start_date <? finish_date) = true).
  { apply Z.ltb_lt. unfold finish_date, days, usec_per_day. lia. }
  assert (Hclip : (finish_date <? end_date) = false).
  { apply Z.ltb_ge. unfold finish_date, days, usec_per_day. lia. }
  rewrite Hlt, Hclip in Hrun.
  unfold bindP at 1 in Hrun. unfold lift at 1 in Hrun.
  destruct (LegacyScript.process_period env start_date end_date _ _)
    as [[acc1|ex] w1] eqn:Hp; [|discriminate].
  destruct (process_period_row _ _ _ _ _ _ _ Hp) as (row & Hrows1 & Hrow).
  unfold bindP at 1 in Hrun. unfold lift at 1, add_or_raise at 1 in Hrun.
  fold finish_date in Hrun.
  destruct (dt_add end_date (days 1)) as [s2|] eqn:Hs2; [|discriminate].
  apply dt_add_some in Hs2. fold finish_date in Hs2. subst s2.
  unfold ret at 1 in Hrun.
  unfold bindP at 1 in Hrun. unfold lift at 1, add_or_raise at 1 in Hrun.
  destruct (dt_add finish_date (days LegacyScript.STEP_DAYS)) as [e2|]; [|discriminate].
  unfold ret at 1 in Hrun.
  destruct fuel as [|fuel]; [discriminate|].
  cbn [LegacyScript.periods_loop] in Hrun.
  rewrite Z.ltb_irrefl in Hrun. unfold lift, ret in Hrun.
  injection Hrun as Hacc _. subst acc1.
  cbn [fst] in Hrows1. rewrite Hrows1. cbn [app map]. rewrite Hrow. reflexivity.
Qed.

Lemma legacy_skips_final_day_witness :
  let start_date := mk_datetime 2020 1 1 in
  let end_date := mk_datetime 2020 6 30 in
  map row_range [mkRow (ymd2ord 2020 1 1) (ymd2ord 2020 6 30) 0 0 0]
  = [(date_of start_date, date_of end_date)]
  /\ date_of (end_date + days 1) = date_of end_date + 1.
Proof.
  intros start_date end_date.
  pose (env := Samples.env_of (fun _ _ => 0) []).
  pose (run := LegacyScript.script env 5 start_date end_date (end_date + days 1)
                 Samples.w0).
  pose (w' := match run with Some (_, w1) => w1 | None => Samples.w0 end).
  apply (legacy_skips_final_day env 5 start_date end_date Samples.w0 w' _ 0).
  - vm_compute. discriminate.
  - vm_compute. reflexivity.
Defined.

Section LegacyPages.
Variable env : Env.

Lemma wget_download_aside (url path : string) :
  only aside (LegacyScript.wget_download env url path).
Proof.
  unfold LegacyScript.wget_download.
  apply only_bind; [apply only_session_get; split; reflexivity|]. intros r.
  apply only_bind; [apply only_raise_for_status|]. intros _.
  apply only_bind; [apply only_open; split; reflexivity|]. intros _.
  apply only_stream. intros; split; reflexivity.
Qed.

Lemma process_item_aside (it : Item) (c : Z * Z * Z) :
  only aside (LegacyScript.process_item env it c).
Proof.
  destruct c as [[pd nd] cnt]. unfold LegacyScript.process_item.
  apply only_if; [|apply only_ret].
  apply only_bind; [|intros; apply only_ret].
  apply only_try.
  - apply only_bind; [apply wget_download_aside|]. intros _.
    apply only_bind; [apply only_emit; split; reflexivity|]. intros _. apply only_ret.
  - intros e. apply only_bind; [apply only_emit; split; reflexivity|]. intros _.
    apply only_ret.
Qed.

(** The body of the item loop never raises. *)
Lemma process_item_returns (it : Item) (c : Z * Z * Z) (w : State) :
  exists c' w', LegacyScript.process_item env it c w = (Ok c', w').
Proof.
  destruct c as [[pd nd] cnt]. unfold LegacyScript.process_item.
  destruct (Legacy.has_topic it); [|unfold ret; eauto].
  rewrite bind_eq. unfold try_except. rewrite bind_eq.
  destruct (LegacyScript.wget_download env _ _ w) as [[[]|e] w1].
  - rewrite bind_eq. unfold emit at 1. unfold ret. eauto.
  - rewrite bind_eq. unfold emit at 1. unfold ret. eauto.
Qed.

Lemma process_items_aside (its : list Item) :
  forall (c : Z * Z * Z) (w : State),
  exists c' w' evs,
    for_each its (LegacyScript.process_item env) c w = (Ok c', w')
    /\ trace w' = trace w ++ evs /\ Forall aside evs.
Proof.
  induction its as [|it its IH]; intros c w.
  - exists c, w, []. simpl. rewrite app_nil_r. repeat split. constructor.
  - cbn [for_each]. rewrite bind_eq.
    destruct (process_item_returns it c w) as (c1 & w1 & Hrun1).
    destruct (process_item_aside it c w) as (evs1 & Ht1 & Ha1).
    rewrite Hrun1 in Ht1 |- *. simpl in Ht1.
    destruct (IH c1 w1) as (c' & w' & evs & Hrun & Ht & Ha).
    exists c', w', (evs1 ++ evs). split; [exact Hrun|].
    split; [rewrite Ht, Ht1, <- app_assoc; reflexivity|].
    apply Forall_app. split; assumption.
Qed.

Variable count : Z -> Z -> Z.
Hypothesis Hsrv : answers_count env count.

Lemma getUrl_answered (req : Request) (p : SearchParams) (w : State) :
  req_params req = Some p ->
  exists b,
    LegacyScript.getUrl env req w = (Ok b, after_request w [EvRequest req])
    /\ default 0 (total_count b) = count (q_from p) (q_to p).
Proof.
  intros Hp. destruct req as [u ps st]. simpl in Hp. subst ps.
  destruct (Hsrv (nreq w) u p st) as (b & (r & Hr & Hm & Hj) & Hc).
  exists b. split; [|exact Hc].
  unfold LegacyScript.getUrl. rewrite bind_eq. unfold session_get. rewrite Hr.
  unfold resp_json. rewrite Hj. reflexivity.
Qed.

Lemma process_pages_events (fs fe : Z) (ps : list Z) :
  forall (c : Z * Z * Z) (w : State),
  exists c' w' evs,
    for_each ps (LegacyScript.process_page env fs fe) c w = (Ok c', w')
    /\ trace w' = trace w ++ evs
    /\ List.filter is_search evs
       = map (fun p => EvRequest (LegacyScript.query_request fs fe (Some p))) ps
    /\ List.filter is_sleep evs
       = repeat (EvSleep LegacyScript.DELAY_BETWEEN_QUERIES) (length ps).
Proof.
  induction ps as [|p ps IH]; intros c w.
  - exists c, w, []. simpl. rewrite app_nil_r. repeat split; reflexivity.
  - cbn [for_each]. rewrite bind_eq.
    unfold LegacyScript.process_page at 1. rewrite bind_eq.
    destruct (getUrl_answered (LegacyScript.query_request fs fe (Some p)) _ w eq_refl)
      as (b & Hget & _).
    rewrite Hget. rewrite bind_eq.
    destruct (process_items_aside (default [] (items b)) c
                (after_request w [EvRequest (LegacyScript.query_request fs fe (Some p))]))
      as (c1 & w1 & evs1 & Hrun1 & Ht1 & Ha1).
    rewrite Hrun1. rewrite bind_eq.
    unfold time_sleep. change (LegacyScript.DELAY_BETWEEN_QUERIES <? 0) with false.
    cbv iota. unfold ret at 1.
    set (w2 := mkState (clock w1 + LegacyScript.DELAY_BETWEEN_QUERIES) (nreq w1)
                 (trace w1 ++ [EvSleep LegacyScript.DELAY_BETWEEN_QUERIES])).
    destruct (IH c1 w2) as (c' & w' & evs & Hrun & Ht & Hs & Hz).
    rewrite Hrun. exists c', w'.
    exists (EvRequest (LegacyScript.query_request fs fe (Some p))
            :: evs1 ++ EvSleep LegacyScript.DELAY_BETWEEN_QUERIES :: evs).
    split; [reflexivity|].
    split.
    { rewrite Ht. unfold w2. cbn [trace]. rewrite Ht1. unfold after_request.
      cbn [trace]. rewrite <- !app_assoc. reflexivity. }
    destruct (filter_aside evs1 Ha1) as [Hf1 Hf2].
    split.
    + cbn [List.filter is_search LegacyScript.query_request req_params map].
      rewrite List.filter_app, Hf1. cbn [List.filter is_search app]. rewrite Hs.
      reflexivity.
    + cbn [List.filter is_sleep].
      rewrite List.filter_app, Hf2. cbn [List.filter is_sleep app length repeat].
      rewrite Hz. reflexivity.
Qed.

End LegacyPages.

(** X15: a period of the script crawler.py under a server that answers
    every search with the count of its date range: the query is sent
    without page number, only for its count, and then again for each of
    the pages 1 to [ceil(total_count / 100)], with no cap at the first
    thousand results; the script sleeps the fixed delay after every
    page, the last one included, and the summary gets one row for the
    period with that number of pages. *)
Theorem legacy_period_pages (env : Env) (count : Z -> Z -> Z)
    (start_date end_date : datetime) (acc : list SummaryRow * Z) (w : State) :
  answers_count env count ->
  let fs := date_of start_date in
  let fe := date_of end_date in
  let pages := Legacy.numberOfPages (Some (count fs fe)) in
  exists downloaded failed processed w' evs,
    LegacyScript.process_period env start_date end_date acc w
    = (Ok (fst acc ++ [mkRow fs fe downloaded pages failed], processed), w')
    /\ trace w' = trace w ++ evs
    /\ List.filter is_search evs
       = EvRequest (LegacyScript.query_request fs fe None)
         :: map (fun p => EvRequest (LegacyScript.query_request fs fe (Some p)))
                (py_range 1 (pages + 1))
    /\ List.filter is_sleep evs
       = repeat (EvSleep LegacyScript.DELAY_BETWEEN_QUERIES) (Z.to_nat pages).
Proof.
  intros Hsrv fs fe pages.
  unfold LegacyScript.process_period. fold fs fe. rewrite bind_eq.
  destruct (getUrl_answered env count Hsrv (LegacyScript.query_request fs fe None) _ w
              eq_refl) as (b & Hget & Hc).
  rewrite Hget.
  assert (Hpages : Legacy.numberOfPages (total_count b) = pages).
  { unfold pages, Legacy.numberOfPages. simpl default at 2.
    rewrite Hc. reflexivity. }
  rewrite Hpages. rewrite bind_eq.
  destruct (process_pages_events env count Hsrv fs fe (py_range 1 (pages + 1))
              (0, 0, snd acc)
              (after_request w [EvRequest (LegacyScript.query_request fs fe None)]))
    as ([[pd nd] cnt] & w' & evs & Hrun & Ht & Hs & Hz).
  rewrite Hrun. unfold ret.
  exists pd, nd, cnt, w'. eexists.
  split; [reflexivity|].
  split; [rewrite Ht; unfold after_request; cbn [trace]; rewrite <- app_assoc; reflexivity|].
  split.
  - simpl. rewrite Hs. reflexivity.
  - simpl. rewrite Hz, py_range_length. f_equal. lia.
Qed.

Lemma legacy_period_pages_witness :
  let env := Samples.env_of Samples.always_1500 [Samples.shop] in
  let fs := date_of (mk_datetime 2020 1 1) in
  let fe := date_of (mk_datetime 2020 6 30) in
  let pages := Legacy.numberOfPages (Some (Samples.always_1500 fs fe)) in
  exists downloaded failed processed w' evs,
    LegacyScript.process_period env (mk_datetime 2020 1 1) (mk_datetime 2020 6 30)
      ([], 0) Samples.w0
    = (Ok ([] ++ [mkRow fs fe downloaded pages failed], processed), w')
    /\ trace w' = trace Samples.w0 ++ evs
    /\ List.filter is_search evs
       = EvRequest (LegacyScript.query_request fs fe None)
         :: map (fun p => EvRequest (LegacyScript.query_request fs fe (Some p)))
                (py_range 1 (pages + 1))
    /\ List.filter is_sleep evs
       = repeat (EvSleep LegacyScript.DELAY_BETWEEN_QUERIES) (Z.to_nat pages).
Proof.
  intros env fs fe pages.
  apply (legacy_period_pages env Samples.always_1500
           (mk_datetime 2020 1 1) (mk_datetime 2020 6 30) ([], 0) Samples.w0).
  apply env_of_answers.
Defined.

(** X16: the script crawler.py takes a reply without [total_count] for
    an empty period, whatever its status: when the first query of a
    period is answered with a body that decodes and has no
    [total_count], as the error messages of the API are, the period is
    recorded with no pages, no downloads and no failures after this one
    request; nothing is raised, retried or waited for. *)
Theorem legacy_error_reply_is_empty_period (env : Env)
    (start_date end_date : datetime) (acc : list SummaryRow * Z) (w : State)
    (r : Response) (b : SearchBody) :
  let fs := date_of start_date in
  let fe := date_of end_date in
  let req := LegacyScript.query_request fs fe None in
  srv env (nreq w) req = Resp r ->
  json r = Some b ->
  total_count b = None ->
  LegacyScript.process_period env start_date end_date acc w
  = (Ok (fst acc ++ [mkRow fs fe 0 0 0], snd acc), after_request w [EvRequest req]).
Proof.
  intros fs fe req Hr Hj Hc.
  unfold LegacyScript.process_period. fold fs fe req. rewrite bind_eq.
  unfold LegacyScript.getUrl. rewrite bind_eq. unfold session_get. rewrite Hr.
  unfold resp_json. rewrite Hj. unfold ret at 1. rewrite Hc.
  reflexivity.
Qed.

Lemma legacy_error_reply_is_empty_period_witness :
  let fs := date_of (mk_datetime 2020 1 1) in
  let fe := date_of (mk_datetime 2020 6 30) in
  LegacyScript.process_period over_the_limit (mk_datetime 2020 1 1)
    (mk_datetime 2020 6 30) ([], 0) Samples.w0
  = (Ok ([] ++ [mkRow fs fe 0 0 0], 0),
     after_request Samples.w0 [EvRequest (LegacyScript.query_request fs fe None)]).
Proof.
  intros fs fe.
  apply (legacy_error_reply_is_empty_period over_the_limit (mk_datetime 2020 1 1)
           (mk_datetime 2020 6 30) ([], 0) Samples.w0 rate_limited (mkBody None None)).
  - reflexivity.
  - reflexivity.
  - reflexivity.
Defined.

(** ** Addresses and file names of the archives *)

Section Strings.

Lemma length_append (x y : string) :
  String.length (x +:+ y) = (String.length x + String.length y)%nat.
Proof. induction x as [|c x IH]; simpl; [reflexivity|]. rewrite IH. reflexivity. Qed.

Lemma substring_prefix (x y : string) :
  String.substring 0 (String.length x) (x +:+ y) = x.
Proof.
  induction x as [|c x IH]; simpl.
  - destruct y; reflexivity.
  - rewrite IH. reflexivity.
Qed.

Lemma append_cancel_r (x y c : string) : x +:+ c = y +:+ c -> x = y.
Proof.
  revert y. induction x as [|a x IH]; intros [|b y] H.
  - reflexivity.
  - apply (f_equal String.length) in H. rewrite !length_append in H. simpl in H. lia.
  - apply (f_equal String.length) in H. rewrite !length_append in H. simpl in H. lia.
  - simpl in H. injection H as -> H. rewrite (IH y H). reflexivity.
Qed.

Lemma append_cancel_l (c x y : string) : c +:+ x = c +:+ y -> x = y.
Proof.
  induction c as [|a c IH]; simpl; intros H; [exact H|].
  injection H as H. apply IH, H.
Qed.

Lemma but_last4_git (x : string) : LegacyScript.but_last4 (x +:+ ".git") = x.
Proof.
  unfold LegacyScript.but_last4. rewrite length_append. simpl String.length.
  replace (String.length x + 4 - 4)%nat with (String.length x) by lia.
  apply substring_prefix.
Qed.

Lemma occurs_replaced (a b : ascii) (s : string) :
  Ascii.eqb b a = false -> occurs a (replace_char a b s) = false.
Proof.
  intros Hab. induction s as [|c s IH]; simpl; [reflexivity|].
  rewrite IH, orb_false_r.
  destruct (Ascii.eqb c a) eqn:E; [exact Hab|exact E].
Qed.

Lemma replace_char_inj (a b : ascii) (s1 : string) :
  forall s2,
  occurs b s1 = false -> occurs b s2 = false ->
  replace_char a b s1 = replace_char a b s2 -> s1 = s2.
Proof.
  induction s1 as [|c1 s1 IH]; intros [|c2 s2] H1 H2 H; simpl in *;
    try discriminate; [reflexivity|].
  apply orb_false_iff in H1 as [Hc1 H1]. apply orb_false_iff in H2 as [Hc2 H2].
  injection H as Hc H. rewrite (IH s2 H1 H2 H). f_equal.
  destruct (Ascii.eqb c1 a) eqn:E1, (Ascii.eqb c2 a) eqn:E2.
  - apply Ascii.eqb_eq in E1, E2. congruence.
  - subst c2. rewrite Ascii.eqb_refl in Hc2. discriminate.
  - subst c1. rewrite Ascii.eqb_refl in Hc1. discriminate.
  - exact Hc.
Qed.

End Strings.

(** X17: for an item whose clone address is the one GitHub reports,
    ["https://github.com/<full_name>.git"], the script crawler.py asks
    for the archive of the branch [master] of that repository, whatever
    the default branch of the item is; this is the address that
    [RepoDownloader._zip_url] builds exactly when the default branch of
    the item is [master], or is not reported. *)
Theorem legacy_fetches_master (item : Item) :
  clone_url item = "https://github.com/" +:+ full_name item +:+ ".git" ->
  LegacyScript.fileToDownload item
  = "https://github.com/" +:+ full_name item +:+ "/archive/refs/heads/master.zip"
  /\ (LegacyScript.fileToDownload item = SRP._zip_url item
      <-> SRP._default_branch item = "master").
Proof.
  intros Hurl.
  assert (E : LegacyScript.fileToDownload item
              = "https://github.com/" +:+ full_name item
                +:+ "/archive/refs/heads/master.zip").
  { unfold LegacyScript.fileToDownload. rewrite Hurl.
    change ("https://github.com/" +:+ full_name item +:+ ".git")
      with (("https://github.com/" +:+ full_name item) +:+ ".git").
    rewrite but_last4_git. reflexivity. }
  split; [exact E|].
  rewrite E. unfold SRP._zip_url.
  generalize (SRP._default_branch item). intros br.
  split.
  - intros H.
    apply (append_cancel_l "https://github.com/") in H.
    apply append_cancel_l in H.
    change ("/archive/refs/heads/master.zip")
      with ("/archive/refs/heads/" +:+ "master" +:+ ".zip") in H.
    apply (append_cancel_l "/archive/refs/heads/") in H.
    apply append_cancel_r in H. symmetry. exact H.
  - intros ->. reflexivity.
Qed.

Lemma legacy_fetches_master_witness :
  LegacyScript.fileToDownload Samples.shop
  = "https://github.com/" +:+ full_name Samples.shop +:+ "/archive/refs/heads/master.zip"
  /\ (LegacyScript.fileToDownload Samples.shop = SRP._zip_url Samples.shop
      <-> SRP._default_branch Samples.shop = "master").
Proof.
  apply (legacy_fetches_master Samples.shop). reflexivity.
Defined.

(** X18: the archives are stored flat and apart.  The file name that
    the script crawler.py and [RepoDownloader._zip_filename] give to
    the archive of an item holds no ["/"], so that the file lies in the
    output folder itself; and two items whose full names hold no ["#"],
    as is the case for every repository of GitHub, get the same file
    name only if they have the same full name. *)
Theorem archive_names_flat_and_distinct (cfg : SRP.AppConfig) (item1 item2 : Item) :
  occurs "#" (full_name item1) = false ->
  occurs "#" (full_name item2) = false ->
  SRP._zip_filename cfg item1
  = SRP.output_folder cfg +:+ "/" +:+ LegacyScript.fileName item1
  /\ occurs "/" (LegacyScript.fileName item1) = false
  /\ (SRP._zip_filename cfg item1 = SRP._zip_filename cfg item2
      <-> full_name item1 = full_name item2).
Proof.
  intros H1 H2. split; [reflexivity|]. split.
  - unfold LegacyScript.fileName.
    assert (Happ : forall x y, occurs "/" (x +:+ y) = occurs "/" x || occurs "/" y).
    { induction x as [|c x IH]; intros y; simpl; [reflexivity|].
      rewrite IH, orb_assoc. reflexivity. }
    rewrite Happ, occurs_replaced by reflexivity. reflexivity.
  - unfold SRP._zip_filename. split.
    + intros H.
      apply append_cancel_l in H. apply (append_cancel_l "/") in H.
      apply append_cancel_r in H.
      apply (replace_char_inj "/" "#" _ _ H1 H2 H).
    + intros ->. reflexivity.
Qed.

Lemma archive_names_flat_and_distinct_witness :
  let cfg := SRP.default_config "out" in
  SRP._zip_filename cfg Samples.shop
  = SRP.output_folder cfg +:+ "/" +:+ LegacyScript.fileName Samples.shop
  /\ occurs "/" (LegacyScript.fileName Samples.shop) = false
  /\ (SRP._zip_filename cfg Samples.shop = SRP._zip_filename cfg Samples.blog
      <-> full_name Samples.shop = full_name Samples.blog).
Proof.
  intros cfg.
  apply (archive_names_flat_and_distinct cfg Samples.shop Samples.blog); reflexivity.
Defined.

(** ** The summary of [Pipeline.run] *)

Section PipelineSummary.
Variable env : Env.
Variable cfg : SRP.AppConfig.
Variable fuel : nat.

Lemma run_period_row (win : datetime * datetime) (acc acc' : list SummaryRow * Z)
    (w w' : State) :
  Pipeline.run_period env cfg fuel win acc w = Some (Ok acc', w') ->
  exists row, fst acc' = fst acc ++ [row] /\ row_range row = window_range win.
Proof.
  unfold Pipeline.run_period. unfold bindP at 1.
  destruct (Pipeline.search_total_count env cfg fuel _ _ w) as [[[tc|ex] w1]|];
    try discriminate.
  unfold bindP.
  destruct (for_eachP _ _ _ w1) as [[[[[pd pf] tp]|ex] w2]|]; try discriminate.
  unfold lift, ret. intros H. injection H as <- _.
  eexists. split; reflexivity.
Qed.

Lemma run_periods_rows (wins : list (datetime * datetime)) :
  forall (acc acc' : list SummaryRow * Z) (w w' : State),
  for_eachP wins (Pipeline.run_period env cfg fuel) acc w = Some (Ok acc', w') ->
  map row_range (fst acc') = map row_range (fst acc) ++ map window_range wins.
Proof.
  induction wins as [|win wins IH]; intros acc acc' w w' Hrun.
  - simpl in Hrun. unfold lift, ret in Hrun. injection Hrun as <- _.
    simpl. rewrite app_nil_r. reflexivity.
  - cbn [for_eachP] in Hrun. unfold bindP at 1 in Hrun.
    destruct (Pipeline.run_period env cfg fuel win acc w) as [[[acc1|ex] w1]|] eqn:Hp;
      try discriminate.
    destruct (run_period_row _ _ _ _ _ Hp) as (row & Hrows & Hrow).
    rewrite (IH _ _ _ _ Hrun), Hrows, map_app. cbn [map].
    rewrite Hrow, <- app_assoc. reflexivity.
Qed.

End PipelineSummary.

(** X19: when [Pipeline.run] completes for a start that is not later
    than the finish and not later in the day than the finish is, its
    summary has one row for each window of [DateRanges.windows], in
    their order, and the date ranges of the rows follow one another
    without gap or overlap from the day of the start to the day of the
    finish. *)
Theorem pipeline_summary_tiles_the_dates (env : Env) (cfg : SRP.AppConfig) (fuel : nat)
    (output_csv_file : string) (start_date finish_date : datetime)
    (w w' : State) (summary : list SummaryRow) (total_processed : Z) :
  start_date <= finish_date ->
  time_of_day start_date <= time_of_day finish_date ->
  Pipeline.run env cfg fuel output_csv_file start_date finish_date w
  = Some (Ok (summary, total_processed), w') ->
  map row_range summary
  = map window_range (fst (SRP.windows Pipeline.step_days finish_date start_date))
  /\ tiles (date_of start_date) (date_of finish_date) (map row_range summary).
Proof.
  intros Hle Htod. unfold Pipeline.run.
  unfold bindP at 1. unfold lift at 1.
  destruct (open_for_write env output_csv_file w) as [[[]|ex] w1]; [|discriminate].
  unfold bindP at 1. unfold lift at 1, emit at 1.
  unfold bindP.
  destruct (for_eachP _ _ _ _) as [[[acc|ex] w3]|] eqn:Hloop; try discriminate.
  destruct (SRP.windows Pipeline.step_days finish_date start_date) as [wins err] eqn:Hw.
  cbn [fst snd] in *.
  destruct err; [discriminate|].
  unfold lift, ret. intros H. injection H as -> ->.
  pose proof (run_periods_rows env cfg fuel wins _ _ _ _ Hloop) as Hrows.
  cbn [fst map app] in Hrows.
  split; [exact Hrows|]. rewrite Hrows.
  apply (date_ranges_tiles Pipeline.step_days finish_date start_date wins);
    [left; split; assumption|exact Hw].
Qed.

Lemma pipeline_summary_tiles_the_dates_witness :
  let summary := [mkRow (ymd2ord 2020 1 1) (ymd2ord 2020 7 1) 2 1 0;
                  mkRow (ymd2ord 2020 7 2) (ymd2ord 2020 12 31) 2 1 0;
                  mkRow (ymd2ord 2021 1 1) (ymd2ord 2021 1 30) 2 1 0] in
  map row_range summary
  = map window_range
      (fst (SRP.windows Pipeline.step_days (mk_datetime 2021 1 30) (mk_datetime 2020 1 1)))
  /\ tiles (date_of (mk_datetime 2020 1 1)) (date_of (mk_datetime 2021 1 30))
           (map row_range summary).
Proof.
  intros summary.
  pose (env := Samples.env_of (fun _ _ => 2) [Samples.shop; Samples.blog; Samples.bare]).
  pose (run := Pipeline.run env (SRP.default_config "out") 1 "repos.csv"
                 (mk_datetime 2020 1 1) (mk_datetime 2021 1 30) Samples.w0).
  pose (w' := match run with Some (_, w1) => w1 | None => Samples.w0 end).
  apply (pipeline_summary_tiles_the_dates env (SRP.default_config "out") 1 "repos.csv"
           (mk_datetime 2020 1 1) (mk_datetime 2021 1 30) Samples.w0 w' summary 6).
  - vm_compute. discriminate.
  - vm_compute. discriminate.
  - vm_compute. reflexivity.
Defined.

(** ** The periods of the variants compared *)

Section SamePeriods.

Lemma windows_done (step_days : nat) (finish start : datetime) :
  finish < start -> fst (SRP.windows step_days finish start) = [].
Proof.
  intros Hlt.
  funelim (SRP.windows step_days finish start); try rewrite <- Heqcall;
    try reflexivity.
  all: match goal with Hle : Z.leb _ _ = true |- _ =>
         pose proof (proj1 (Z.leb_le _ _) Hle); lia end.
Qed.

Lemma windows_step (step_days : nat) (finish start t next : datetime) :
  dt_add start (days (Z.of_nat step_days)) = Some t ->
  start <= finish ->
  dt_add (Z.min t finish) (days 1) = Some next ->
  fst (SRP.windows step_days finish start)
  = (start, Z.min t finish) :: fst (SRP.windows step_days finish next).
Proof.
  revert t next.
  funelim (SRP.windows step_days finish start); try rewrite <- Heqcall;
    intros t' next' Ht' Hle' Hn'.
  - congruence.
  - match goal with Hf : Z.leb _ _ = false |- _ =>
      pose proof (proj1 (Z.leb_gt _ _) Hf); lia end.
  - assert (t' = t) by congruence. subst t'.
    assert (next' = next) by congruence. subst next'.
    cbn [fst]. f_equal. f_equal. lia.
  - assert (t' = t) by congruence. subst t'. congruence.
Qed.

Lemma crawl_loop_periods (env : Env) (depth : nat) (finish_date current_start : datetime)
    (acc : list SummaryRow * (Z * Z)) (w : State) :
  forall rows totals w',
  crawl_loop env depth finish_date current_start acc w = (Ok (rows, totals), w') ->
  map row_range rows
  = map row_range (fst acc)
    ++ map window_range (fst (SRP.windows Pipeline.step_days finish_date current_start)).
Proof.
  funelim (crawl_loop env depth finish_date current_start acc w);
    try rewrite <- Heqcall; intros rows totals' w'' Hrun; try discriminate.
  - injection Hrun as Hacc _. subst acc.
    rewrite windows_done; [simpl; rewrite app_nil_r; reflexivity|].
    match goal with Hf : Z.leb _ _ = false |- _ =>
      pose proof (proj1 (Z.leb_gt _ _) Hf); lia end.
  - assert (Hle' : current_start <= finish_date) by (apply Z.leb_le; assumption).
    assert (Hrow : row_range row = (date_of current_start, date_of (Z.min t finish_date))).
    { match goal with Hq : crawl_period _ _ _ _ _ _ = _ |- _ =>
        exact (crawl_period_row _ _ _ _ _ _ _ _ _ Hq) end. }
    match goal with IH : forall _ _ _, _ -> map _ _ = _ |- _ =>
      rewrite (IH rows totals' w'' Hrun) end.
    rewrite (windows_step Pipeline.step_days finish_date current_start t next)
      by assumption.
    cbn [fst map]. rewrite map_app. cbn [map]. rewrite Hrow, <- app_assoc.
    reflexivity.
Qed.

End SamePeriods.

(** X20: [crawl] of crawler_refactored.py and [Pipeline.run] of the SRP
    variant cut a date range into the same periods: when [crawl]
    returns, in whatever way it partitioned the periods further, its
    summary has one row for each window that [DateRanges.windows]
    yields for the same two dates, with the same two days, in the same
    order. *)
Theorem crawl_periods_are_date_ranges (env : Env) (depth : nat)
    (start_date finish_date : datetime) (w w' : State) (rows : list SummaryRow) :
  crawl env depth start_date finish_date w = (Ok rows, w') ->
  map row_range rows
  = map window_range (fst (SRP.windows Pipeline.step_days finish_date start_date)).
Proof.
  unfold crawl. rewrite bind_eq.
  destruct (open_for_write env OUTPUT_CSV w) as [[[]|ex] w1]; [|discriminate].
  rewrite bind_eq. unfold emit at 1. rewrite bind_eq.
  destruct (crawl_loop env depth finish_date start_date ([], (0, 0)) _)
    as [[[rows' tot]|ex] w2] eqn:Hloop; [|discriminate].
  unfold ret. intros H. injection H as <- _.
  apply (crawl_loop_periods _ _ _ _ _ _ _ _ _ Hloop).
Qed.

Lemma crawl_periods_are_date_ranges_witness :
  map row_range
    [mkRow (ymd2ord 2020 1 1) (ymd2ord 2020 7 1) 0 0 0;
     mkRow (ymd2ord 2020 7 2) (ymd2ord 2020 12 31) 0 0 0;
     mkRow (ymd2ord 2021 1 1) (ymd2ord 2021 1 30) 0 0 0]
  = map window_range
      (fst (SRP.windows Pipeline.step_days (mk_datetime 2021 1 30) (mk_datetime 2020 1 1))).
Proof.
  apply (crawl_periods_are_date_ranges
           (Samples.env_of (fun _ _ => 0) []) 3
           (mk_datetime 2020 1 1) (mk_datetime 2021 1 30) Samples.w0
           (snd (crawl (Samples.env_of (fun _ _ => 0) []) 3
                   (mk_datetime 2020 1 1) (mk_datetime 2021 1 30) Samples.w0))).
  vm_compute. reflexivity.
Defined.
